(** * Check orchestration and status aggregation of [ai_apps_manager.py]

    A shallow embedding of the two batteries of [src/ai_apps_manager.py]:
    the test battery of [AIAppTester] ([run_full_test_suite],
    [_generate_recommendations]) and the health battery of [HealthMonitor]
    ([monitor_all_applications], [_check_application_health]).

    Conventions of the embedding.
    - A Python call that may raise is a [py_result]: [Returned v] or
      [Raised msg], where [msg] is [str(e)] of an instance of [Exception].
    - A [dict] is an association list in insertion order with unique keys,
      which is the iteration order of Python's [dict.items()].
    - Python [int] is [Z].  Response times are Python floats, IEEE 754
      binary64 ([float], with the primitive operations); the two ints that
      can stand in their place, the initial [0] and the [10000] of a
      timeout, are the floats of the same value, as Python's mixed
      arithmetic makes them.  The three threshold decisions are written with
      exact rationals ([Q]); module [Binary64] replays them in binary64 and
      checks that both agree on batteries of bounded size.
    - The fields [app_name], [test_timestamp], [timestamp] and [last_check]
      are clock or path readings that no decision reads; they are left out
      of the result records. *)

From Stdlib Require Import List String Ascii Bool ZArith QArith Lia.
From Stdlib Require Import Floats Uint63.
From Stdlib Require Import DecimalString.
Import ListNotations.

Local Open Scope string_scope.
Local Open Scope Z_scope.

Set Implicit Arguments.

(** ** Python values *)

Module Py.

(** Outcome of a call: a value, or [str(e)] of the raised [Exception]. *)
Inductive py_result (A : Type) : Type :=
| Returned (a : A)
| Raised (e : string).
Arguments Returned {A} a.
Arguments Raised {A} e.

(** Values stored in result dictionaries.  Only strings are ever compared
    or formatted by the code; any other payload (lists of found files,
    booleans, ...) is carried by its [str()] rendering. *)
Inductive pyval : Type :=
| VStr (s : string)
| VOther (rendering : string).

(** [str(v)], as used by an f-string. *)
Definition py_str (v : pyval) : string :=
  match v with
  | VStr s => s
  | VOther r => r
  end.

(** [v == s] for a string literal [s]. *)
Definition py_eq_str (v : option pyval) (s : string) : bool :=
  match v with
  | Some (VStr t) => String.eqb t s
  | _ => false
  end.

Definition dict (V : Type) : Type := list (string * V).

(** [d.get(k)] *)
Fixpoint dict_get {V : Type} (k : string) (d : dict V) : option V :=
  match d with
  | [] => None
  | (k', v) :: d' => if String.eqb k k' then Some v else dict_get k d'
  end.

(** [d.get(k, default)] *)
Definition dict_get_default {V : Type} (k : string) (default : V)
           (d : dict V) : V :=
  match dict_get k d with
  | Some v => v
  | None => default
  end.

(** [k in d] *)
Definition dict_has {V : Type} (k : string) (d : dict V) : bool :=
  match dict_get k d with
  | Some _ => true
  | None => false
  end.

(** [d[k] = v]: an existing key keeps its position, a new key goes last. *)
Fixpoint dict_set {V : Type} (k : string) (v : V) (d : dict V) : dict V :=
  match d with
  | [] => [(k, v)]
  | (k', v') :: d' =>
      if String.eqb k k' then (k, v) :: d' else (k', v') :: dict_set k v d'
  end.

Definition keys {V : Type} (d : dict V) : list string := map fst d.

(** [len(d)] *)
Definition len {A : Type} (l : list A) : Z := Z.of_nat (List.length l).

(** [a / b] on two ints: true division, [ZeroDivisionError] on [b = 0]. *)
Definition truediv (a b : Z) : py_result Q :=
  if b =? 0 then Raised "division by zero"
  else Returned (inject_Z a / inject_Z b)%Q.

(** [float(n)] of a Python int, exact for [0 <= n < 2^53]. *)
Definition float_of_int (n : Z) : float := PrimFloat.of_uint63 (Uint63.of_Z n).

End Py.
Import Py.

(** ** 2. Comprehensive testing framework: [AIAppTester] *)

Module AIAppTester.

(** What a test function returns: a dictionary with a ["status"] and
    free-form payload keys. *)
Definition test_result : Type := dict pyval.

(** [result.get("status") == s] *)
Definition status_is (result : test_result) (s : string) : bool :=
  py_eq_str (dict_get "status" result) s.

(** The dictionary stored for a test function that raised. *)
Definition error_result (e : string) : test_result :=
  [("status", VStr "error"); ("error", VStr e)].

(** One iteration of the [for test_name, test_func in test_suite.items()]
    loop.  [run] is what [await test_func()] produces; the state is
    [(results["tests"], passed_tests)]. *)
Definition run_test (st : dict test_result * Z)
           (item : string * py_result test_result) : dict test_result * Z :=
  let '(tests, passed_tests) := st in
  let '(test_name, run) := item in
  match run with
  | Returned test_result =>
      (dict_set test_name test_result tests,
       if status_is test_result "passed" then passed_tests + 1
       else passed_tests)
  | Raised e =>
      (dict_set test_name (error_result e) tests, passed_tests)
  end.

(** The whole loop, from [results["tests"] = {}] and [passed_tests = 0]. *)
Definition run_tests (test_suite : dict (py_result test_result))
  : dict test_result * Z :=
  fold_left run_test test_suite ([], 0).

(** The [if success_rate >= 0.9 ... else] chain. *)
Definition status_of_rate (success_rate : Q) : string :=
  if Qle_bool (9 # 10) success_rate then "excellent"
  else if Qle_bool (7 # 10) success_rate then "good"
  else if Qle_bool (5 # 10) success_rate then "fair"
  else "poor".

Definition general_recommendations : list string :=
  [ "📚 Add comprehensive README with setup instructions";
    "🐳 Add Dockerfile for containerization";
    "⚙️ Add GitHub Actions CI/CD workflow";
    "📊 Add health check endpoints";
    "🔍 Add logging and monitoring" ].

(** Body of the loop of [_generate_recommendations]: the list after
    looking at one entry of [test_results]. *)
Definition recommend (recommendations : list string)
           (item : string * test_result) : list string :=
  let '(test_name, result) := item in
  if status_is result "failed" then
    recommendations ++
      ["🔴 Fix " ++ test_name ++ ": " ++
         py_str (dict_get_default "error" (VStr "Unknown error") result)]
  else if status_is result "skipped" then
    recommendations ++
      ["⚠️ Implement " ++ test_name ++ ": " ++
         py_str (dict_get_default "recommendation" (VStr "Not implemented")
                                  result)]
  else
    match dict_get "recommendation" result with
    | Some r => recommendations ++ ["💡 " ++ py_str r]
    | None => recommendations
    end.

Definition _generate_recommendations (test_results : dict test_result)
  : list string :=
  fold_left recommend test_results [] ++ general_recommendations.

(** The returned [results] dictionary. *)
Record results : Type := mk_results {
  overall_status : string;
  tests : dict test_result;
  recommendations : list string
}.

(** [run_full_test_suite] with its local [test_suite] dictionary taken as
    an argument. *)
Definition run_suite (test_suite : dict (py_result test_result))
  : py_result results :=
  let '(tests, passed_tests) := run_tests test_suite in
  let total_tests := len test_suite in
  match truediv passed_tests total_tests with
  | Raised e => Raised e
  | Returned success_rate =>
      Returned {| overall_status := status_of_rate success_rate;
                  tests := tests;
                  recommendations := _generate_recommendations tests |}
  end.

(** The two test functions that do not look at the application. *)
Definition _run_integration_tests : py_result test_result :=
  Returned [("status", VStr "skipped");
            ("message", VStr "Integration tests not yet implemented");
            ("recommendation", VStr "Implement AI model integration tests")].

Definition _run_performance_tests : py_result test_result :=
  Returned [("status", VStr "skipped");
            ("message", VStr "Performance tests not yet implemented");
            ("recommendation", VStr "Add performance benchmarking")].

(** The five test functions that inspect the application directory or
    start subprocesses: each is given by what awaiting it produces. *)
Record app_tests : Type := mk_app_tests {
  _test_dependencies : py_result test_result;
  _test_configuration : py_result test_result;
  _run_unit_tests : py_result test_result;
  _run_security_scan : py_result test_result;
  _test_ai_models : py_result test_result
}.

Definition test_suite (self : app_tests) : dict (py_result test_result) :=
  [ ("dependency_check", _test_dependencies self);
    ("configuration_validation", _test_configuration self);
    ("unit_tests", _run_unit_tests self);
    ("integration_tests", _run_integration_tests);
    ("performance_tests", _run_performance_tests);
    ("security_scan", _run_security_scan self);
    ("ai_model_tests", _test_ai_models self) ].

Definition run_full_test_suite (self : app_tests) : py_result results :=
  run_suite (test_suite self).

(** *** Notions used to state the properties *)

(** The outcome recorded for a test function: its return value, or the
    error dictionary of the handler. *)
Definition outcome (run : py_result test_result) : test_result :=
  match run with
  | Returned test_result => test_result
  | Raised e => error_result e
  end.

Definition outcomes (test_suite : dict (py_result test_result))
  : dict test_result :=
  map (fun item => (fst item, outcome (snd item))) test_suite.

(** Number of outcomes with a given status. *)
Definition count_status (s : string) (outcomes : dict test_result) : Z :=
  len (filter (fun item => status_is (snd item) s) outcomes).

(** What one outcome contributes to the recommendations. *)
Definition recommendation_of (item : string * test_result) : list string :=
  recommend [] item.

End AIAppTester.

(** ** 4. Health monitoring system: [HealthMonitor] *)

Module HealthMonitor.

(** The dictionary returned by [_perform_health_check]; all three return
    sites build the same five keys. *)
Record check_result : Type := mk_check_result {
  endpoint : string;
  success : bool;
  status_code : Z;
  check_response_time_ms : float;   (* key "response_time_ms" *)
  message : string
}.

(** The [health_results] dictionary of [_check_application_health]. *)
Record health_results : Type := mk_health_results {
  status : string;
  checks : list check_result;
  response_time_ms : float
}.

(** A value of [config["applications"]], as loaded by [json.load].
    - [ConfigDict]: a JSON object with the three optional keys the monitor
      reads, whose ["health_endpoints"], when present, can be iterated: a
      list, given by its elements (a string iterates as its characters, an
      object as its keys).  [base_url], [port] and the elements are given
      by their rendering in the f-strings.
    - [ConfigNotIterable]: a JSON object whose ["health_endpoints"] is
      [null], a number or a boolean, of the Python type [type_name]
      ([NoneType], [int], [float], [bool]); [for endpoint in ...] raises
      [TypeError] on it.
    - [ConfigOther]: a JSON value that is not an object (a list, a string,
      a number, ...), which has no [get]. *)
Inductive app_config : Type :=
| ConfigDict (base_url : option string) (port : option string)
             (health_endpoints : option (list string))
| ConfigNotIterable (type_name : string)
| ConfigOther (type_name : string).

(** An entry of [results["applications"]]: the health results, or the
    [{"status": "error", "message": str(e)}] of the handler. *)
Inductive app_entry : Type :=
| Health (h : health_results)
| CheckError (error_message : string).

(** [entry["status"]] *)
Definition entry_status (e : app_entry) : string :=
  match e with
  | Health h => status h
  | CheckError _ => "error"
  end.

(** An element of [results["alerts"]]. *)
Record alert : Type := mk_alert {
  app : string;
  alert_status : string;    (* key "status" *)
  alert_message : string    (* key "message" *)
}.

(** The dictionary returned by [monitor_all_applications]. *)
Record snapshot : Type := mk_snapshot {
  overall_status : string;
  applications : dict app_entry;
  alerts : list alert
}.

(** [self.config]: the key ["applications"] may be missing. *)
Record config : Type := mk_config {
  config_applications : option (dict app_config)
}.

(** [a / b] for a float [a] and an int [b], in binary64. *)
Definition truediv_float (a : float) (b : Z) : py_result float :=
  if b =? 0 then Raised "float division by zero"
  else Returned (a / float_of_int b)%float.

(** The [if failed_checks == 0 ... else] chain. *)
Definition health_status (failed_checks : Z) (n_endpoints : Z) : string :=
  if failed_checks =? 0 then "healthy"
  else if Qle_bool (inject_Z failed_checks) (inject_Z n_endpoints * (5 # 10))
  then "degraded"
  else "unhealthy".

(** The [if unhealthy_count == 0 ... else] chain. *)
Definition snapshot_status (unhealthy_count : Z) (total_apps : Z) : string :=
  if unhealthy_count =? 0 then "healthy"
  else if Qle_bool (inject_Z unhealthy_count) (inject_Z total_apps * (2 # 10))
  then "degraded"
  else "unhealthy".

Section Monitor.

(** The network and the applications behind it, and the HTTP probe
    [_perform_health_check(base_url, endpoint)], which catches every
    exception itself and always returns a [check_result]. *)
Variable world : Type.
Variable _perform_health_check :
  string -> string -> world -> check_result * world.

(** Loop state of [_check_application_health]:
    [health_results["checks"]], [total_response_time], [failed_checks]. *)
Definition check_state : Type := (list check_result * float * Z)%type.

Definition check_endpoint (base_url : string)
           (st : check_state * world) (endpoint : string)
  : check_state * world :=
  let '(checks, total_response_time, failed_checks, w) := st in
  let '(result, w') := _perform_health_check base_url endpoint w in
  ((checks ++ [result])%list,
   (total_response_time + check_response_time_ms result)%float,
   if negb (success result) then failed_checks + 1
   else failed_checks,
   w').

Definition _check_application_health (app_name : string)
           (app_config : app_config) (w : world)
  : py_result health_results * world :=
  match app_config with
  | ConfigOther type_name =>
      (Raised ("'" ++ type_name ++ "' object has no attribute 'get'"), w)
  | ConfigNotIterable type_name =>
      (Raised ("'" ++ type_name ++ "' object is not iterable"), w)
  | ConfigDict base_url port health_endpoints =>
      let base_url :=
        match base_url with
        | Some u => u
        | None =>
            "http://localhost:" ++
              match port with Some p => p | None => "8000" end
        end in
      let health_endpoints :=
        match health_endpoints with
        | Some l => l
        | None => ["/health"]
        end in
      let '(checks, total_response_time, failed_checks, w') :=
        fold_left (check_endpoint base_url) health_endpoints
                  ([], 0%float, 0, w) in
      let average :=
        match health_endpoints with
        | _ :: _ =>
            truediv_float total_response_time (len health_endpoints)
        | [] => Returned 0%float
        end in
      match average with
      | Raised e => (Raised e, w')
      | Returned response_time_ms =>
          (Returned
             {| status := health_status failed_checks
                                        (len health_endpoints);
                checks := checks;
                response_time_ms := response_time_ms |},
           w')
      end
  end.

(** Loop state of [monitor_all_applications]:
    [results["applications"]], [results["alerts"]], [unhealthy_count]. *)
Definition monitor_state : Type := (dict app_entry * list alert * Z)%type.

Definition monitor_app (st : monitor_state * world)
           (item : string * app_config) : monitor_state * world :=
  let '(applications, alerts, unhealthy_count, w) := st in
  let '(app_name, app_config) := item in
  match _check_application_health app_name app_config w with
  | (Returned app_health, w') =>
      let applications := dict_set app_name (Health app_health)
                                   applications in
      if negb (String.eqb (status app_health) "healthy") then
        (applications,
         (alerts ++ [ {| app := app_name;
                         alert_status := status app_health;
                         alert_message := "Application unhealthy" |} ])%list,
         unhealthy_count + 1,
         w')
      else (applications, alerts, unhealthy_count, w')
  | (Raised e, w') =>
      (dict_set app_name (CheckError e) applications,
       alerts,
       unhealthy_count + 1,
       w')
  end.

(** [self.config.get("applications", {})] *)
Definition get_applications (self : config) : dict app_config :=
  match config_applications self with
  | Some apps => apps
  | None => []
  end.

Definition monitor_all_applications (self : config) (w : world)
  : snapshot * world :=
  let '(applications, alerts, unhealthy_count, w') :=
    fold_left monitor_app (get_applications self) ([], [], 0, w) in
  let total_apps := len (get_applications self) in
  ({| overall_status := snapshot_status unhealthy_count total_apps;
      applications := applications;
      alerts := alerts |},
   w').

(** *** Notions used to state the properties *)

(** The probes of one application, in order. *)
Fixpoint perform_all (base_url : string) (endpoints : list string)
         (w : world) : list check_result * world :=
  match endpoints with
  | [] => ([], w)
  | endpoint :: rest =>
      let '(r, w1) := _perform_health_check base_url endpoint w in
      let '(rs, w2) := perform_all base_url rest w1 in
      (r :: rs, w2)
  end.

(** The checks of all applications, each with its own outcome, in order. *)
Fixpoint check_all (apps : dict app_config) (w : world)
  : dict (py_result health_results) * world :=
  match apps with
  | [] => ([], w)
  | (app_name, app_config) :: rest =>
      let '(o, w1) := _check_application_health app_name app_config w in
      let '(os, w2) := check_all rest w1 in
      ((app_name, o) :: os, w2)
  end.

End Monitor.

(** The base URL and the endpoints that the check reads from a JSON object. *)
Definition base_url_of (base_url port : option string) : string :=
  match base_url with
  | Some u => u
  | None => "http://localhost:" ++ match port with
                                   | Some p => p
                                   | None => "8000"
                                   end
  end.

Definition endpoints_of (health_endpoints : option (list string))
  : list string :=
  match health_endpoints with
  | Some l => l
  | None => ["/health"]
  end.

(** The entry recorded for an application's check. *)
Definition entry_of (o : py_result health_results) : app_entry :=
  match o with
  | Returned h => Health h
  | Raised e => CheckError e
  end.

Definition is_healthy (e : app_entry) : bool :=
  String.eqb (entry_status e) "healthy".

(** Number of entries of [results["applications"]] that are not healthy. *)
Definition non_healthy (applications : dict app_entry) : Z :=
  len (filter (fun item => negb (is_healthy (snd item))) applications).

(** Number of failed checks in [health_results["checks"]]. *)
Definition failed (checks : list check_result) : Z :=
  len (filter (fun r => negb (success r)) checks).

(** The applications named by the alerts. *)
Definition alerted (s : snapshot) : list string := map app (alerts s).

(** The entries of all applications, given the outcomes of their checks. *)
Definition entries (os : dict (py_result health_results)) : dict app_entry :=
  map (fun item => (fst item, entry_of (snd item))) os.

(** The alert raised in the [try] branch for a check that returned. *)
Definition alert_of (item : string * py_result health_results) : list alert :=
  match snd item with
  | Returned h =>
      if negb (String.eqb (status h) "healthy") then
        [ {| app := fst item;
             alert_status := status h;
             alert_message := "Application unhealthy" |} ]
      else []
  | Raised _ => []
  end.

End HealthMonitor.


(** ** The threshold decisions in IEEE 754 binary64

    Python evaluates [passed_tests / total_tests >= 0.9],
    [failed_checks <= len(health_endpoints) * 0.5] and
    [unhealthy_count <= total_apps * 0.2] in binary64.  Python compares an
    int with a float exactly; for ints below [2^53] that is the comparison
    of the converted int. *)

Module Binary64.

#[local] Set Warnings "-inexact-float".
Local Open Scope float_scope.

(** [float(n)] of a Python int, exact for [0 <= n < 2^53]. *)
Definition of_int (n : Z) : float := PrimFloat.of_uint63 (Uint63.of_Z n).

Definition status_of_counts (passed_tests total_tests : Z) : string :=
  let success_rate := of_int passed_tests / of_int total_tests in
  if 0.9 <=? success_rate then "excellent"
  else if 0.7 <=? success_rate then "good"
  else if 0.5 <=? success_rate then "fair"
  else "poor".

Definition health_status (failed_checks n_endpoints : Z) : string :=
  if (failed_checks =? 0)%Z then "healthy"
  else if of_int failed_checks <=? of_int n_endpoints * 0.5 then "degraded"
  else "unhealthy".

Definition snapshot_status (unhealthy_count total_apps : Z) : string :=
  if (unhealthy_count =? 0)%Z then "healthy"
  else if of_int unhealthy_count <=? of_int total_apps * 0.2 then "degraded"
  else "unhealthy".

(** [[0; 1; ...; n]] as Python ints. *)
Definition upto (n : nat) : list Z := map Z.of_nat (seq 0 (S n)).

(** Do the binary64 and the exact decisions agree for every battery of at
    most [n] units and every count of passed (failed, unhealthy) units? *)
Definition agree_upto (n : nat) : bool :=
  forallb
    (fun total =>
       forallb
         (fun k =>
            (if (total =? 0)%Z then true
             else String.eqb (status_of_counts k total)
                    (AIAppTester.status_of_rate
                       (inject_Z k / inject_Z total)%Q))
            && String.eqb (health_status k total)
                          (HealthMonitor.health_status k total)
            && String.eqb (snapshot_status k total)
                          (HealthMonitor.snapshot_status k total))
         (upto (Z.to_nat total)))
    (upto n).

End Binary64.

(** ** The aggregation policy in the words of the specification

    These definitions follow the specification's text, not the code; the
    code is compared with them below. *)

Module Spec.

Import AIAppTester.

(** [count(status in {failed, error})] and [count(status != skipped)]. *)
Definition is_failure (r : test_result) : bool :=
  status_is r "failed" || status_is r "error".

Definition is_skipped (r : test_result) : bool := status_is r "skipped".

Definition is_passed (r : test_result) : bool := status_is r "passed".

Definition count (f : test_result -> bool) (outcomes : dict test_result) : Z :=
  len (filter (fun item => f (snd item)) outcomes).

(** The specification's failure ratio; [None] when every outcome is
    skipped (or there is none). *)
Definition spec_failure_ratio (outcomes : dict test_result) : option Q :=
  let denominator := count (fun r => negb (is_skipped r)) outcomes in
  if denominator =? 0 then None
  else Some (inject_Z (count is_failure outcomes) / inject_Z denominator)%Q.

(** The specification's five-tier table. *)
Definition spec_quality_tier (ratio : Q) : string :=
  if Qle_bool ratio 0 then "excellent"
  else if Qle_bool ratio (1 # 10) then "good"
  else if Qle_bool ratio (3 # 10) then "fair"
  else "poor".

(** The specification's [aggregate(outcomes)] verdict. *)
Definition spec_verdict (outcomes : dict test_result) : string :=
  match spec_failure_ratio outcomes with
  | None => "unknown"
  | Some ratio => spec_quality_tier ratio
  end.

(** The specification's order of recommendations: failed first, then
    skipped, then advisories, then the general reminders.  A
    recommendation is classified by the marker the code gives it. *)
Inductive rec_kind : Type := KFailed | KSkipped | KAdvisory | KGeneral.

Definition kind_of (recommendation : string) : rec_kind :=
  if String.prefix "🔴 Fix " recommendation then KFailed
  else if String.prefix "⚠️ Implement " recommendation then KSkipped
  else if String.prefix "💡 " recommendation then KAdvisory
  else KGeneral.

Definition rank (k : rec_kind) : nat :=
  match k with
  | KFailed => 0
  | KSkipped => 1
  | KAdvisory => 2
  | KGeneral => 3
  end.

Fixpoint nondecreasing (l : list nat) : bool :=
  match l with
  | a :: (b :: _) as l' => (a <=? b)%nat && nondecreasing l'
  | _ => true
  end.

Definition spec_ordered (recommendations : list string) : bool :=
  nondecreasing (map (fun r => rank (kind_of r)) recommendations).

End Spec.

(** ** Concrete applications and networks *)

Module Examples.

Import AIAppTester.

(** Return values of the test functions, as the source builds them. *)
Definition dependencies_ok : test_result :=
  [("status", VStr "passed");
   ("message", VStr "All dependencies can be installed")].

Definition configuration_ok : test_result :=
  [("status", VStr "passed");
   ("found_configs", VOther "['.env.example']");
   ("env_vars_documented", VOther "True")].

Definition configuration_warning : test_result :=
  [("status", VStr "warning");
   ("found_configs", VOther "[]");
   ("env_vars_documented", VOther "False");
   ("recommendation", VStr "Add configuration documentation")].

Definition unit_tests_ok : test_result :=
  [("status", VStr "passed"); ("output", VStr "3 passed")].

Definition unit_tests_missing : test_result :=
  [("status", VStr "skipped");
   ("message", VStr "No test directory found");
   ("recommendation", VStr "Add unit tests")].

Definition security_ok : test_result :=
  [("status", VStr "passed");
   ("message", VStr "No security vulnerabilities found")].

Definition security_vulnerable : test_result :=
  [("status", VStr "failed"); ("vulnerabilities", VStr "CVE-1234")].

Definition ai_models_ok : test_result :=
  [("status", VStr "passed");
   ("frameworks_detected", VOther "['openai']");
   ("recommendation",
    VStr "Implement AI model response testing with mocks")].

(** An application on which every test that is implemented passes. *)
Definition clean_app : app_tests :=
  {| _test_dependencies := Returned dependencies_ok;
     _test_configuration := Returned configuration_ok;
     _run_unit_tests := Returned unit_tests_ok;
     _run_security_scan := Returned security_ok;
     _test_ai_models := Returned ai_models_ok |}.

(** The same application without a test directory. *)
Definition untested_app : app_tests :=
  {| _test_dependencies := Returned dependencies_ok;
     _test_configuration := Returned configuration_ok;
     _run_unit_tests := Returned unit_tests_missing;
     _run_security_scan := Returned security_ok;
     _test_ai_models := Returned ai_models_ok |}.

(** The same application without a test directory and with a vulnerable
    dependency. *)
Definition vulnerable_app : app_tests :=
  {| _test_dependencies := Returned dependencies_ok;
     _test_configuration := Returned configuration_ok;
     _run_unit_tests := Returned unit_tests_missing;
     _run_security_scan := Returned security_vulnerable;
     _test_ai_models := Returned ai_models_ok |}.

(** An application whose configuration check warns and whose model test
    raises. *)
Definition faulty_app : app_tests :=
  {| _test_dependencies := Returned dependencies_ok;
     _test_configuration := Returned configuration_warning;
     _run_unit_tests := Returned unit_tests_ok;
     _run_security_scan := Returned security_ok;
     _test_ai_models := Raised "[Errno 13] Permission denied" |}.

(** A battery of four: two passed, two skipped. *)
Definition two_passed_two_skipped : dict (py_result test_result) :=
  [ ("dependency_check", Returned dependencies_ok);
    ("unit_tests", Returned unit_tests_ok);
    ("integration_tests", _run_integration_tests);
    ("performance_tests", _run_performance_tests) ].

Import HealthMonitor.

(** A network without state: the hosts named [down] answer 503, every
    other host answers 404 on [/metrics] and 200, after 12.5 ms,
    elsewhere. *)
Definition http_get (base_url endpoint : string) (w : unit)
  : check_result * unit :=
  if String.prefix "http://down" base_url then
    ({| endpoint := endpoint; success := false; status_code := 503;
        check_response_time_ms := 40%float; message := "HTTP 503" |}, w)
  else if String.eqb endpoint "/metrics" then
    ({| endpoint := endpoint; success := false; status_code := 404;
        check_response_time_ms := 8.25%float; message := "HTTP 404" |}, w)
  else
    ({| endpoint := endpoint; success := true; status_code := 200;
        check_response_time_ms := 12.5%float; message := "OK" |}, w).

Definition up_app : app_config :=
  ConfigDict (Some "http://up:8000") None (Some ["/health"; "/ready"]).

Definition down_app : app_config :=
  ConfigDict (Some "http://down:8000") None None.

Definition idle_app : app_config :=
  ConfigDict None (Some "9000") (Some []).

Definition half_up_app : app_config :=
  ConfigDict (Some "http://up:8000") None (Some ["/health"; "/metrics"]).

(** [{"applications": {"a": ..., "b": ..., "c": ..., "d": ..., "e": ...}}]
    with one application down. *)
Definition five_apps_one_down : config :=
  {| config_applications :=
       Some [("a", up_app); ("b", up_app); ("c", down_app);
             ("d", up_app); ("e", idle_app)] |}.

(** [{"applications": {}}] *)
Definition no_application : config := {| config_applications := Some [] |}.

(** [{"applications": {"web": {...}, "broken": []}}]: the second entry is
    a JSON list, on which [app_config.get] raises [AttributeError]. *)
Definition one_app_malformed : config :=
  {| config_applications :=
       Some [("web", up_app); ("broken", ConfigOther "list")] |}.

End Examples.

(** ** Further notions of the health battery *)

Module HealthNotions.

Import HealthMonitor.

(** Is the entry the one written by the exception handler? *)
Definition is_error (e : app_entry) : bool :=
  match e with
  | CheckError _ => true
  | Health _ => false
  end.

(** Number of entries written by the exception handler. *)
Definition check_errors (applications : dict app_entry) : Z :=
  len (filter (fun item => is_error (snd item)) applications).

(** The response times of a list of checks added up from 0, in the order
    of the checks, each addition rounded to binary64. *)
Definition sum_response_times (checks : list check_result) : float :=
  fold_left (fun t r => (t + check_response_time_ms r)%float) checks 0%float.

End HealthNotions.

(** ** [HealthMonitor._perform_health_check] *)

Module HealthProbe.

Import HealthMonitor.

(** [str(n)] of an int. *)
Definition str_int (n : Z) : string := NilZero.string_of_int (Z.to_int n).

(** What [self.session.get(url, timeout=10)] does: it answers with a status
    after some time, it times out, or it raises another exception (also
    the [AttributeError] of a monitor whose session is [None]).  Times are
    the floats [(time.time() - start_time) * 1000], in milliseconds. *)
Inductive get_outcome : Type :=
| Response (http_status : Z) (elapsed_ms : float)
| TimeoutError
| OtherError (e : string) (elapsed_ms : float).

Section Session.

Variable world : Type.
Variable session_get : string -> world -> get_outcome * world.

Definition _perform_health_check (base_url endpoint : string) (w : world)
  : check_result * world :=
  let url := base_url ++ endpoint in
  let '(outcome, w') := session_get url w in
  match outcome with
  | Response http_status response_time =>
      ({| endpoint := endpoint;
          success := http_status =? 200;
          status_code := http_status;
          check_response_time_ms := response_time;
          message := if http_status =? 200 then "OK"
                     else "HTTP " ++ str_int http_status |}, w')
  | TimeoutError =>
      ({| endpoint := endpoint;
          success := false;
          status_code := 0;
          check_response_time_ms := 10000%float;
          message := "Timeout" |}, w')
  | OtherError e elapsed =>
      ({| endpoint := endpoint;
          success := false;
          status_code := 0;
          check_response_time_ms := elapsed;
          message := e |}, w')
  end.

(** The requests sent for a list of URLs, in order, with their outcomes. *)
Fixpoint get_all (urls : list string) (w : world)
  : list get_outcome * world :=
  match urls with
  | [] => ([], w)
  | url :: rest =>
      let '(o, w1) := session_get url w in
      let '(os, w2) := get_all rest w1 in
      (o :: os, w2)
  end.

End Session.

(** Did the request answer with status 200? *)
Definition answered_200 (o : get_outcome) : bool :=
  match o with
  | Response http_status _ => http_status =? 200
  | _ => false
  end.

End HealthProbe.

(** ** [docker_health_check.py] *)

Module DockerHealthCheck.

Import HealthProbe.



End DockerHealthCheck.

(** ** Python text whose characters the code inspects

    The contents of [requirements.txt], of [README.md] and of the Python
    files are split, stripped and searched.  Such text is a list of
    Unicode code points; a string that is only built and compared stays a
    [string]. *)

Module Text.

Definition text : Type := list N.

(** An ASCII literal as text. *)
Definition lit (s : string) : text := map N_of_ascii (list_ascii_of_string s).

Definition eqb (a b : text) : bool :=
  if list_eq_dec N.eq_dec a b then true else false.

(** [str.isspace] of one character: the characters that [str.strip()]
    removes. *)
Definition is_space (c : N) : bool :=
  ((9 <=? c) && (c <=? 13) || (28 <=? c) && (c <=? 32)
   || (c =? 133) || (c =? 160) || (c =? 5760)
   || (8192 <=? c) && (c <=? 8202)
   || (c =? 8232) || (c =? 8233) || (c =? 8239) || (c =? 8287)
   || (c =? 12288))%N.

(** The line boundaries of [str.splitlines]. *)
Definition is_linebreak (c : N) : bool :=
  ((10 <=? c) && (c <=? 13) || (28 <=? c) && (c <=? 30)
   || (c =? 133) || (c =? 8232) || (c =? 8233))%N.

Fixpoint lstrip (s : text) : text :=
  match s with
  | c :: s' => if is_space c then lstrip s' else s
  | [] => []
  end.

Definition rstrip (s : text) : text := rev (lstrip (rev s)).

(** [s.strip()] *)
Definition strip (s : text) : text := rstrip (lstrip s).

(** [s.startswith(prefix)] *)
Fixpoint startswith (prefix s : text) : bool :=
  match prefix, s with
  | [], _ => true
  | a :: prefix', b :: s' => (a =? b)%N && startswith prefix' s'
  | _ :: _, [] => false
  end.

(** [needle in s] *)
Fixpoint contains (needle s : text) : bool :=
  startswith needle s
  || match s with
     | [] => false
     | _ :: s' => contains needle s'
     end.

(** The text before and after the first occurrence of [sep], if any. *)
Fixpoint partition (sep s : text) : option (text * text) :=
  if startswith sep s then Some ([], skipn (List.length sep) s)
  else match s with
       | [] => None
       | c :: s' =>
           match partition sep s' with
           | Some (before, after) => Some (c :: before, after)
           | None => None
           end
       end.

(** [s.split(sep, 1)] for a separator that is not empty. *)
Definition split1 (sep s : text) : list text :=
  match partition sep s with
  | Some (before, after) => [before; after]
  | None => [s]
  end.

(** [s.splitlines()]: [line] holds, in reverse, the characters read since
    the last line boundary; ["\r\n"] is one boundary. *)
Fixpoint splitlines_from (line : text) (s : text) : list text :=
  match s with
  | [] => match line with [] => [] | _ => [rev line] end
  | c :: s' =>
      if is_linebreak c then
        rev line
        :: match s' with
           | d :: s'' =>
               if ((c =? 13) && (d =? 10))%N then splitlines_from [] s''
               else splitlines_from [] s'
           | [] => splitlines_from [] s'
           end
      else splitlines_from (c :: line) s'
  end.

Definition splitlines (s : text) : list text := splitlines_from [] s.

(** A dictionary with text keys, in insertion order. *)
Definition tdict (V : Type) : Type := list (text * V).

Fixpoint tdict_get {V : Type} (k : text) (d : tdict V) : option V :=
  match d with
  | [] => None
  | (k', v) :: d' => if eqb k k' then Some v else tdict_get k d'
  end.

Fixpoint tdict_set {V : Type} (k : text) (v : V) (d : tdict V) : tdict V :=
  match d with
  | [] => [(k, v)]
  | (k', v') :: d' =>
      if eqb k k' then (k, v) :: d' else (k', v') :: tdict_set k v d'
  end.

Definition newline : text := [10%N].

(** [sep.join(lines)] *)
Fixpoint join (sep : text) (lines : list text) : text :=
  match lines with
  | [] => []
  | [l] => l
  | l :: rest => (l ++ sep ++ join sep rest)%list
  end.

End Text.

(** ** 1. Master deployment script: [AIAppsManager] *)

Module AIAppsManager.

Import Text.

(** *** [_load_configuration] *)

#[local] Set Warnings "-register-all".

(** A value loaded by [yaml.safe_load]. *)
Inductive yaml : Type :=
| YStr (s : string)
| YInt (n : Z)
| YFloat (q : Q)
| YBool (b : bool)
| YList (l : list yaml)
| YMap (m : list (string * yaml)).

(** What [yaml.safe_load] makes of [ai_apps_config.yaml]: a mapping, [None]
    for a file without a document, or a parse error.  A file whose top
    level is a sequence or a scalar is outside the model. *)
Inductive yaml_document : Type :=
| Mapping (user_config : dict yaml)
| EmptyDocument
| Unparsable (e : string).

Definition default_config : dict yaml :=
  [ ("version", YStr "1.0.0");
    ("environments",
     YMap [ ("development", YMap [("port_start", YInt 8000)]);
            ("staging", YMap [("port_start", YInt 9000)]);
            ("production", YMap [("port_start", YInt 10000)]) ]);
    ("frameworks",
     YMap [ ("openai", YMap [("required_env", YList [YStr "OPENAI_API_KEY"])]);
            ("nebius",
             YMap [("required_env",
                    YList [YStr "NEBIUS_API_KEY"; YStr "NEBIUS_PROJECT_ID"])]);
            ("langchain",
             YMap [("required_env", YList [YStr "LANGCHAIN_API_KEY"])]);
            ("crewai", YMap [("required_env", YList [YStr "CREWAI_API_KEY"])]);
            ("agno", YMap [("required_env", YList [YStr "AGNO_API_KEY"])]) ]);
    ("quality_gates",
     YMap [ ("min_test_coverage", YInt 85);
            ("max_response_time_ms", YInt 2000);
            ("max_error_rate", YFloat (1 # 100));
            ("security_scan_required", YBool true) ]);
    ("monitoring",
     YMap [ ("health_check_interval", YInt 30);
            ("alert_thresholds",
             YMap [ ("response_time_ms", YInt 5000);
                    ("error_rate", YFloat (5 # 100));
                    ("cpu_usage", YFloat (8 # 10));
                    ("memory_usage", YFloat (7 # 10)) ]) ]) ].

(** [d.update(other)] for a dictionary [other]. *)
Definition dict_update {V : Type} (d other : dict V) : dict V :=
  fold_left (fun acc item => dict_set (fst item) (snd item) acc) other d.

(** [_load_configuration], given the configuration file ([None] when it
    does not exist).  The result is the returned configuration and what is
    written to the file, if anything. *)
Definition _load_configuration (config_file : option yaml_document)
  : py_result (dict yaml) * option (dict yaml) :=
  match config_file with
  | Some (Mapping user_config) =>
      (Returned (dict_update default_config user_config), None)
  | Some EmptyDocument => (Raised "'NoneType' object is not iterable", None)
  | Some (Unparsable e) => (Raised e, None)
  | None => (Returned default_config, Some default_config)
  end.

(** *** [initialize_repository] *)

(** A record of the logger: level and message. *)
Definition log_record : Type := (string * string)%type.

Section Steps.

Variable world : Type.

(** A step: what awaiting it does to the repository. *)
Definition step : Type := world -> py_result unit * world.

(** The loop [for step_name, step_func in steps]. *)
Fixpoint run_steps (steps : list (string * step)) (log : list log_record)
         (w : world) : py_result unit * list log_record * world :=
  match steps with
  | [] => (Returned tt, log, w)
  | (step_name, step_func) :: rest =>
      let log :=
        (log ++ [("INFO", ("📋 " ++ step_name ++ "...")%string)])%list in
      match step_func w with
      | (Returned _, w') =>
          run_steps rest
            (log ++ [("INFO", ("✅ " ++ step_name ++ " completed")%string)])%list
            w'
      | (Raised e, w') =>
          (Raised e,
           (log ++ [("ERROR",
                     ("❌ " ++ step_name ++ " failed: " ++ e)%string)])%list,
           w')
      end
  end.

Definition initialize_repository
           (_create_directory_structure _discover_applications : step)
           (w : world) : py_result unit * list log_record * world :=
  run_steps
    [ ("Creating directory structure", _create_directory_structure);
      ("Discovering applications", _discover_applications) ]
    [("INFO", "🚀 Initializing AI Apps Repository Enhancement...")]
    w.

End Steps.

(** *** [_parse_requirements] *)

(** [name, version = parts] *)
Definition unpack2 (parts : list text) : py_result (text * text) :=
  match parts with
  | [name; version] => Returned (name, version)
  | _ => Raised "not enough values to unpack (expected 2, got 1)"
  end.

(** The body of the loop over the lines. *)
Definition parse_line (deps : tdict text) (line : text)
  : py_result (tdict text) :=
  let line := strip line in
  if negb (Text.eqb line []) && negb (startswith (lit "#") line) then
    if contains (lit "==") line then
      match unpack2 (split1 (lit "==") line) with
      | Returned (name, version) =>
          Returned (tdict_set (strip name) (strip version) deps)
      | Raised e => Raised e
      end
    else if contains (lit ">=") line then
      match unpack2 (split1 (lit ">=") line) with
      | Returned (name, version) =>
          Returned (tdict_set (strip name) (lit ">=" ++ strip version)%list
                              deps)
      | Raised e => Raised e
      end
    else Returned (tdict_set line (lit "unpinned") deps)
  else Returned deps.

Fixpoint parse_lines (deps : tdict text) (lines : list text)
  : py_result (tdict text) :=
  match lines with
  | [] => Returned deps
  | line :: rest =>
      match parse_line deps line with
      | Returned deps' => parse_lines deps' rest
      | Raised e => Raised e
      end
  end.

Definition _parse_requirements (requirements : text)
  : py_result (tdict text) :=
  parse_lines [] (splitlines requirements).

(** *** [_detect_frameworks] *)

Definition framework_indicators : dict (list string) :=
  [ ("openai", ["openai"]);
    ("langchain", ["langchain"; "langchain-community"; "langchain-openai"]);
    ("nebius", ["nebius"]);
    ("crewai", ["crewai"]);
    ("agno", ["agno"]);
    ("llamaindex", ["llama-index"; "llamaindex"]);
    ("transformers", ["transformers"]);
    ("tensorflow", ["tensorflow"]);
    ("pytorch", ["torch"; "pytorch"]) ].

Section Lower.

(** [str.lower], which follows the Unicode character database. *)
Variable lower : text -> text.

Definition detect (requirements_lower : text) (frameworks : list string)
           (item : string * list string) : list string :=
  let '(framework, indicators) := item in
  if existsb (fun indicator => contains (lit indicator) requirements_lower)
             indicators
  then (frameworks ++ [framework])%list
  else frameworks.

Definition _detect_frameworks (requirements : text) : list string :=
  let requirements_lower := lower requirements in
  fold_left (detect requirements_lower) framework_indicators [].

(** *** [_analyze_application] *)

(** What the analysis reads in an application directory:
    [requirements.txt] ([None] when it does not exist, otherwise what
    reading it gives), the three test directories, the [Dockerfile], and
    what reading each file found by [rglob("*.py")] gives. *)
Record app_dir : Type := mk_app_dir {
  dir_name : string;
  dir_path : string;
  requirements_txt : option (py_result text);
  tests_exists : bool;
  test_exists : bool;
  testing_exists : bool;
  dockerfile_exists : bool;
  python_files : list (py_result text)
}.

Record app_info : Type := mk_app_info {
  name : string;
  path : string;
  frameworks : list string;
  dependencies : tdict text;
  estimated_complexity : string;
  has_tests : bool;
  has_docker : bool;
  health_endpoints : list string;
  security_issues : list string
}.

(** [total_lines] after one file: a file that cannot be read is passed
    over by the bare [except]. *)
Definition count_lines (total_lines : Z) (py_file : py_result text) : Z :=
  match py_file with
  | Returned content => total_lines + len (splitlines content)
  | Raised _ => total_lines
  end.

Definition complexity_of (total_lines : Z) : string :=
  if total_lines <? 100 then "simple"
  else if total_lines <? 500 then "moderate"
  else "complex".

Definition _analyze_application (app_path : app_dir) : py_result app_info :=
  let analyzed :=
    match requirements_txt app_path with
    | Some (Returned requirements) =>
        match _parse_requirements requirements with
        | Returned deps =>
            Returned (deps, _detect_frameworks requirements)
        | Raised e => Raised e
        end
    | Some (Raised e) => Raised e
    | None => Returned ([], [])
    end in
  match analyzed with
  | Raised e => Raised e
  | Returned (deps, detected) =>
      let total_lines := fold_left count_lines (python_files app_path) 0 in
      Returned
        {| name := dir_name app_path;
           path := dir_path app_path;
           frameworks := detected;
           dependencies := deps;
           estimated_complexity := complexity_of total_lines;
           has_tests := tests_exists app_path || test_exists app_path
                        || testing_exists app_path;
           has_docker := dockerfile_exists app_path;
           health_endpoints := [];
           security_issues := [] |}
  end.

(** *** [_discover_applications] *)

(** An entry of [self.repo_path.iterdir()]. *)
Record dir_item : Type := mk_dir_item {
  is_dir : bool;
  contents : app_dir
}.

(** Is the entry analyzed? *)
Definition is_application (item : dir_item) : bool :=
  is_dir item
  && negb (String.prefix "." (dir_name (contents item)))
  && match requirements_txt (contents item) with
     | Some _ => true
     | None => false
     end.

Fixpoint analyze_all (items : list dir_item) (applications : list app_info)
  : py_result (list app_info) :=
  match items with
  | [] => Returned applications
  | item :: rest =>
      if is_application item then
        match _analyze_application (contents item) with
        | Returned app_info =>
            analyze_all rest (applications ++ [app_info])%list
        | Raised e => Raised e
        end
      else analyze_all rest applications
  end.

(** [_discover_applications], given the listing of the repository and
    what writing [scripts/app_registry.json] does.  The result is the
    returned list and the registry that was written, if any. *)
Definition _discover_applications (items : list dir_item)
           (write_registry : py_result unit)
  : py_result (list app_info) * option (list app_info) :=
  match analyze_all items [] with
  | Raised e => (Raised e, None)
  | Returned applications =>
      match write_registry with
      | Returned _ => (Returned applications, Some applications)
      | Raised e => (Raised e, None)
      end
  end.

End Lower.

End AIAppsManager.

(** ** The test functions of [AIAppTester] *)

Module AIAppTesterProbes.

Import Text AIAppTester.

(** What [subprocess.run(..., capture_output=True, text=True, timeout=...)]
    does: the process completes, the call times out
    ([subprocess.TimeoutExpired], with its text), or it raises another
    exception. *)
Inductive run_outcome : Type :=
| Completed (returncode : Z) (stdout stderr : string)
| TimeoutExpired (e : string)
| OtherException (e : string).

(** What the test functions see of the application: which files and
    directories exist, what reading them gives, and what the
    subprocesses do. *)
Record application : Type := mk_application {
  requirements_exists : bool;
  requirements_content : py_result text;
  pip_dry_run : run_outcome;
  env_example_exists : bool;
  config_yaml_exists : bool;
  settings_py_exists : bool;
  config_json_exists : bool;
  readme : option (py_result text);
  tests_dir_exists : bool;
  test_dir_exists : bool;
  testing_dir_exists : bool;
  pytest : run_outcome;
  pip_install_safety : run_outcome;
  safety_check : run_outcome
}.

(** [str(l)] of a list of strings without quotes or backslashes. *)
Fixpoint repr_items (l : list string) : string :=
  match l with
  | [] => ""
  | [s] => "'" ++ s ++ "'"
  | s :: rest => "'" ++ s ++ "', " ++ repr_items rest
  end.

Definition repr_list (l : list string) : string := "[" ++ repr_items l ++ "]".

Definition repr_bool (b : bool) : string := if b then "True" else "False".

Definition _test_dependencies (self : application) : py_result test_result :=
  if negb (requirements_exists self) then
    Returned [("status", VStr "failed");
              ("error", VStr "No requirements.txt found")]
  else
    match pip_dry_run self with
    | Completed returncode stdout stderr =>
        if returncode =? 0 then
          Returned [("status", VStr "passed");
                    ("message", VStr "All dependencies can be installed")]
        else Returned [("status", VStr "failed"); ("error", VStr stderr)]
    | TimeoutExpired _ =>
        Returned [("status", VStr "failed");
                  ("error", VStr "Dependency check timeout")]
    | OtherException e =>
        Returned [("status", VStr "failed"); ("error", VStr e)]
    end.

Definition _run_unit_tests (self : application) : py_result test_result :=
  if negb (tests_dir_exists self || test_dir_exists self
           || testing_dir_exists self) then
    Returned [("status", VStr "skipped");
              ("message", VStr "No test directory found");
              ("recommendation", VStr "Add unit tests")]
  else
    match pytest self with
    | Completed returncode stdout stderr =>
        if returncode =? 0 then
          Returned [("status", VStr "passed"); ("output", VStr stdout)]
        else Returned [("status", VStr "failed"); ("error", VStr stderr)]
    | TimeoutExpired _ =>
        Returned [("status", VStr "failed");
                  ("error", VStr "Unit tests timeout")]
    | OtherException e =>
        Returned [("status", VStr "failed"); ("error", VStr e)]
    end.

Definition _run_security_scan (self : application) : py_result test_result :=
  match pip_install_safety self with
  | Completed returncode _ _ =>
      if negb (returncode =? 0) then
        Returned [("status", VStr "error");
                  ("error", VStr "Failed to install safety")]
      else if requirements_exists self then
        match safety_check self with
        | Completed returncode stdout stderr =>
            if returncode =? 0 then
              Returned [("status", VStr "passed");
                        ("message",
                         VStr "No security vulnerabilities found")]
            else
              Returned [("status", VStr "failed");
                        ("vulnerabilities", VStr stdout)]
        | TimeoutExpired e | OtherException e =>
            Returned [("status", VStr "error"); ("error", VStr e)]
        end
      else
        Returned [("status", VStr "skipped");
                  ("message", VStr "No requirements.txt found")]
  | TimeoutExpired e | OtherException e =>
      Returned [("status", VStr "error"); ("error", VStr e)]
  end.

Section Lower.

(** [str.lower] *)
Variable lower : text -> text.

Definition _test_configuration (self : application)
  : py_result test_result :=
  let found_configs :=
    ((if env_example_exists self then [".env.example"] else [])
       ++ (if config_yaml_exists self then ["config.yaml"] else [])
       ++ (if settings_py_exists self then ["settings.py"] else [])
       ++ (if config_json_exists self then ["config.json"] else []))%list in
  let documented :=
    match readme self with
    | Some (Returned content) =>
        Returned (contains (lit "environment") (lower content)
                  || contains (lit "config") (lower content))
    | Some (Raised e) => Raised e
    | None => Returned false
    end in
  match documented with
  | Raised e => Raised e
  | Returned env_vars_documented =>
      if negb (Nat.eqb (List.length found_configs) 0) && env_vars_documented
      then
        Returned [("status", VStr "passed");
                  ("found_configs", VOther (repr_list found_configs));
                  ("env_vars_documented",
                   VOther (repr_bool env_vars_documented))]
      else
        Returned [("status", VStr "warning");
                  ("found_configs", VOther (repr_list found_configs));
                  ("env_vars_documented",
                   VOther (repr_bool env_vars_documented));
                  ("recommendation", VStr "Add configuration documentation")]
  end.

Definition _test_ai_models (self : application) : py_result test_result :=
  let detected :=
    if requirements_exists self then
      match requirements_content self with
      | Returned content =>
          Returned
            ((if contains (lit "openai") (lower content)
              then ["openai"] else [])
               ++ (if contains (lit "langchain") (lower content)
                   then ["langchain"] else []))%list
      | Raised e => Raised e
      end
    else Returned [] in
  match detected with
  | Raised e => Raised e
  | Returned frameworks_detected =>
      Returned [("status", VStr "passed");
                ("frameworks_detected",
                 VOther (repr_list frameworks_detected));
                ("recommendation",
                 VStr "Implement AI model response testing with mocks")]
  end.

(** The test functions of one application, as [run_full_test_suite]
    awaits them. *)
Definition tests_of (self : application) : app_tests :=
  {| AIAppTester._test_dependencies := _test_dependencies self;
     AIAppTester._test_configuration := _test_configuration self;
     AIAppTester._run_unit_tests := _run_unit_tests self;
     AIAppTester._run_security_scan := _run_security_scan self;
     AIAppTester._test_ai_models := _test_ai_models self |}.

End Lower.

(** *** Notions used to state the properties *)

Definition exits_with_0 (o : run_outcome) : bool :=
  match o with
  | Completed returncode _ _ => returncode =? 0
  | _ => false
  end.

Definition dependencies_installable (self : application) : bool :=
  requirements_exists self && exits_with_0 (pip_dry_run self).

Definition has_configuration (self : application) : bool :=
  env_example_exists self || config_yaml_exists self
  || settings_py_exists self || config_json_exists self.

Definition unit_tests_pass (self : application) : bool :=
  (tests_dir_exists self || test_dir_exists self || testing_dir_exists self)
  && exits_with_0 (pytest self).

Definition scan_is_clean (self : application) : bool :=
  exits_with_0 (pip_install_safety self) && requirements_exists self
  && exits_with_0 (safety_check self).

(** Does the README exist and mention the environment or the
    configuration? *)
Definition configuration_documented (lower : text -> text)
           (self : application) : bool :=
  match readme self with
  | Some (Returned content) =>
      contains (lit "environment") (lower content)
      || contains (lit "config") (lower content)
  | _ => false
  end.

(** Did the scanner run and report vulnerabilities? *)
Definition vulnerabilities_found (self : application) : bool :=
  exits_with_0 (pip_install_safety self) && requirements_exists self
  && match safety_check self with
     | Completed returncode _ _ => negb (returncode =? 0)
     | _ => false
     end.

(** Was the scanner installed without a [requirements.txt] to scan? *)
Definition scan_skipped (self : application) : bool :=
  exits_with_0 (pip_install_safety self) && negb (requirements_exists self).

Definition requirements_usable (self : application) : bool :=
  negb (requirements_exists self)
  || match requirements_content self with
     | Returned _ => true
     | Raised _ => false
     end.

End AIAppTesterProbes.

(** ** 3. Continuous task management integration:
       [TaskManagementIntegrator] *)

Module TaskManagementIntegrator.

Import HealthProbe.

(** A follow-up task; the two issue fields are set once the issue is
    created. *)
Record task : Type := mk_task {
  app_name : string;
  deployment_id : option string;
  environment : string;
  timestamp : string;
  title : string;
  description : string;
  category : string;
  priority : string;
  estimated_hours : Z;
  assignee : string;
  due_date : string;
  github_issue_url : option string;
  github_issue_number : option Z
}.

(** [task["github_issue_url"] = url; task["github_issue_number"] = number] *)
Definition with_issue (t : task) (url : string) (number : Z) : task :=
  {| app_name := app_name t;
     deployment_id := deployment_id t;
     environment := environment t;
     timestamp := timestamp t;
     title := title t;
     description := description t;
     category := category t;
     priority := priority t;
     estimated_hours := estimated_hours t;
     assignee := assignee t;
     due_date := due_date t;
     github_issue_url := Some url;
     github_issue_number := Some number |}.

Section Integrator.

(** The clock: [datetime.now().isoformat()], and
    [_calculate_due_date(hours, days)], which formats the time that many
    hours and days from now. *)
Variable now : string.
Variable _calculate_due_date : Z -> Z -> string.

Definition followup_tasks (app : string) (deployment_info : dict string)
  : list task :=
  let base_task title description category priority estimated_hours assignee
                due_date :=
    {| app_name := app;
       deployment_id := dict_get "deployment_id" deployment_info;
       environment := dict_get_default "environment" "staging"
                                       deployment_info;
       timestamp := now;
       title := title;
       description := description;
       category := category;
       priority := priority;
       estimated_hours := estimated_hours;
       assignee := assignee;
       due_date := due_date;
       github_issue_url := None;
       github_issue_number := None |} in
  [ base_task ("Performance Monitoring Setup - " ++ app)
      "Set up comprehensive performance monitoring for the deployed application"
      "performance_monitoring" "high" 2 "devops-team"
      (_calculate_due_date 24 0);
    base_task ("Security Validation - " ++ app)
      "Perform post-deployment security validation and penetration testing"
      "security_validation" "critical" 4 "security-team"
      (_calculate_due_date 48 0);
    base_task ("Documentation Updates - " ++ app)
      "Update deployment documentation and runbooks"
      "documentation" "medium" 1 "tech-writer"
      (_calculate_due_date 72 0);
    base_task ("User Acceptance Testing - " ++ app)
      "Coordinate user acceptance testing for the deployed features"
      "testing" "high" 8 "qa-team"
      (_calculate_due_date 120 0);
    base_task ("Performance Optimization Review - " ++ app)
      "Analyze performance metrics and identify optimization opportunities"
      "optimization" "medium" 3 "performance-team"
      (_calculate_due_date 0 7) ].

Section Services.

(** The two services the loop calls for each task: the creation of the
    GitHub issue, which gives its URL and number, and the Slack
    notification. *)
Variable _create_github_issue : task -> py_result (string * Z).
Variable _send_slack_notification : task -> py_result unit.

(** One iteration: the state is [created_tasks] and the error records of
    the logger. *)
Definition create_task (st : list task * list string) (t : task)
  : list task * list string :=
  let '(created_tasks, errors) := st in
  match _create_github_issue t with
  | Returned (url, number) =>
      let t := with_issue t url number in
      match _send_slack_notification t with
      | Returned _ => ((created_tasks ++ [t])%list, errors)
      | Raised e =>
          ((created_tasks ++ [t])%list,
           (errors ++ [("Failed to create task " ++ title t ++ ": "
                          ++ e)%string])%list)
      end
  | Raised e =>
      (created_tasks,
       (errors ++ [("Failed to create task " ++ title t ++ ": "
                      ++ e)%string])%list)
  end.

(** The returned tasks and the error records. *)
Definition create_deployment_followup_tasks (app : string)
           (deployment_info : dict string) : list task * list string :=
  fold_left create_task (followup_tasks app deployment_info) ([], []).

End Services.

(** [hash] of a string, which Python salts per process. *)
Variable hash : string -> Z.

(** The issue creation of the source, a mock. *)
Definition mock_create_github_issue (t : task) : py_result (string * Z) :=
  Returned ("https://github.com/repo/issues/"
              ++ str_int (hash (title t) mod 1000),
            hash (title t) mod 1000).

(** The notification of the source, which only logs. *)
Definition mock_send_slack_notification (t : task) : py_result unit :=
  Returned tt.

End Integrator.

(** *** Notions used to state the properties *)

(** The task as it is returned when its issue was created. *)
Definition created (o : py_result (string * Z)) (t : task) : list task :=
  match o with
  | Returned (url, number) => [with_issue t url number]
  | Raised _ => []
  end.

Definition is_created (o : py_result (string * Z)) : bool :=
  match o with
  | Returned _ => true
  | Raised _ => false
  end.

End TaskManagementIntegrator.

(** ** Requirement files, as written by hand *)

Module Requirements.

Import Text.

(** A line of a requirements file. *)
Inductive requirement : Type :=
| Pinned (name version : text)      (* name==version *)
| AtLeast (name version : text)     (* name>=version *)
| Unpinned (name : text)            (* name *)
| Comment (words : text).           (* #words *)

Definition render (r : requirement) : text :=
  match r with
  | Pinned name version => (name ++ lit "==" ++ version)%list
  | AtLeast name version => (name ++ lit ">=" ++ version)%list
  | Unpinned name => name
  | Comment words => (lit "#" ++ words)%list
  end.

(** The dictionary entry a line stands for, if any. *)
Definition entry (r : requirement) : option (text * text) :=
  match r with
  | Pinned name version => Some (name, version)
  | AtLeast name version => Some (name, (lit ">=" ++ version)%list)
  | Unpinned name => Some (name, lit "unpinned")
  | Comment _ => None
  end.

(** Text without white space. *)
Definition plain (s : text) : bool := forallb (fun c => negb (is_space c)) s.

(** Text without the character [c]. *)
Definition lacks (c : N) (s : text) : bool :=
  forallb (fun d => negb (d =? c)%N) s.

(** Text within one line. *)
Definition one_line (s : text) : bool :=
  forallb (fun c => negb (is_linebreak c)) s.

(** A name: not empty, without white space, [=] or [>], and not a
    comment. *)
Definition good_name (name : text) : bool :=
  negb (Text.eqb name []) && plain name && lacks 61 name && lacks 62 name
  && negb (startswith (lit "#") name).

Definition well_formed (r : requirement) : bool :=
  match r with
  | Pinned name version => good_name name && plain version
  | AtLeast name version => good_name name && plain version && lacks 61 version
  | Unpinned name => good_name name
  | Comment words => one_line words
  end.

(** The file with one line per requirement. *)
Definition render_file (reqs : list requirement) : text :=
  join newline (map render reqs).

(** [deps[name] = spec] for the entry of a line. *)
Definition record (deps : tdict text) (r : requirement) : tdict text :=
  match entry r with
  | Some (name, spec) => tdict_set name spec deps
  | None => deps
  end.

(** The dictionary the requirements stand for, later lines winning. *)
Definition entries (reqs : list requirement) : tdict text :=
  fold_left record reqs [].

End Requirements.

(** ** Notions used to state the properties of [AIAppsManager] *)

Module ManagerNotions.

Import Text AIAppsManager.

(** A dictionary of dependencies as the parser keeps it: names are
    distinct, stripped, and hold no ["=="]. *)
Definition clean (deps : tdict text) : Prop :=
  NoDup (map fst deps)
  /\ forall name spec,
      In (name, spec) deps ->
      strip name = name /\ contains (lit "==") name = false.

Definition is_readable (file : py_result text) : bool :=
  match file with
  | Returned _ => true
  | Raised _ => false
  end.

(** Number of lines of the Python files that can be read. *)
Definition readable_lines (files : list (py_result text)) : Z :=
  fold_right
    (fun file total =>
       match file with
       | Returned content => len (splitlines content) + total
       | Raised _ => total
       end)
    0 files.

(** The same directory with other Python files. *)
Definition with_python_files (d : app_dir) (files : list (py_result text))
  : app_dir :=
  {| dir_name := dir_name d;
     dir_path := dir_path d;
     requirements_txt := requirements_txt d;
     tests_exists := tests_exists d;
     test_exists := test_exists d;
     testing_exists := testing_exists d;
     dockerfile_exists := dockerfile_exists d;
     python_files := files |}.

(** Can [requirements.txt] be read, if it is there? *)
Definition requirements_readable (d : app_dir) : bool :=
  match requirements_txt d with
  | Some (Raised _) => false
  | _ => true
  end.

(** An entry that discovery passes over or can analyze. *)
Definition harmless (item : dir_item) : bool :=
  negb (is_application item) || requirements_readable (contents item).

End ManagerNotions.

(** ** Concrete texts and directories *)

Module TextExamples.

Import Text AIAppsManager Requirements AIAppTesterProbes.

(** Lower-casing of ASCII letters, an instance of [str.lower] on ASCII
    text. *)
Definition ascii_lower (s : text) : text :=
  map (fun c => if ((65 <=? c) && (c <=? 90))%N then (c + 32)%N else c) s.

(** A [requirements.txt]. *)
Definition sample_requirements : text :=
  join newline
       [ lit "OpenAI==1.2.0";
         lit "# model tooling";
         lit "";
         lit "  langchain-openai >= 0.1 ";
         lit "requests" ].

(** The requirements behind a hand-written file. *)
Definition sample_reqs : list requirement :=
  [ Pinned (lit "openai") (lit "1.2.0");
    Comment (lit " model tooling");
    AtLeast (lit "langchain-openai") (lit "0.1");
    Unpinned (lit "requests") ].

Definition sample_app : app_dir :=
  {| dir_name := "chatbot";
     dir_path := "/repo/chatbot";
     requirements_txt := Some (Returned sample_requirements);
     tests_exists := false;
     test_exists := true;
     testing_exists := false;
     dockerfile_exists := false;
     python_files := [ Returned (join newline [lit "import os"; lit "x = 1"]);
                       Raised "'utf-8' codec can't decode byte 0xff";
                       Returned (lit "print(1)") ] |}.

Definition hidden_dir : dir_item :=
  {| is_dir := true;
     contents :=
       {| dir_name := ".git"; dir_path := "/repo/.git";
          requirements_txt := Some (Returned []);
          tests_exists := false; test_exists := false;
          testing_exists := false; dockerfile_exists := false;
          python_files := [] |} |}.

Definition unreadable_app : dir_item :=
  {| is_dir := true;
     contents :=
       {| dir_name := "legacy"; dir_path := "/repo/legacy";
          requirements_txt := Some (Raised "[Errno 13] Permission denied");
          tests_exists := false; test_exists := false;
          testing_exists := false; dockerfile_exists := false;
          python_files := [] |} |}.

(** An application whose scanner reports a vulnerability and which has no
    test directory. *)
Definition vulnerable_application : application :=
  {| requirements_exists := true;
     requirements_content := Returned sample_requirements;
     pip_dry_run := Completed 0 "Would install openai-1.2.0" "";
     env_example_exists := true;
     config_yaml_exists := false;
     settings_py_exists := false;
     config_json_exists := false;
     readme := Some (Returned (lit "Set the ENVIRONMENT variables first."));
     tests_dir_exists := false;
     test_dir_exists := false;
     testing_dir_exists := false;
     pytest := OtherException "not run";
     pip_install_safety := Completed 0 "" "";
     safety_check := Completed 64 "CVE-1234 in openai 1.2.0" "" |}.

(** An application directory without a [requirements.txt]. *)
Definition bare_application : application :=
  {| requirements_exists := false;
     requirements_content := Raised "[Errno 2] No such file or directory";
     pip_dry_run := OtherException "not run";
     env_example_exists := true;
     config_yaml_exists := true;
     settings_py_exists := false;
     config_json_exists := false;
     readme := Some (Returned (lit "Configuration: see config.yaml"));
     tests_dir_exists := true;
     test_dir_exists := false;
     testing_dir_exists := false;
     pytest := Completed 0 "3 passed" "";
     pip_install_safety := Completed 0 "" "";
     safety_check := OtherException "not run" |}.

End TextExamples.

(** * Properties *)

Local Open Scope list_scope.
Unset Implicit Arguments.

(** Proves [NoDup] of an explicit list of distinct string literals. *)
Ltac distinct_names :=
  repeat (constructor; [simpl; intuition discriminate |]); constructor.

(** ** Dictionaries *)

Module DictFacts.

Lemma keys_app : forall (V : Type) (d1 d2 : dict V),
    keys (d1 ++ d2) = keys d1 ++ keys d2.
Proof. intros; unfold keys; apply map_app. Qed.

(** Assigning to a key that is not yet present appends the binding. *)
Lemma dict_set_fresh : forall (V : Type) (k : string) (v : V) (d : dict V),
    ~ In k (keys d) -> dict_set k v d = d ++ [(k, v)].
Proof.
  induction d as [| [k' v'] d IH]; simpl; intros Hfresh.
  - reflexivity.
  - destruct (String.eqb_spec k k') as [-> | Hne].
    + exfalso; apply Hfresh; now left.
    + rewrite IH; [reflexivity | intros Hin; apply Hfresh; now right].
Qed.

Lemma dict_get_not_in : forall (V : Type) (k : string) (d : dict V),
    ~ In k (keys d) -> dict_get k d = None.
Proof.
  induction d as [| [k' v'] d IH]; simpl; intros Hfresh.
  - reflexivity.
  - destruct (String.eqb_spec k k') as [-> | Hne].
    + exfalso; apply Hfresh; now left.
    + apply IH; intros Hin; apply Hfresh; now right.
Qed.

(** Looking up a key in a dictionary whose values were mapped. *)
Lemma dict_get_map_values :
  forall (V W : Type) (f : V -> W) (k : string) (d : dict V),
    dict_get k (map (fun item => (fst item, f (snd item))) d)
    = option_map f (dict_get k d).
Proof.
  induction d as [| [k' v'] d IH]; simpl.
  - reflexivity.
  - destruct (String.eqb k k'); [reflexivity | exact IH].
Qed.

Lemma keys_map_values :
  forall (V W : Type) (f : V -> W) (d : dict V),
    keys (map (fun item => (fst item, f (snd item))) d) = keys d.
Proof.
  intros; unfold keys; rewrite map_map; reflexivity.
Qed.

Lemma len_map : forall (A B : Type) (f : A -> B) (l : list A),
    len (map f l) = len l.
Proof. intros; unfold len; now rewrite length_map. Qed.

Lemma len_nonneg : forall (A : Type) (l : list A), 0 <= len l.
Proof. intros; unfold len; lia. Qed.

Lemma len_pos : forall (A : Type) (l : list A), l <> [] -> 0 < len l.
Proof. intros A [| a l] H; [congruence | unfold len; simpl; lia]. Qed.

Lemma len_cons : forall (A : Type) (a : A) (l : list A),
    len (a :: l) = 1 + len l.
Proof. intros; unfold len; simpl List.length; lia. Qed.

Lemma len_filter_le : forall (A : Type) (f : A -> bool) (l : list A),
    len (filter f l) <= len l.
Proof.
  intros; unfold len; apply inj_le, filter_length_le.
Qed.

End DictFacts.
Import DictFacts.

(** ** Exact threshold arithmetic *)

Module RateFacts.

(** [a/b <= p/n] on ints, for a positive [n], by cross multiplication. *)
Lemma Qle_bool_div : forall (a : Z) (b : positive) (p n : Z),
    0 < n ->
    Qle_bool (a # b) (inject_Z p / inject_Z n) = (a * n <=? p * Z.pos b).
Proof.
  intros a b p n Hn.
  destruct n as [| q | q]; try lia.
  unfold Qle_bool, Qdiv, Qmult, Qinv, inject_Z; simpl.
  rewrite Z.mul_1_r; reflexivity.
Qed.

(** [k <= n * (a/b)] on ints, by cross multiplication. *)
Lemma Qle_bool_scale : forall (k n a : Z) (b : positive),
    Qle_bool (inject_Z k) (inject_Z n * (a # b)) = (k * Z.pos b <=? n * a).
Proof.
  intros; unfold Qle_bool, Qmult, inject_Z; simpl.
  rewrite Z.mul_1_r; reflexivity.
Qed.

End RateFacts.
Import RateFacts.

(** ** The test battery *)

Module AIAppTesterFacts.

Import AIAppTester.

Lemma status_is_error_result : forall (e s : string),
    status_is (error_result e) s = String.eqb "error" s.
Proof. reflexivity. Qed.

Lemma count_status_cons : forall (s name : string) (r : test_result)
                                 (os : dict test_result),
    count_status s ((name, r) :: os)
    = (if status_is r s then 1 else 0) + count_status s os.
Proof.
  intros; unfold count_status; simpl.
  destruct (status_is r s); [rewrite len_cons |]; lia.
Qed.

Lemma count_status_bounds : forall (s : string) (os : dict test_result),
    0 <= count_status s os <= len os.
Proof.
  intros; unfold count_status; split;
    [apply len_nonneg | apply len_filter_le].
Qed.

(** One iteration records the outcome of the test function under its name
    and counts it when it passed. *)
Lemma run_test_outcome :
  forall (acc : dict test_result) (passed_tests : Z) (test_name : string)
         (run : py_result test_result),
    run_test (acc, passed_tests) (test_name, run)
    = (dict_set test_name (outcome run) acc,
       passed_tests + (if status_is (outcome run) "passed" then 1 else 0)).
Proof.
  intros; destruct run as [r | e]; simpl.
  - destruct (status_is r "passed"); f_equal; lia.
  - f_equal; lia.
Qed.

(** The counter after the loop, whatever the names are. *)
Lemma run_tests_passed_from :
  forall (suite : dict (py_result test_result))
         (acc : dict test_result) (passed_tests : Z),
    snd (fold_left run_test suite (acc, passed_tests))
    = passed_tests + count_status "passed" (outcomes suite).
Proof.
  induction suite as [| [name run] suite IH]; intros acc p.
  - simpl; unfold count_status, len; simpl; lia.
  - cbn [fold_left]; rewrite run_test_outcome, IH.
    cbn [outcomes map fst snd]; rewrite count_status_cons.
    fold (outcomes suite); lia.
Qed.

(** The dictionary after the loop, for test names that are new. *)
Lemma run_tests_from :
  forall (suite : dict (py_result test_result))
         (acc : dict test_result) (passed_tests : Z),
    NoDup (keys acc ++ keys suite) ->
    fst (fold_left run_test suite (acc, passed_tests))
    = acc ++ outcomes suite.
Proof.
  induction suite as [| [name run] suite IH]; intros acc p Hnd.
  - simpl; now rewrite app_nil_r.
  - cbn [fold_left]; rewrite run_test_outcome.
    cbn [keys map fst] in Hnd.
    rewrite dict_set_fresh.
    + rewrite IH.
      * rewrite <- app_assoc; reflexivity.
      * rewrite keys_app; cbn [keys map fst]; rewrite <- app_assoc; exact Hnd.
    + apply NoDup_remove_2 in Hnd.
      intros Hin; apply Hnd, in_or_app; now left.
Qed.

Lemma run_tests_outcomes :
  forall suite : dict (py_result test_result),
    NoDup (keys suite) ->
    run_tests suite
    = (outcomes suite, count_status "passed" (outcomes suite)).
Proof.
  intros suite Hnd; unfold run_tests.
  rewrite (surjective_pairing (fold_left run_test suite ([], 0))).
  rewrite run_tests_from by exact Hnd.
  rewrite run_tests_passed_from; reflexivity.
Qed.

Lemma keys_outcomes : forall suite : dict (py_result test_result),
    keys (outcomes suite) = keys suite.
Proof. intros; unfold outcomes; apply keys_map_values. Qed.

Lemma len_outcomes : forall suite : dict (py_result test_result),
    len (outcomes suite) = len suite.
Proof. intros; unfold outcomes; apply len_map. Qed.

(** A battery that is not empty is aggregated without an error. *)
Lemma run_suite_returns :
  forall suite : dict (py_result test_result),
    suite <> [] ->
    run_suite suite
    = Returned
        {| overall_status :=
             status_of_rate
               (inject_Z (snd (run_tests suite))
                / inject_Z (len suite));
           tests := fst (run_tests suite);
           recommendations :=
             _generate_recommendations (fst (run_tests suite)) |}.
Proof.
  intros suite Hne; unfold run_suite.
  destruct (run_tests suite) as [tests p]; simpl.
  unfold truediv.
  pose proof (len_pos _ suite Hne) as Hpos.
  destruct (Z.eqb_spec (len suite) 0) as [E | _]; [lia | reflexivity].
Qed.

(** The tier as a function of the two counts. *)
Lemma status_of_rate_counts : forall p n : Z,
    0 < n ->
    status_of_rate (inject_Z p / inject_Z n)
    = if 9 * n <=? p * 10 then "excellent"
      else if 7 * n <=? p * 10 then "good"
      else if 5 * n <=? p * 10 then "fair"
      else "poor".
Proof.
  intros p n Hn; unfold status_of_rate.
  now rewrite !Qle_bool_div by exact Hn.
Qed.

(** Each outcome adds its own recommendation at the end of the list. *)
Lemma recommend_app : forall (acc : list string) (item : string * test_result),
    recommend acc item = acc ++ recommendation_of item.
Proof.
  intros acc [name r]; unfold recommendation_of, recommend.
  destruct (status_is r "failed"); [reflexivity |].
  destruct (status_is r "skipped"); [reflexivity |].
  destruct (dict_get "recommendation" r);
    [reflexivity | now rewrite app_nil_r].
Qed.

Lemma fold_recommend : forall (test_results : dict test_result)
                              (acc : list string),
    fold_left recommend test_results acc
    = acc ++ flat_map recommendation_of test_results.
Proof.
  induction test_results as [| item rest IH]; intros acc; simpl.
  - now rewrite app_nil_r.
  - rewrite IH, recommend_app, <- app_assoc; reflexivity.
Qed.

End AIAppTesterFacts.
Import AIAppTesterFacts.

(** ** Claims about the test battery *)

Module TestBattery.

Import AIAppTester Spec Examples.

Lemma suite_names_distinct : forall self : app_tests,
    NoDup (keys (test_suite self)).
Proof. intros; cbn; distinct_names. Qed.

Lemma suite_not_empty : forall self : app_tests, test_suite self <> [].
Proof. intros self; discriminate. Qed.

(** The battery of [run_full_test_suite] always has its seven outcomes and
    is aggregated without an error. *)
Lemma run_full_test_suite_returns : forall self : app_tests,
    exists r,
      run_full_test_suite self = Returned r
      /\ tests r = outcomes (test_suite self)
      /\ keys (tests r)
         = ["dependency_check"; "configuration_validation"; "unit_tests";
            "integration_tests"; "performance_tests"; "security_scan";
            "ai_model_tests"].
Proof.
  intros self; unfold run_full_test_suite.
  rewrite (run_suite_returns _ (suite_not_empty self)).
  rewrite (run_tests_outcomes _ (suite_names_distinct self)).
  eexists; split; [reflexivity |]; split; reflexivity.
Qed.

(** The result of a battery with distinct names that is not empty, in
    terms of its outcomes. *)
Lemma run_suite_outcomes : forall suite : dict (py_result test_result),
    NoDup (keys suite) ->
    suite <> [] ->
    run_suite suite
    = Returned
        {| overall_status :=
             status_of_rate
               (inject_Z (count_status "passed" (outcomes suite))
                / inject_Z (len (outcomes suite)));
           tests := outcomes suite;
           recommendations := _generate_recommendations (outcomes suite) |}.
Proof.
  intros suite Hnd Hne.
  rewrite (run_suite_returns _ Hne), (run_tests_outcomes _ Hnd), len_outcomes.
  reflexivity.
Qed.

(** C2. For every probe set of size N with distinct names, the loop of the
    batch runner leaves exactly N outcomes, one per probe and under the
    probe's name, whether the probes return or raise; and the result
    returned for a battery that is not empty holds exactly these. *)
Theorem batch_has_one_outcome_per_probe :
  forall suite : dict (py_result test_result),
    NoDup (keys suite) ->
    keys (fst (run_tests suite)) = keys suite
    /\ len (fst (run_tests suite)) = len suite
    /\ (forall name : string,
           dict_get name (fst (run_tests suite))
           = option_map outcome (dict_get name suite))
    /\ (suite <> [] ->
        exists r, run_suite suite = Returned r
                  /\ tests r = fst (run_tests suite)).
Proof.
  intros suite Hnd.
  rewrite (run_tests_outcomes _ Hnd); cbn [fst].
  repeat split.
  - apply keys_outcomes.
  - apply len_outcomes.
  - intros name; unfold outcomes; apply dict_get_map_values.
  - intros Hne; rewrite (run_suite_outcomes _ Hnd Hne).
    eexists; split; reflexivity.
Qed.

Lemma batch_has_one_outcome_per_probe_witness :
  NoDup (keys (test_suite faulty_app))
  /\ len (fst (run_tests (test_suite faulty_app))) = 7
  /\ dict_get "ai_model_tests" (fst (run_tests (test_suite faulty_app)))
     = Some (error_result "[Errno 13] Permission denied").
Proof.
  pose proof (batch_has_one_outcome_per_probe
                _ (suite_names_distinct faulty_app)) as [_ [Hlen [Hget _]]].
  split; [apply suite_names_distinct |].
  split; [rewrite Hlen; reflexivity | rewrite Hget; reflexivity].
Defined.

(** A status is one string. *)
Lemma status_is_functional : forall (r : test_result) (s1 s2 : string),
    status_is r s1 = true -> status_is r s2 = true -> s1 = s2.
Proof.
  unfold status_is, py_eq_str; intros r s1 s2 H1 H2.
  destruct (dict_get "status" r) as [[t | t] |]; try discriminate.
  apply String.eqb_eq in H1, H2; congruence.
Qed.

(** When every outcome is passed or skipped, the two counts add up. *)
Lemma passed_plus_skipped : forall os : dict test_result,
    Forall (fun item => status_is (snd item) "passed"
                        || status_is (snd item) "skipped" = true) os ->
    count_status "passed" os + count_status "skipped" os = len os.
Proof.
  induction os as [| [name r] os IH]; intros Hall.
  - reflexivity.
  - inversion Hall as [| x l Hr Hos]; subst; cbn [snd] in Hr.
    rewrite !count_status_cons, len_cons.
    specialize (IH Hos).
    destruct (status_is r "passed") eqn:Hp, (status_is r "skipped") eqn:Hs;
      try lia; try discriminate.
    pose proof (status_is_functional r _ _ Hp Hs); discriminate.
Qed.

(** The tier, by cases on the counts of passed and of all outcomes. *)
Lemma tier_cases : forall p n : Z,
    0 < n ->
    (9 * n <= 10 * p ->
     status_of_rate (inject_Z p / inject_Z n) = "excellent")
    /\ (7 * n <= 10 * p < 9 * n ->
        status_of_rate (inject_Z p / inject_Z n) = "good")
    /\ (5 * n <= 10 * p < 7 * n ->
        status_of_rate (inject_Z p / inject_Z n) = "fair")
    /\ (10 * p < 5 * n ->
        status_of_rate (inject_Z p / inject_Z n) = "poor").
Proof.
  intros p n Hn; rewrite (status_of_rate_counts p n Hn).
  repeat split; intros H;
    destruct (Z.leb_spec (9 * n) (p * 10)); try lia; try reflexivity;
    destruct (Z.leb_spec (7 * n) (p * 10)); try lia; try reflexivity;
    destruct (Z.leb_spec (5 * n) (p * 10)); try lia; reflexivity.
Qed.

(** C1, as stated, fails on an application without a test directory whose
    other tests pass: three of the seven outcomes are skipped and every
    other outcome passed, so that the specification's failure ratio is 0
    and its verdict the best tier; the code divides the four passed
    outcomes by all seven and answers "fair". *)
Lemma untested_app_is_fair :
  exists r,
    run_full_test_suite untested_app = Returned r
    /\ len (tests r) = 7
    /\ count_status "passed" (tests r) = 4
    /\ count_status "skipped" (tests r) = 3
    /\ Forall (fun item => status_is (snd item) "passed"
                           || status_is (snd item) "skipped" = true)
              (tests r)
    /\ (exists ratio, spec_failure_ratio (tests r) = Some ratio
                      /\ (ratio == 0)%Q)
    /\ spec_verdict (tests r) = "excellent"
    /\ overall_status r = "fair"
    /\ overall_status r <> "excellent".
Proof.
  eexists; split; [reflexivity |].
  split; [reflexivity |]; split; [reflexivity |]; split; [reflexivity |].
  split; [cbn; repeat constructor |].
  split; [eexists; split; reflexivity |].
  split; [reflexivity |]; split; [reflexivity | discriminate].
Qed.

(** The scenario of the specification, four probes of which two passed and
    two are skipped, through the aggregation of the code: the failure
    ratio of the specification is 0, the success rate of the code 1/2. *)
Lemma two_passed_two_skipped_is_fair :
  exists r,
    run_suite two_passed_two_skipped = Returned r
    /\ len (tests r) = 4
    /\ count_status "passed" (tests r) = 2
    /\ count_status "skipped" (tests r) = 2
    /\ (exists ratio, spec_failure_ratio (tests r) = Some ratio
                      /\ (ratio == 0)%Q)
    /\ spec_verdict (tests r) = "excellent"
    /\ overall_status r = "fair"
    /\ overall_status r <> "excellent".
Proof.
  eexists; split; [reflexivity |].
  repeat split; try reflexivity.
  - eexists; split; reflexivity.
  - discriminate.
Qed.

(** C1, amended.  The verdict is a function of the success rate, passed
    outcomes over all outcomes, skipped ones included in the denominator:
    when every outcome that is not skipped passed, the verdict is
    "excellent" exactly when at most one outcome in ten is skipped, and it
    is "fair" when half of the outcomes are skipped (2 of 4). *)
Theorem skipped_outcomes_count_in_the_denominator :
  forall suite : dict (py_result test_result),
    NoDup (keys suite) ->
    suite <> [] ->
    Forall (fun item => status_is (snd item) "passed"
                        || status_is (snd item) "skipped" = true)
           (outcomes suite) ->
    exists r,
      run_suite suite = Returned r
      /\ tests r = outcomes suite
      /\ overall_status r
         = status_of_rate
             (inject_Z (len (tests r) - count_status "skipped" (tests r))
              / inject_Z (len (tests r)))
      /\ (overall_status r = "excellent"
          <-> 10 * count_status "skipped" (tests r) <= len (tests r))
      /\ (len (tests r) = 2 * count_status "skipped" (tests r) ->
          overall_status r = "fair").
Proof.
  intros suite Hnd Hne Hall.
  rewrite (run_suite_outcomes suite Hnd Hne).
  eexists; split; [reflexivity |]; cbn [tests overall_status].
  pose proof (passed_plus_skipped _ Hall) as Hsum.
  assert (Hn : 0 < len (outcomes suite))
    by (rewrite len_outcomes; now apply len_pos).
  replace (count_status "passed" (outcomes suite))
    with (len (outcomes suite) - count_status "skipped" (outcomes suite))
    by lia.
  set (n := len (outcomes suite)) in *.
  set (s := count_status "skipped" (outcomes suite)) in *.
  split; [reflexivity |]; split; [reflexivity |].
  destruct (tier_cases (n - s) n Hn) as [He [Hg [Hf Hp]]].
  split; [split |].
  - intros Hex.
    destruct (Z_le_gt_dec (10 * s) n) as [Hle | Hgt]; [exact Hle | exfalso].
    destruct (Z_le_gt_dec (7 * n) (10 * (n - s)));
      [rewrite Hg in Hex by lia; discriminate |].
    destruct (Z_le_gt_dec (5 * n) (10 * (n - s)));
      [rewrite Hf in Hex by lia | rewrite Hp in Hex by lia]; discriminate.
  - intros Hle; apply He; lia.
  - intros Hhalf; apply Hf; lia.
Qed.

Lemma skipped_outcomes_count_in_the_denominator_witness :
  NoDup (keys (test_suite clean_app))
  /\ test_suite clean_app <> []
  /\ Forall (fun item => status_is (snd item) "passed"
                         || status_is (snd item) "skipped" = true)
            (outcomes (test_suite clean_app))
  /\ exists r,
      run_full_test_suite clean_app = Returned r
      /\ count_status "skipped" (tests r) = 2
      /\ len (tests r) = 7
      /\ overall_status r <> "excellent".
Proof.
  assert (Hall : Forall (fun item => status_is (snd item) "passed"
                                     || status_is (snd item) "skipped" = true)
                        (outcomes (test_suite clean_app)))
    by (cbn; repeat constructor).
  split; [apply suite_names_distinct |].
  split; [apply suite_not_empty |].
  split; [exact Hall |].
  destruct (skipped_outcomes_count_in_the_denominator
              (test_suite clean_app)
              (suite_names_distinct clean_app)
              (suite_not_empty clean_app) Hall)
    as [r [Hrun [Htests [_ [Hiff _]]]]].
  - exists r; split; [exact Hrun |].
    rewrite Htests in *.
    split; [reflexivity |]; split; [reflexivity |].
    intros Hex; apply Hiff in Hex; vm_compute in Hex; apply Hex; reflexivity.
Defined.

(** C4, as stated, fails on an application on which every implemented
    test passes: no outcome failed, the failure ratio is 0 and the table
    of the specification answers "excellent"; the success rate of the code
    is 5/7, two of the seven outcomes being the skipped stubs, and the
    code answers "good".  Taken over all seven outcomes, the share of
    outcomes that did not pass is 2/7, for which the table answers
    "fair". *)
Lemma clean_app_is_good :
  exists r,
    run_full_test_suite clean_app = Returned r
    /\ len (tests r) = 7
    /\ count_status "passed" (tests r) = 5
    /\ count is_failure (tests r) = 0
    /\ (exists ratio, spec_failure_ratio (tests r) = Some ratio
                      /\ (ratio == 0)%Q)
    /\ spec_verdict (tests r) = "excellent"
    /\ spec_quality_tier
         (inject_Z (len (tests r) - count_status "passed" (tests r))
          / inject_Z (len (tests r))) = "fair"
    /\ overall_status r = "good".
Proof.
  eexists; split; [reflexivity |].
  split; [reflexivity |]; split; [reflexivity |]; split; [reflexivity |].
  split; [eexists; split; reflexivity |].
  split; [reflexivity |]; split; reflexivity.
Qed.

(** C4, amended.  The verdict is selected by the success rate, the number
    of passed outcomes over the number of all outcomes: at least 0.9 gives
    "excellent", at least 0.7 "good", at least 0.5 "fair", anything lower
    "poor". *)
Theorem verdict_by_success_rate :
  forall suite : dict (py_result test_result),
    NoDup (keys suite) ->
    suite <> [] ->
    exists r,
      run_suite suite = Returned r
      /\ (9 * len (tests r) <= 10 * count_status "passed" (tests r) ->
          overall_status r = "excellent")
      /\ (7 * len (tests r) <= 10 * count_status "passed" (tests r)
                             < 9 * len (tests r) ->
          overall_status r = "good")
      /\ (5 * len (tests r) <= 10 * count_status "passed" (tests r)
                             < 7 * len (tests r) ->
          overall_status r = "fair")
      /\ (10 * count_status "passed" (tests r) < 5 * len (tests r) ->
          overall_status r = "poor").
Proof.
  intros suite Hnd Hne.
  rewrite (run_suite_outcomes suite Hnd Hne).
  eexists; split; [reflexivity |]; cbn [tests overall_status].
  apply tier_cases.
  rewrite len_outcomes; now apply len_pos.
Qed.

Lemma verdict_by_success_rate_witness :
  NoDup (keys (test_suite clean_app))
  /\ test_suite clean_app <> []
  /\ exists r,
      run_full_test_suite clean_app = Returned r
      /\ overall_status r = "good".
Proof.
  split; [apply suite_names_distinct |]; split; [apply suite_not_empty |].
  destruct (verdict_by_success_rate (test_suite clean_app)
              (suite_names_distinct clean_app) (suite_not_empty clean_app))
    as [r [Hrun [_ [Hgood _]]]].
  exists r; split; [exact Hrun |].
  apply Hgood.
  injection Hrun as <-; split; vm_compute; [discriminate | reflexivity].
Defined.

(** C9, as stated, fails: recommendations come in the order of the test
    names, so the reminders for the skipped tests precede the "Fix" entry
    of the failed security scan. *)
Lemma skipped_reminder_precedes_failed_entry :
  exists r,
    run_full_test_suite vulnerable_app = Returned r
    /\ recommendations r
       = [ "⚠️ Implement unit_tests: Add unit tests";
           "⚠️ Implement integration_tests: Implement AI model integration tests";
           "⚠️ Implement performance_tests: Add performance benchmarking";
           "🔴 Fix security_scan: Unknown error";
           "💡 Implement AI model response testing with mocks";
           "📚 Add comprehensive README with setup instructions";
           "🐳 Add Dockerfile for containerization";
           "⚙️ Add GitHub Actions CI/CD workflow";
           "📊 Add health check endpoints";
           "🔍 Add logging and monitoring" ]
    /\ spec_ordered (recommendations r) = false.
Proof.
  eexists; split; [reflexivity |]; split; reflexivity.
Qed.

(** C9, amended.  The list holds what each outcome contributes, at most
    one entry each, in the order of the outcome dictionary (a "Fix" entry
    for a failed outcome, an "Implement" reminder for a skipped one, the
    stored recommendation for any other outcome that has one); the five
    general reminders follow, whatever the outcomes are. *)
Theorem recommendations_in_test_order :
  forall test_results : dict test_result,
    _generate_recommendations test_results
    = flat_map recommendation_of test_results ++ general_recommendations
    /\ (forall (name : string) (r : test_result),
           recommendation_of (name, r)
           = if status_is r "failed" then
               [("🔴 Fix " ++ name ++ ": " ++
                   py_str (dict_get_default "error" (VStr "Unknown error")
                             r))%string]
             else if status_is r "skipped" then
               [("⚠️ Implement " ++ name ++ ": " ++
                   py_str (dict_get_default "recommendation"
                             (VStr "Not implemented") r))%string]
             else match dict_get "recommendation" r with
                  | Some advice => [("💡 " ++ py_str advice)%string]
                  | None => []
                  end)
    /\ (forall item : string * test_result,
           (List.length (recommendation_of item) <= 1)%nat)
    /\ general_recommendations
       = [ "📚 Add comprehensive README with setup instructions";
           "🐳 Add Dockerfile for containerization";
           "⚙️ Add GitHub Actions CI/CD workflow";
           "📊 Add health check endpoints";
           "🔍 Add logging and monitoring" ].
Proof.
  intros test_results; split; [| split; [| split]].
  - unfold _generate_recommendations; now rewrite fold_recommend.
  - intros name r; unfold recommendation_of, recommend.
    destruct (status_is r "failed"); [reflexivity |].
    destruct (status_is r "skipped"); [reflexivity |].
    destruct (dict_get "recommendation" r); reflexivity.
  - intros [name r]; unfold recommendation_of, recommend.
    destruct (status_is r "failed"); [simpl; lia |].
    destruct (status_is r "skipped"); [simpl; lia |].
    destruct (dict_get "recommendation" r); simpl; lia.
  - reflexivity.
Qed.

(** A test function that raises leaves the error dictionary under its
    name, and every test function that returns leaves its own result. *)
Lemma raising_test_is_isolated :
  forall (suite : dict (py_result test_result)) (name e : string),
    NoDup (keys suite) ->
    dict_get name suite = Some (Raised e) ->
    exists r,
      run_suite suite = Returned r
      /\ dict_get name (tests r)
         = Some [("status", VStr "error"); ("error", VStr e)]
      /\ (forall (other : string) (d : test_result),
             dict_get other suite = Some (Returned d) ->
             dict_get other (tests r) = Some d)
      /\ keys (tests r) = keys suite.
Proof.
  intros suite name e Hnd Hget.
  assert (Hne : suite <> []) by (intros ->; discriminate).
  rewrite (run_suite_outcomes suite Hnd Hne).
  eexists; split; [reflexivity |]; cbn [tests].
  unfold outcomes; repeat split.
  - rewrite dict_get_map_values, Hget; reflexivity.
  - intros other d Hother.
    rewrite dict_get_map_values, Hother; reflexivity.
  - apply keys_map_values.
Qed.

(** The threshold chain answers one of the four tiers. *)
Lemma status_of_rate_tier : forall q : Q,
    In (status_of_rate q) ["excellent"; "good"; "fair"; "poor"].
Proof.
  intros q; unfold status_of_rate.
  destruct (Qle_bool (9 # 10) q); [simpl; tauto |].
  destruct (Qle_bool (7 # 10) q); [simpl; tauto |].
  destruct (Qle_bool (5 # 10) q); simpl; tauto.
Qed.

End TestBattery.

(** ** The health battery *)

Module HealthMonitorFacts.

Import HealthMonitor.

(** The two liveness chains, by cross multiplication. *)
Lemma health_status_counts : forall f n : Z,
    health_status f n
    = if f =? 0 then "healthy"
      else if 2 * f <=? n then "degraded"
      else "unhealthy".
Proof.
  intros f n; unfold health_status; rewrite Qle_bool_scale.
  destruct (f =? 0); [reflexivity |].
  destruct (Z.leb_spec (f * 10) (n * 5)), (Z.leb_spec (2 * f) n);
    try reflexivity; lia.
Qed.

Lemma snapshot_status_counts : forall k n : Z,
    snapshot_status k n
    = if k =? 0 then "healthy"
      else if 5 * k <=? n then "degraded"
      else "unhealthy".
Proof.
  intros k n; unfold snapshot_status; rewrite Qle_bool_scale.
  destruct (k =? 0); [reflexivity |].
  destruct (Z.leb_spec (k * 10) (n * 2)), (Z.leb_spec (5 * k) n);
    try reflexivity; lia.
Qed.

Lemma failed_nonneg : forall checks : list check_result, 0 <= failed checks.
Proof. intros; apply len_nonneg. Qed.

Lemma failed_cons : forall (r : check_result) (checks : list check_result),
    failed (r :: checks)
    = (if negb (success r) then 1 else 0) + failed checks.
Proof.
  intros; unfold failed; simpl.
  destruct (negb (success r)); [rewrite len_cons |]; lia.
Qed.

Lemma non_healthy_nonneg : forall apps : dict app_entry, 0 <= non_healthy apps.
Proof. intros; apply len_nonneg. Qed.

Section WithNetwork.

Variable world : Type.
Variable http : string -> string -> world -> check_result * world.

Lemma perform_all_length : forall (base_url : string)
                                  (endpoints : list string) (w : world),
    List.length (fst (perform_all http base_url endpoints w))
    = List.length endpoints.
Proof.
  intros base_url; induction endpoints as [| endpoint rest IH]; intros w.
  - reflexivity.
  - simpl.
    destruct (http base_url endpoint w) as [r w1].
    specialize (IH w1).
    destruct (perform_all http base_url rest w1) as [rs w2].
    simpl in *; now rewrite IH.
Qed.

(** The endpoint loop appends the probes' results in order and counts the
    failed ones. *)
Lemma check_endpoints_from :
  forall (base_url : string) (endpoints : list string)
         (checks : list check_result) (total : float) (failed_checks : Z)
         (w : world),
  exists total' : float,
    fold_left (check_endpoint http base_url) endpoints
              (checks, total, failed_checks, w)
    = (checks ++ fst (perform_all http base_url endpoints w),
       total',
       failed_checks + failed (fst (perform_all http base_url endpoints w)),
       snd (perform_all http base_url endpoints w)).
Proof.
  intros base_url; induction endpoints as [| endpoint rest IH];
    intros checks total failed_checks w.
  - exists total; simpl; rewrite app_nil_r.
    replace (failed_checks + failed []) with failed_checks
      by (unfold failed, len; simpl; lia).
    reflexivity.
  - cbn [fold_left perform_all]; unfold check_endpoint at 2.
    destruct (http base_url endpoint w) as [r w1].
    destruct (IH (checks ++ [r])
                 (total + check_response_time_ms r)%float
                 (if negb (success r) then failed_checks + 1
                  else failed_checks) w1) as [total' Hfold].
    exists total'; rewrite Hfold.
    destruct (perform_all http base_url rest w1) as [rs w2]; cbn [fst snd].
    rewrite <- app_assoc; cbn [app].
    replace ((if negb (success r) then failed_checks + 1 else failed_checks)
             + failed rs)
      with (failed_checks + failed (r :: rs))
      by (rewrite failed_cons; destruct (negb (success r)); lia).
    reflexivity.
Qed.

(** On a JSON object whose endpoints can be iterated the health check
    returns: one check per endpoint, in order, and the status decided by
    the number of failed checks. *)
Lemma check_application_health_returns :
  forall (app_name : string) (base_url port : option string)
         (health_endpoints : option (list string)) (w : world),
  exists response_time : float,
    _check_application_health http app_name
      (ConfigDict base_url port health_endpoints) w
    = (Returned
         {| status :=
              health_status
                (failed (fst (perform_all http (base_url_of base_url port)
                                (endpoints_of health_endpoints) w)))
                (len (endpoints_of health_endpoints));
            checks := fst (perform_all http (base_url_of base_url port)
                             (endpoints_of health_endpoints) w);
            response_time_ms := response_time |},
       snd (perform_all http (base_url_of base_url port)
              (endpoints_of health_endpoints) w)).
Proof.
  intros app_name base_url port health_endpoints w.
  unfold _check_application_health.
  fold (base_url_of base_url port); fold (endpoints_of health_endpoints).
  set (base := base_url_of base_url port).
  set (eps := endpoints_of health_endpoints).
  destruct (check_endpoints_from base eps [] 0%float 0 w) as [total' Hfold].
  rewrite Hfold; cbn [app].
  rewrite Z.add_0_l.
  destruct eps as [| endpoint rest] eqn:Heps.
  - exists 0%float; reflexivity.
  - unfold truediv_float.
    destruct (Z.eqb_spec (len (endpoint :: rest)) 0) as [E | _].
    + rewrite len_cons in E; pose proof (len_nonneg _ rest); lia.
    + eexists; reflexivity.
Qed.

(** One iteration records the entry of the application; it counts the
    application when the entry is not healthy, and raises an alert when
    the check returned a status that is not healthy. *)
Lemma monitor_app_step :
  forall (acc : dict app_entry) (raised : list alert) (unhealthy_count : Z)
         (w : world) (app_name : string) (cfg : app_config),
    monitor_app http (acc, raised, unhealthy_count, w) (app_name, cfg)
    = (dict_set app_name
         (entry_of (fst (_check_application_health http app_name cfg w))) acc,
       raised
       ++ alert_of
            (app_name, fst (_check_application_health http app_name cfg w)),
       unhealthy_count
       + (if is_healthy
               (entry_of (fst (_check_application_health http app_name cfg w)))
          then 0 else 1),
       snd (_check_application_health http app_name cfg w)).
Proof.
  intros; unfold monitor_app.
  destruct (_check_application_health http app_name cfg w) as [[h | e] w'];
    cbn [fst snd entry_of alert_of].
  - unfold is_healthy; cbn [entry_status].
    destruct (String.eqb (status h) "healthy"); cbn [negb].
    + now rewrite app_nil_r, Z.add_0_r.
    + reflexivity.
  - now rewrite app_nil_r.
Qed.

Lemma non_healthy_cons : forall (name : string) (e : app_entry)
                                (apps : dict app_entry),
    non_healthy ((name, e) :: apps)
    = (if is_healthy e then 0 else 1) + non_healthy apps.
Proof.
  intros; unfold non_healthy; simpl.
  destruct (is_healthy e); cbn [negb]; [| rewrite len_cons]; lia.
Qed.

(** The application loop, for application names that are new. *)
Lemma monitor_from :
  forall (apps : dict app_config) (acc : dict app_entry)
         (raised : list alert) (unhealthy_count : Z) (w : world),
    NoDup (keys acc ++ keys apps) ->
    fold_left (monitor_app http) apps (acc, raised, unhealthy_count, w)
    = (acc ++ entries (fst (check_all http apps w)),
       raised ++ flat_map alert_of (fst (check_all http apps w)),
       unhealthy_count + non_healthy (entries (fst (check_all http apps w))),
       snd (check_all http apps w)).
Proof.
  induction apps as [| [name cfg] rest IH];
    intros acc raised unhealthy_count w Hnd.
  - simpl; rewrite !app_nil_r.
    replace (non_healthy []) with 0 by reflexivity.
    now rewrite Z.add_0_r.
  - cbn [fold_left check_all]; rewrite monitor_app_step.
    cbn [keys map fst] in Hnd.
    destruct (_check_application_health http name cfg w) as [o w1];
      cbn [fst snd].
    rewrite dict_set_fresh
      by (apply NoDup_remove_2 in Hnd;
          intros Hin; apply Hnd, in_or_app; now left).
    rewrite IH
      by (rewrite keys_app; cbn [keys map fst]; now rewrite <- app_assoc).
    destruct (check_all http rest w1) as [os w2]; cbn [fst snd].
    cbn [entries map flat_map fst snd]; fold (entries os).
    rewrite non_healthy_cons, <- !app_assoc, Z.add_assoc.
    reflexivity.
Qed.

(** The snapshot, in terms of the outcomes of the checks. *)
Lemma monitor_all_applications_outcomes :
  forall (self : config) (w : world),
    NoDup (keys (get_applications self)) ->
    monitor_all_applications http self w
    = ({| overall_status :=
            snapshot_status
              (non_healthy
                 (entries (fst (check_all http (get_applications self) w))))
              (len (get_applications self));
          applications :=
            entries (fst (check_all http (get_applications self) w));
          alerts :=
            flat_map alert_of
                     (fst (check_all http (get_applications self) w)) |},
       snd (check_all http (get_applications self) w)).
Proof.
  intros self w Hnd; unfold monitor_all_applications.
  rewrite monitor_from by exact Hnd.
  rewrite Z.add_0_l; reflexivity.
Qed.

Lemma check_all_length : forall (apps : dict app_config) (w : world),
    len (fst (check_all http apps w)) = len apps.
Proof.
  induction apps as [| [name cfg] rest IH]; intros w.
  - reflexivity.
  - simpl.
    destruct (_check_application_health http name cfg w) as [o w1].
    specialize (IH w1).
    destruct (check_all http rest w1) as [os w2]; cbn [fst] in *.
    now rewrite !len_cons, IH.
Qed.

(** An application is alerted on exactly when its check returned a status
    that is not healthy; a check that raised alerts nobody. *)
Lemma alerts_only_for_returned_checks :
  forall (os : dict (py_result health_results)) (a : alert),
    In a (flat_map alert_of os)
    <-> exists h, In (app a, Returned h) os
                  /\ status h <> "healthy"
                  /\ a = {| app := app a; alert_status := status h;
                            alert_message := "Application unhealthy" |}.
Proof.
  intros os a; rewrite in_flat_map; split.
  - intros [[name o] [Hin Ha]]; unfold alert_of in Ha; cbn [fst snd] in Ha.
    destruct o as [h | e]; [| contradiction].
    destruct (String.eqb_spec (status h) "healthy") as [E | NE];
      cbn [negb] in Ha; [contradiction |].
    destruct Ha as [<- | []]; cbn [app].
    exists h; repeat split; assumption.
  - intros [h [Hin [NE Ha]]].
    exists (app a, Returned h); split; [exact Hin |].
    unfold alert_of; cbn [fst snd].
    destruct (String.eqb_spec (status h) "healthy") as [E | _];
      [contradiction |].
    cbn [negb]; left; now symmetry.
Qed.

End WithNetwork.

End HealthMonitorFacts.

(** ** Binary64 and exact thresholds agree *)

Module Binary64Facts.

Lemma agree_upto_512 : Binary64.agree_upto 512 = true.
Proof. vm_compute; reflexivity. Qed.

Lemma In_upto : forall (k : Z) (m : nat),
    0 <= k <= Z.of_nat m -> In k (Binary64.upto m).
Proof.
  intros k m Hk; unfold Binary64.upto.
  rewrite <- (Z2Nat.id k) by lia.
  apply in_map, in_seq; lia.
Qed.

(** For batteries of at most 512 units the decisions taken in binary64 are
    the decisions of the exact thresholds. *)
Lemma binary64_decisions_exact : forall k n : Z,
    0 <= k <= n ->
    n <= 512 ->
    (0 < n ->
     Binary64.status_of_counts k n
     = AIAppTester.status_of_rate (inject_Z k / inject_Z n))
    /\ Binary64.health_status k n = HealthMonitor.health_status k n
    /\ Binary64.snapshot_status k n = HealthMonitor.snapshot_status k n.
Proof.
  intros k n Hk Hn.
  pose proof agree_upto_512 as H; unfold Binary64.agree_upto in H.
  rewrite forallb_forall in H.
  specialize (H n (In_upto n 512 ltac:(simpl; lia))).
  rewrite forallb_forall in H.
  specialize (H k (In_upto k (Z.to_nat n) ltac:(lia))).
  apply andb_prop in H as [H Hsnap]; apply andb_prop in H as [Hrate Hhealth].
  apply String.eqb_eq in Hsnap, Hhealth.
  repeat split; try assumption.
  intros Hpos.
  destruct (Z.eqb_spec n 0) as [E | _]; [lia |].
  now apply String.eqb_eq.
Qed.

End Binary64Facts.

(** ** Claims about the health battery *)

Module HealthBattery.

Import HealthMonitor HealthMonitorFacts Examples.

Lemma five_apps_distinct : NoDup (keys (get_applications five_apps_one_down)).
Proof. cbn; distinct_names. Qed.

(** C6. The verdict on one application is "healthy" exactly when none of
    its endpoint checks failed, "degraded" when some but at most half of
    them failed, and "unhealthy" otherwise; there is one check per
    endpoint. *)
Theorem application_verdict_by_failed_checks :
  forall (world : Type)
         (http : string -> string -> world -> check_result * world)
         (app_name : string) (base_url port : option string)
         (health_endpoints : option (list string)) (w : world),
  exists (h : health_results) (w' : world),
    _check_application_health http app_name
      (ConfigDict base_url port health_endpoints) w = (Returned h, w')
    /\ len (checks h) = len (endpoints_of health_endpoints)
    /\ (status h = "healthy" <-> failed (checks h) = 0)
    /\ (0 < failed (checks h) -> 2 * failed (checks h) <= len (checks h) ->
        status h = "degraded")
    /\ (len (checks h) < 2 * failed (checks h) -> status h = "unhealthy").
Proof.
  intros world http app_name base_url port health_endpoints w.
  destruct (check_application_health_returns world http app_name base_url
              port health_endpoints w) as [rt Hcheck].
  do 2 eexists; split; [exact Hcheck |]; cbn [status checks].
  set (rs := fst (perform_all http (base_url_of base_url port)
                    (endpoints_of health_endpoints) w)).
  assert (Hlen : len rs = len (endpoints_of health_endpoints))
    by (unfold len, rs; now rewrite perform_all_length).
  rewrite <- Hlen, health_status_counts.
  pose proof (failed_nonneg rs) as Hnonneg.
  pose proof (len_nonneg _ rs) as Hsize.
  split; [reflexivity |].
  destruct (Z.eqb_spec (failed rs) 0) as [E | NE].
  - repeat split; try lia; reflexivity.
  - destruct (Z.leb_spec (2 * failed rs) (len rs)).
    + repeat split; try lia; try reflexivity; discriminate.
    + repeat split; try lia; try reflexivity; discriminate.
Qed.

Lemma application_verdict_by_failed_checks_witness :
  exists h : health_results,
    fst (_check_application_health http_get "web" half_up_app tt) = Returned h
    /\ 0 < failed (checks h)
    /\ 2 * failed (checks h) <= len (checks h)
    /\ status h = "degraded".
Proof.
  destruct (application_verdict_by_failed_checks
              unit http_get "web" (Some "http://up:8000") None
              (Some ["/health"; "/metrics"]) tt)
    as [h [w' [Hcheck [_ [_ [Hdegraded _]]]]]].
  exists h.
  assert (Hh : fst (_check_application_health http_get "web" half_up_app tt)
               = Returned h)
    by (unfold half_up_app; now rewrite Hcheck).
  split; [exact Hh |].
  assert (Hpos : 0 < failed (checks h))
    by (vm_compute in Hh; injection Hh as <-; reflexivity).
  assert (Hhalf : 2 * failed (checks h) <= len (checks h))
    by (vm_compute in Hh; injection Hh as <-; discriminate).
  split; [exact Hpos |]; split; [exact Hhalf |].
  exact (Hdegraded Hpos Hhalf).
Defined.

(** C10. With an empty list of health endpoints the check returns
    "healthy", a response time of 0 and no checks, and sends no request.
    The division that averages the response times is only reached with a
    list that is not empty: on no input, JSON object or not, does the
    check raise a [ZeroDivisionError].  All it raises is the [TypeError] of
    a ["health_endpoints"] that cannot be iterated ([null], a number, a
    boolean) and the [AttributeError] of a value that is not a JSON
    object. *)
Theorem empty_endpoints_are_healthy :
  forall (world : Type)
         (http : string -> string -> world -> check_result * world)
         (app_name : string),
    (forall (base_url port : option string) (w : world),
        _check_application_health http app_name
          (ConfigDict base_url port (Some [])) w
        = (Returned {| status := "healthy"; checks := [];
                       response_time_ms := 0%float |}, w))
    /\ (forall (cfg : app_config) (w : world),
           fst (_check_application_health http app_name cfg w)
           <> Raised "float division by zero"
           /\ fst (_check_application_health http app_name cfg w)
              <> Raised "division by zero")
    /\ (forall (cfg : app_config) (w : world) (e : string),
           fst (_check_application_health http app_name cfg w) = Raised e ->
           exists type_name : string,
             (cfg = ConfigNotIterable type_name
              /\ e = ("'" ++ type_name ++ "' object is not iterable")%string)
             \/ (cfg = ConfigOther type_name
                 /\ e = ("'" ++ type_name
                            ++ "' object has no attribute 'get'")%string)).
Proof.
  intros world http app_name.
  assert (Hreturns :
            forall (base_url port : option string)
                   (health_endpoints : option (list string)) (w : world),
            exists h : health_results,
              fst (_check_application_health http app_name
                     (ConfigDict base_url port health_endpoints) w)
              = Returned h).
  { intros base_url port health_endpoints w.
    destruct (check_application_health_returns world http app_name base_url
                port health_endpoints w) as [rt Hcheck].
    rewrite Hcheck; eexists; reflexivity. }
  split; [| split].
  - intros base_url port w; reflexivity.
  - intros [base_url port health_endpoints | type_name | type_name] w.
    + destruct (Hreturns base_url port health_endpoints w) as [h ->].
      split; discriminate.
    + cbn; split; discriminate.
    + cbn; split; discriminate.
  - intros [base_url port health_endpoints | type_name | type_name] w e.
    + destruct (Hreturns base_url port health_endpoints w) as [h ->].
      discriminate.
    + cbn; intros [= <-]; exists type_name; left; split; reflexivity.
    + cbn; intros [= <-]; exists type_name; right; split; reflexivity.
Qed.

(** C5. The overall status of a snapshot is "healthy" exactly when no
    application entry is non-healthy, "degraded" when the non-healthy
    entries are at most 20% of the applications, and "unhealthy"
    otherwise; one non-healthy application among five gives "degraded",
    also when [5 * 0.2] is evaluated in binary64. *)
Theorem snapshot_status_by_unhealthy_share :
  forall (world : Type)
         (http : string -> string -> world -> check_result * world)
         (self : config) (w : world),
    NoDup (keys (get_applications self)) ->
    let s := fst (monitor_all_applications http self w) in
    keys (applications s) = keys (get_applications self)
    /\ (overall_status s = "healthy" <-> non_healthy (applications s) = 0)
    /\ (0 < non_healthy (applications s) ->
        5 * non_healthy (applications s) <= len (applications s) ->
        overall_status s = "degraded")
    /\ (len (applications s) < 5 * non_healthy (applications s) ->
        overall_status s = "unhealthy")
    /\ (non_healthy (applications s) = 1 -> len (applications s) = 5 ->
        overall_status s = "degraded"
        /\ Binary64.snapshot_status 1 5 = "degraded").
Proof.
  intros world http self w Hnd s; subst s.
  rewrite (monitor_all_applications_outcomes world http self w Hnd).
  cbn [fst overall_status applications].
  set (os := fst (check_all http (get_applications self) w)).
  assert (Hlen : len (entries os) = len (get_applications self))
    by (unfold entries; rewrite len_map; apply check_all_length).
  rewrite <- Hlen, snapshot_status_counts.
  pose proof (non_healthy_nonneg (entries os)) as Hnonneg.
  pose proof (len_nonneg _ (entries os)) as Hsize.
  split.
  { unfold entries; rewrite keys_map_values; unfold os.
    clear; generalize w; induction (get_applications self) as [| [n c] l IH];
      intros w0; [reflexivity |].
    simpl.
    destruct (_check_application_health http n c w0) as [o w1].
    specialize (IH w1).
    destruct (check_all http l w1) as [os' w2]; simpl in *; now rewrite IH. }
  destruct (Z.eqb_spec (non_healthy (entries os)) 0) as [E | NE].
  - repeat split; try lia; reflexivity.
  - destruct (Z.leb_spec (5 * non_healthy (entries os)) (len (entries os))).
    + repeat split; try lia; try reflexivity; discriminate.
    + repeat split; try lia; try reflexivity; discriminate.
Qed.

Lemma snapshot_status_by_unhealthy_share_witness :
  NoDup (keys (get_applications five_apps_one_down))
  /\ non_healthy
       (applications (fst (monitor_all_applications http_get
                             five_apps_one_down tt))) = 1
  /\ len (applications (fst (monitor_all_applications http_get
                               five_apps_one_down tt))) = 5
  /\ overall_status (fst (monitor_all_applications http_get
                            five_apps_one_down tt)) = "degraded".
Proof.
  split; [exact five_apps_distinct |].
  split; [reflexivity |]; split; [reflexivity |].
  destruct (snapshot_status_by_unhealthy_share
              unit http_get five_apps_one_down tt five_apps_distinct)
    as [_ [_ [_ [_ Hfive]]]].
  apply Hfive; reflexivity.
Defined.

(** C7, at a failing input.  With the configuration
    [{"applications": {"web": {...}, "broken": []}}] the check of
    ["broken"] raises; the snapshot records it with status "error" and
    counts it as unhealthy, so that the overall status is "unhealthy", but
    the alert list stays empty. *)
Theorem raised_check_gets_no_alert :
  let s := fst (monitor_all_applications http_get one_app_malformed tt) in
  dict_get "broken" (applications s)
  = Some (CheckError "'list' object has no attribute 'get'")
  /\ option_map entry_status (dict_get "broken" (applications s))
     = Some "error"
  /\ non_healthy (applications s) = 1
  /\ overall_status s = "unhealthy"
  /\ alerts s = [].
Proof. cbv zeta; repeat split; reflexivity. Qed.

End HealthBattery.

(** ** Claims about both batteries *)

Module Batteries.

Import Examples.

(** C3. A test function that raises does not stop the batch: the call
    returns, the outcome stored under its name has status "error" and
    carries the text of the exception, and every test function that
    returns has its own result stored.  The monitoring cycle does the same
    for an application whose health check raises. *)
Theorem fault_is_confined_to_its_probe :
  (forall (suite : dict (py_result AIAppTester.test_result))
          (name e : string),
      NoDup (keys suite) ->
      dict_get name suite = Some (Raised e) ->
      exists r,
        AIAppTester.run_suite suite = Returned r
        /\ dict_get name (AIAppTester.tests r)
           = Some [("status", VStr "error"); ("error", VStr e)]
        /\ (forall (other : string) (d : AIAppTester.test_result),
               dict_get other suite = Some (Returned d) ->
               dict_get other (AIAppTester.tests r) = Some d)
        /\ keys (AIAppTester.tests r) = keys suite)
  /\ (forall (world : Type)
             (http : string -> string -> world
                     -> HealthMonitor.check_result * world)
             (self : HealthMonitor.config) (w : world) (name e : string),
         NoDup (keys (HealthMonitor.get_applications self)) ->
         dict_get name
           (fst (HealthMonitor.check_all http
                   (HealthMonitor.get_applications self) w))
         = Some (Raised e) ->
         let s := fst (HealthMonitor.monitor_all_applications http self w) in
         dict_get name (HealthMonitor.applications s)
         = Some (HealthMonitor.CheckError e)
         /\ HealthMonitor.entry_status (HealthMonitor.CheckError e) = "error"
         /\ (forall (other : string) (h : HealthMonitor.health_results),
                dict_get other
                  (fst (HealthMonitor.check_all http
                          (HealthMonitor.get_applications self) w))
                = Some (Returned h) ->
                dict_get other (HealthMonitor.applications s)
                = Some (HealthMonitor.Health h))).
Proof.
  split.
  - exact TestBattery.raising_test_is_isolated.
  - intros world http self w name e Hnd Hraised s; subst s.
    rewrite (HealthMonitorFacts.monitor_all_applications_outcomes
               world http self w Hnd).
    cbn [fst HealthMonitor.applications]; unfold HealthMonitor.entries.
    repeat split.
    + rewrite dict_get_map_values, Hraised; reflexivity.
    + intros other h Hother.
      rewrite dict_get_map_values, Hother; reflexivity.
Qed.

Lemma fault_is_confined_to_its_probe_witness :
  (NoDup (keys (AIAppTester.test_suite faulty_app))
   /\ dict_get "ai_model_tests" (AIAppTester.test_suite faulty_app)
      = Some (Raised "[Errno 13] Permission denied")
   /\ exists r,
       AIAppTester.run_full_test_suite faulty_app = Returned r
       /\ dict_get "ai_model_tests" (AIAppTester.tests r)
          = Some [("status", VStr "error");
                  ("error", VStr "[Errno 13] Permission denied")]
       /\ dict_get "unit_tests" (AIAppTester.tests r) = Some unit_tests_ok)
  /\ (NoDup (keys (HealthMonitor.get_applications one_app_malformed))
      /\ dict_get "broken"
           (HealthMonitor.applications
              (fst (HealthMonitor.monitor_all_applications
                      http_get one_app_malformed tt)))
         = Some (HealthMonitor.CheckError
                   "'list' object has no attribute 'get'")).
Proof.
  destruct fault_is_confined_to_its_probe as [Htests Hmonitor].
  assert (Hnd : NoDup (keys (AIAppTester.test_suite faulty_app)))
    by apply TestBattery.suite_names_distinct.
  assert (Hnd' : NoDup (keys (HealthMonitor.get_applications
                                one_app_malformed)))
    by (cbn; distinct_names).
  split.
  - split; [exact Hnd |]; split; [reflexivity |].
    destruct (Htests (AIAppTester.test_suite faulty_app) "ai_model_tests"
                "[Errno 13] Permission denied" Hnd eq_refl)
      as [r [Hrun [Herr [Hothers _]]]].
    exists r; split; [exact Hrun |]; split; [exact Herr |].
    apply Hothers; reflexivity.
  - split; [exact Hnd' |].
    apply (Hmonitor unit http_get one_app_malformed tt "broken"
             "'list' object has no attribute 'get'" Hnd' eq_refl).
Defined.

(** C8, as stated, fails: the snapshot of a monitor without any
    application, whose outcome set is empty, is "healthy", where the
    specification says "unknown". *)
Lemma snapshot_of_no_application_is_healthy :
  let s := fst (HealthMonitor.monitor_all_applications http_get
                  no_application tt) in
  HealthMonitor.applications s = []
  /\ HealthMonitor.alerts s = []
  /\ HealthMonitor.overall_status s = "healthy"
  /\ HealthMonitor.overall_status s <> "unknown".
Proof.
  cbv zeta.
  split; [reflexivity |]; split; [reflexivity |].
  split; [reflexivity | discriminate].
Qed.

(** C8, amended.  A degenerate battery is aggregated without an error and
    gets an ordinary tier, never "unknown".  A snapshot of no application
    is "healthy", with no entry and no alert.  The test battery is never
    degenerate: [run_full_test_suite] always aggregates seven outcomes,
    the outcome of the dependency check is never skipped, and the verdict
    is one of "excellent", "good", "fair" and "poor". *)
Theorem degenerate_batteries_get_a_tier :
  (forall (world : Type)
          (http : string -> string -> world
                  -> HealthMonitor.check_result * world)
          (self : HealthMonitor.config) (w : world),
      HealthMonitor.get_applications self = [] ->
      HealthMonitor.monitor_all_applications http self w
      = ({| HealthMonitor.overall_status := "healthy";
            HealthMonitor.applications := [];
            HealthMonitor.alerts := [] |}, w))
  /\ (forall self : AIAppTester.app_tests,
         exists r,
           AIAppTester.run_full_test_suite self = Returned r
           /\ len (AIAppTester.tests r) = 7
           /\ In (AIAppTester.overall_status r)
                 ["excellent"; "good"; "fair"; "poor"])
  /\ (forall (lower : Text.text -> Text.text)
             (self : AIAppTesterProbes.application),
         exists (r : AIAppTester.results) (d : AIAppTester.test_result),
           AIAppTester.run_full_test_suite
             (AIAppTesterProbes.tests_of lower self) = Returned r
           /\ dict_get "dependency_check" (AIAppTester.tests r) = Some d
           /\ AIAppTester.status_is d "skipped" = false).
Proof.
  split; [| split].
  - intros world http self w Hempty.
    unfold HealthMonitor.monitor_all_applications; rewrite Hempty.
    reflexivity.
  - intros self.
    pose proof (run_suite_returns _ (TestBattery.suite_not_empty self))
      as Hrun.
    eexists; split; [exact Hrun |]; cbn [AIAppTester.tests
                                          AIAppTester.overall_status].
    split.
    + rewrite (run_tests_outcomes _ (TestBattery.suite_names_distinct self)).
      reflexivity.
    + apply TestBattery.status_of_rate_tier.
  - intros lower self.
    destruct (TestBattery.run_full_test_suite_returns
                (AIAppTesterProbes.tests_of lower self))
      as [r [Hrun [Htests _]]].
    exists r, (AIAppTester.outcome (AIAppTesterProbes._test_dependencies self)).
    split; [exact Hrun |]; rewrite Htests; split; [reflexivity |].
    unfold AIAppTesterProbes._test_dependencies.
    destruct (AIAppTesterProbes.requirements_exists self);
      [| reflexivity].
    destruct (AIAppTesterProbes.pip_dry_run self) as [rc out err | e | e];
      try reflexivity.
    cbn [negb]; destruct (rc =? 0); reflexivity.
Qed.

Lemma degenerate_batteries_get_a_tier_witness :
  HealthMonitor.get_applications
    {| HealthMonitor.config_applications := None |} = []
  /\ HealthMonitor.overall_status
       (fst (HealthMonitor.monitor_all_applications http_get
               {| HealthMonitor.config_applications := None |} tt))
     = "healthy"
  /\ exists r,
      AIAppTester.run_full_test_suite faulty_app = Returned r
      /\ AIAppTester.overall_status r = "poor".
Proof.
  destruct degenerate_batteries_get_a_tier as [Hnone [Htier _]].
  split; [reflexivity |].
  split.
  - rewrite (Hnone unit http_get
                   {| HealthMonitor.config_applications := None |} tt eq_refl).
    reflexivity.
  - destruct (Htier faulty_app) as [r [Hrun _]].
    exists r; split; [exact Hrun |].
    injection Hrun as <-; reflexivity.
Defined.

End Batteries.

(** ** Strings *)

Module StringFacts.


Lemma append_nil_r : forall a : string, (a ++ "")%string = a.
Proof.
  induction a as [| x a IH]; simpl; [reflexivity | now rewrite IH].
Qed.

End StringFacts.

(** ** Further properties of the test battery *)

Module TestBatteryExtras.

Import AIAppTester Examples.

(** Number of passed outcomes, as an int. *)
Lemma passed_count_of_suite : forall self : app_tests,
    count_status "passed" (outcomes (test_suite self))
    = Z.b2z (status_is (outcome (_test_dependencies self)) "passed")
      + Z.b2z (status_is (outcome (_test_configuration self)) "passed")
      + Z.b2z (status_is (outcome (_run_unit_tests self)) "passed")
      + Z.b2z (status_is (outcome (_run_security_scan self)) "passed")
      + Z.b2z (status_is (outcome (_test_ai_models self)) "passed").
Proof.
  intros self; unfold test_suite, outcomes; cbn [map fst snd].
  rewrite !count_status_cons.
  replace (count_status "passed" []) with 0 by reflexivity.
  cbn [outcome _run_integration_tests _run_performance_tests].
  replace (status_is
             [("status", VStr "skipped");
              ("message", VStr "Integration tests not yet implemented");
              ("recommendation", VStr "Implement AI model integration tests")]
             "passed") with false by reflexivity.
  replace (status_is
             [("status", VStr "skipped");
              ("message", VStr "Performance tests not yet implemented");
              ("recommendation", VStr "Add performance benchmarking")]
             "passed") with false by reflexivity.
  destruct (status_is (outcome (_test_dependencies self)) "passed"),
    (status_is (outcome (_test_configuration self)) "passed"),
    (status_is (outcome (_run_unit_tests self)) "passed"),
    (status_is (outcome (_run_security_scan self)) "passed"),
    (status_is (outcome (_test_ai_models self)) "passed");
    reflexivity.
Qed.

(** The tier for [p] passed tests out of seven. *)
Lemma tier_of_seven : forall p : Z,
    0 <= p <= 5 ->
    status_of_rate (inject_Z p / inject_Z 7)
    = if p =? 5 then "good" else if p =? 4 then "fair" else "poor".
Proof.
  intros p Hp; rewrite status_of_rate_counts by lia.
  assert (Hcases : p = 0 \/ p = 1 \/ p = 2 \/ p = 3 \/ p = 4 \/ p = 5)
    by lia.
  destruct Hcases as [-> | [-> | [-> | [-> | [-> | ->]]]]]; reflexivity.
Qed.

(** The result of [run_full_test_suite]. *)
Lemma full_suite_result : forall self : app_tests,
    count_status "passed" (outcomes (test_suite self)) <= 5
    /\ 0 <= count_status "passed" (outcomes (test_suite self))
    /\ run_full_test_suite self
       = Returned
           {| overall_status :=
                if count_status "passed" (outcomes (test_suite self)) =? 5
                then "good"
                else if count_status "passed" (outcomes (test_suite self))
                        =? 4
                     then "fair" else "poor";
              tests := outcomes (test_suite self);
              recommendations :=
                _generate_recommendations (outcomes (test_suite self)) |}.
Proof.
  intros self.
  assert (Hrange : 0 <= count_status "passed" (outcomes (test_suite self))
                   <= 5).
  { rewrite passed_count_of_suite.
    destruct (status_is (outcome (_test_dependencies self)) "passed"),
      (status_is (outcome (_test_configuration self)) "passed"),
      (status_is (outcome (_run_unit_tests self)) "passed"),
      (status_is (outcome (_run_security_scan self)) "passed"),
      (status_is (outcome (_test_ai_models self)) "passed");
      cbn; lia. }
  split; [apply Hrange |]; split; [apply Hrange |].
  unfold run_full_test_suite.
  rewrite (TestBattery.run_suite_outcomes _
             (TestBattery.suite_names_distinct self)
             (TestBattery.suite_not_empty self)).
  replace (len (outcomes (test_suite self))) with 7 by reflexivity.
  now rewrite (tier_of_seven _ Hrange).
Qed.

(** X1. [run_full_test_suite] never answers "excellent": two of its seven
    tests are always skipped, so at most five pass.  The verdict is "good"
    exactly when the five other tests pass, "fair" when four of them do
    and "poor" otherwise. *)
Theorem full_suite_is_never_excellent :
  forall self : app_tests,
  exists r,
    run_full_test_suite self = Returned r
    /\ overall_status r <> "excellent"
    /\ count_status "passed" (tests r) <= 5
    /\ (overall_status r = "good" <-> count_status "passed" (tests r) = 5)
    /\ (overall_status r = "fair" <-> count_status "passed" (tests r) = 4)
    /\ (overall_status r = "poor" <-> count_status "passed" (tests r) <= 3).
Proof.
  intros self.
  destruct (full_suite_result self) as [Hle [Hge Hrun]].
  eexists; split; [exact Hrun |]; cbn [tests overall_status].
  destruct (Z.eqb_spec (count_status "passed" (outcomes (test_suite self))) 5)
    as [E5 | N5].
  - repeat split; intros; try lia; try reflexivity; discriminate.
  - destruct (Z.eqb_spec
                (count_status "passed" (outcomes (test_suite self))) 4)
      as [E4 | N4].
    + repeat split; intros; try lia; try reflexivity; discriminate.
    + repeat split; intros; try lia; try reflexivity; discriminate.
Qed.

(** X2. Every report of [run_full_test_suite] holds at least seven
    recommendations: the reminders for the two tests that are not
    implemented, between at most three entries of the tests before them
    and at most two of the tests after them, and the five general
    reminders at the end. *)
Theorem full_suite_recommendations :
  forall self : app_tests,
  exists r before after,
    run_full_test_suite self = Returned r
    /\ recommendations r
       = before
         ++ [ "⚠️ Implement integration_tests: Implement AI model integration tests";
              "⚠️ Implement performance_tests: Add performance benchmarking" ]
         ++ after ++ general_recommendations
    /\ (List.length before <= 3)%nat
    /\ (List.length after <= 2)%nat
    /\ (7 <= List.length (recommendations r) <= 12)%nat.
Proof.
  intros self; unfold run_full_test_suite.
  rewrite (TestBattery.run_suite_outcomes _
             (TestBattery.suite_names_distinct self)
             (TestBattery.suite_not_empty self)).
  assert (Hone : forall item, (List.length (recommendation_of item) <= 1)%nat).
  { intros [name res]; unfold recommendation_of, recommend.
    destruct (status_is res "failed"); [simpl; lia |].
    destruct (status_is res "skipped"); [simpl; lia |].
    destruct (dict_get "recommendation" res); simpl; lia. }
  exists
    {| overall_status :=
         status_of_rate
           (inject_Z (count_status "passed" (outcomes (test_suite self)))
            / inject_Z (len (outcomes (test_suite self))));
       tests := outcomes (test_suite self);
       recommendations :=
         _generate_recommendations (outcomes (test_suite self)) |},
    (recommendation_of
       ("dependency_check", outcome (_test_dependencies self))
     ++ recommendation_of
          ("configuration_validation", outcome (_test_configuration self))
     ++ recommendation_of ("unit_tests", outcome (_run_unit_tests self))),
    (recommendation_of ("security_scan", outcome (_run_security_scan self))
     ++ recommendation_of ("ai_model_tests", outcome (_test_ai_models self))).
  cbn [recommendations].
  pose proof (Hone ("dependency_check", outcome (_test_dependencies self))).
  pose proof (Hone ("configuration_validation",
                    outcome (_test_configuration self))).
  pose proof (Hone ("unit_tests", outcome (_run_unit_tests self))).
  pose proof (Hone ("security_scan", outcome (_run_security_scan self))).
  pose proof (Hone ("ai_model_tests", outcome (_test_ai_models self))).
  assert (Heq :
    _generate_recommendations (outcomes (test_suite self))
    = (recommendation_of
         ("dependency_check", outcome (_test_dependencies self))
       ++ recommendation_of
            ("configuration_validation", outcome (_test_configuration self))
       ++ recommendation_of ("unit_tests", outcome (_run_unit_tests self)))
      ++ [ "⚠️ Implement integration_tests: Implement AI model integration tests";
           "⚠️ Implement performance_tests: Add performance benchmarking" ]
      ++ (recommendation_of
            ("security_scan", outcome (_run_security_scan self))
          ++ recommendation_of
               ("ai_model_tests", outcome (_test_ai_models self)))
      ++ general_recommendations).
  { unfold _generate_recommendations; rewrite fold_recommend.
    unfold test_suite, outcomes; cbn [map fst snd flat_map app].
    rewrite app_nil_r, <- !app_assoc; reflexivity. }
  split; [reflexivity |]; split; [exact Heq |].
  rewrite Heq, !length_app; cbn [List.length general_recommendations].
  repeat split; lia.
Qed.

End TestBatteryExtras.

(** ** Further properties of the health battery *)

Module HealthBatteryExtras.

Import HealthMonitor HealthNotions HealthMonitorFacts Examples.

Lemma check_errors_cons : forall (name : string) (e : app_entry)
                                 (apps : dict app_entry),
    check_errors ((name, e) :: apps)
    = (if is_error e then 1 else 0) + check_errors apps.
Proof.
  intros; unfold check_errors; simpl.
  destruct (is_error e); [rewrite len_cons |]; lia.
Qed.

(** Every entry that is not healthy was either alerted on or written by
    the exception handler. *)
Lemma alerts_plus_errors :
  forall os : dict (py_result health_results),
    len (flat_map alert_of os) + check_errors (entries os)
    = non_healthy (entries os).
Proof.
  induction os as [| [name o] os IH].
  - reflexivity.
  - cbn [flat_map entries map fst snd]; fold (entries os).
    rewrite check_errors_cons, non_healthy_cons.
    unfold len in *; rewrite length_app, Nat2Z.inj_add.
    set (rest := flat_map alert_of os) in *.
    destruct o as [h | e]; unfold alert_of, is_healthy;
      cbn [snd fst entry_of entry_status is_error].
    + destruct (String.eqb (status h) "healthy"); cbn [negb List.length]; lia.
    + replace (String.eqb "error" "healthy") with false by reflexivity.
      cbn [List.length]; lia.
Qed.

(** X3. In every snapshot the alerts and the entries written by the
    exception handler together are exactly the applications that are not
    healthy; each alert belongs to an application whose check returned a
    status other than "healthy" and repeats that status. *)
Theorem alerts_and_errors_partition_unhealthy :
  forall (world : Type)
         (http : string -> string -> world -> check_result * world)
         (self : config) (w : world),
    NoDup (keys (get_applications self)) ->
    let s := fst (monitor_all_applications http self w) in
    len (alerts s) + check_errors (applications s)
    = non_healthy (applications s)
    /\ (forall a : alert,
           In a (alerts s) ->
           exists h : health_results,
             dict_get (app a) (applications s) = Some (Health h)
             /\ alert_status a = status h
             /\ status h <> "healthy"
             /\ alert_message a = "Application unhealthy").
Proof.
  intros world http self w Hnd s; subst s.
  rewrite (monitor_all_applications_outcomes world http self w Hnd).
  cbn [fst alerts applications].
  set (os := fst (check_all http (get_applications self) w)).
  assert (Hkeys : keys os = keys (get_applications self)).
  { unfold os; clear; generalize w.
    induction (get_applications self) as [| [n c] l IH];
      intros w0; [reflexivity |].
    simpl.
    destruct (_check_application_health http n c w0) as [o w1].
    specialize (IH w1).
    destruct (check_all http l w1) as [os' w2]; simpl in *; now rewrite IH. }
  split; [apply alerts_plus_errors |].
  intros a Ha.
  apply alerts_only_for_returned_checks in Ha as [h [Hin [Hne Hshape]]].
  exists h.
  assert (Hget : dict_get (app a) os = Some (Returned h)).
  { rewrite <- Hkeys in Hnd; clear - Hin Hnd.
    induction os as [| [n o] os IH]; [contradiction |].
    cbn [keys map fst] in Hnd; inversion Hnd as [| x l Hfresh Hrest]; subst.
    destruct Hin as [Heq | Hin].
    - injection Heq as Hn Ho; subst n o; simpl; now rewrite String.eqb_refl.
    - simpl.
      destruct (String.eqb_spec (app a) n) as [E | _].
      + exfalso; apply Hfresh; rewrite <- E.
        change (app a) with (fst (app a, @Returned health_results h)).
        now apply in_map.
      + now apply IH. }
  unfold entries; rewrite dict_get_map_values, Hget.
  split; [reflexivity |].
  rewrite Hshape; cbn [alert_status alert_message]; auto.
Qed.

Lemma alerts_and_errors_partition_unhealthy_witness :
  NoDup (keys (get_applications one_app_malformed))
  /\ len (alerts (fst (monitor_all_applications http_get
                         one_app_malformed tt))) = 0
  /\ check_errors (applications (fst (monitor_all_applications http_get
                                        one_app_malformed tt))) = 1
  /\ non_healthy (applications (fst (monitor_all_applications http_get
                                       one_app_malformed tt))) = 1.
Proof.
  assert (Hnd : NoDup (keys (get_applications one_app_malformed)))
    by (cbn; distinct_names).
  destruct (alerts_and_errors_partition_unhealthy
              unit http_get one_app_malformed tt Hnd) as [Hsum _].
  split; [exact Hnd |]; split; [reflexivity |]; split; [reflexivity |].
  rewrite <- Hsum; reflexivity.
Defined.

(** X4. With fewer than five applications the overall status is never
    "degraded": one application that is not healthy already exceeds the
    20% share, so the status is "healthy" or "unhealthy". *)
Theorem small_fleet_is_never_degraded :
  forall (world : Type)
         (http : string -> string -> world -> check_result * world)
         (self : config) (w : world),
    NoDup (keys (get_applications self)) ->
    len (get_applications self) < 5 ->
    let s := fst (monitor_all_applications http self w) in
    overall_status s <> "degraded"
    /\ (non_healthy (applications s) = 0 -> overall_status s = "healthy")
    /\ (0 < non_healthy (applications s) -> overall_status s = "unhealthy").
Proof.
  intros world http self w Hnd Hsmall s; subst s.
  rewrite (monitor_all_applications_outcomes world http self w Hnd).
  cbn [fst overall_status applications].
  rewrite snapshot_status_counts.
  pose proof (non_healthy_nonneg
                (entries (fst (check_all http (get_applications self) w)))).
  destruct (Z.eqb_spec
              (non_healthy
                 (entries (fst (check_all http (get_applications self) w))))
              0) as [E | NE].
  - repeat split; try discriminate; intros; try reflexivity; lia.
  - destruct (Z.leb_spec
                (5 * non_healthy
                       (entries (fst (check_all http
                                        (get_applications self) w))))
                (len (get_applications self))); [lia |].
    repeat split; try discriminate; intros; try reflexivity; lia.
Qed.

Lemma small_fleet_is_never_degraded_witness :
  NoDup (keys (get_applications one_app_malformed))
  /\ len (get_applications one_app_malformed) < 5
  /\ overall_status (fst (monitor_all_applications http_get
                            one_app_malformed tt)) = "unhealthy".
Proof.
  assert (Hnd : NoDup (keys (get_applications one_app_malformed)))
    by (cbn; distinct_names).
  assert (Hsmall : len (get_applications one_app_malformed) < 5)
    by reflexivity.
  destruct (small_fleet_is_never_degraded
              unit http_get one_app_malformed tt Hnd Hsmall)
    as [_ [_ Hbad]].
  split; [exact Hnd |]; split; [exact Hsmall |].
  apply Hbad; reflexivity.
Defined.

Section WithNetwork.

Variable world : Type.
Variable http : string -> string -> world -> check_result * world.

(** The endpoint loop with its running total. *)
Lemma check_endpoints_total :
  forall (base_url : string) (endpoints : list string)
         (checks : list check_result) (total : float) (failed_checks : Z)
         (w : world),
    snd (fst (fst (fold_left (check_endpoint http base_url) endpoints
                             (checks, total, failed_checks, w))))
    = fold_left (fun t r => (t + check_response_time_ms r)%float)
                (fst (perform_all http base_url endpoints w)) total.
Proof.
  intros base_url; induction endpoints as [| endpoint rest IH];
    intros checks total failed_checks w.
  - reflexivity.
  - cbn [fold_left perform_all]; unfold check_endpoint at 2.
    destruct (http base_url endpoint w) as [r w1].
    rewrite IH.
    destruct (perform_all http base_url rest w1) as [rs w2]; reflexivity.
Qed.

End WithNetwork.

(** X5. An application with a single health endpoint, which is the case
    when the key [health_endpoints] is missing, is never "degraded": it is
    "healthy" when the endpoint's check succeeds and "unhealthy" when it
    fails. *)
Theorem single_endpoint_is_never_degraded :
  forall (world : Type)
         (http : string -> string -> world -> check_result * world)
         (app_name : string) (base_url port : option string)
         (health_endpoints : option (list string)) (w : world),
    List.length (endpoints_of health_endpoints) = 1%nat ->
    exists (h : health_results) (r : check_result) (w' : world),
      _check_application_health http app_name
        (ConfigDict base_url port health_endpoints) w = (Returned h, w')
      /\ checks h = [r]
      /\ status h = (if success r then "healthy" else "unhealthy")
      /\ status h <> "degraded".
Proof.
  intros world http app_name base_url port health_endpoints w Hone.
  destruct (check_application_health_returns world http app_name base_url
              port health_endpoints w) as [rt Hcheck].
  pose proof (perform_all_length world http (base_url_of base_url port)
                (endpoints_of health_endpoints) w) as Hlen.
  rewrite Hone in Hlen.
  destruct (fst (perform_all http (base_url_of base_url port)
                   (endpoints_of health_endpoints) w))
    as [| r [| r' rs]] eqn:Hrs; try discriminate.
  do 3 eexists; split; [exact Hcheck |]; cbn [checks status].
  split; [reflexivity |].
  unfold len; rewrite Hone.
  unfold failed; cbn [filter].
  destruct (success r); cbn; split; try reflexivity; discriminate.
Qed.

Lemma single_endpoint_is_never_degraded_witness :
  List.length (endpoints_of None) = 1%nat
  /\ exists h : health_results,
      fst (_check_application_health http_get "db" down_app tt) = Returned h
      /\ status h = "unhealthy".
Proof.
  split; [reflexivity |].
  destruct (single_endpoint_is_never_degraded
              unit http_get "db" (Some "http://down:8000") None None tt
              eq_refl) as [h [r [w' [Hcheck [Hr [Hstatus _]]]]]].
  exists h; split; [unfold down_app; now rewrite Hcheck |].
  rewrite Hstatus.
  vm_compute in Hcheck; injection Hcheck as <- _.
  cbn [checks] in Hr; injection Hr as <-; reflexivity.
Defined.

(** X6. For a list of endpoints that is not empty, the reported response
    time is determined by the recorded checks: it is their response times
    added up from 0 in the order of the checks, divided by the number of
    checks, every addition and the division being rounded to binary64. *)
Theorem response_time_is_the_rounded_mean :
  forall (world : Type)
         (http : string -> string -> world -> check_result * world)
         (app_name : string) (base_url port : option string)
         (health_endpoints : option (list string)) (w : world),
    endpoints_of health_endpoints <> [] ->
    exists (h : health_results) (w' : world),
      _check_application_health http app_name
        (ConfigDict base_url port health_endpoints) w = (Returned h, w')
      /\ len (checks h) = len (endpoints_of health_endpoints)
      /\ response_time_ms h
         = (sum_response_times (checks h)
            / float_of_int (len (checks h)))%float.
Proof.
  intros world http app_name base_url port health_endpoints w Hne.
  unfold _check_application_health.
  fold (base_url_of base_url port); fold (endpoints_of health_endpoints).
  set (base := base_url_of base_url port).
  set (eps := endpoints_of health_endpoints) in *.
  pose proof (check_endpoints_total world http base eps [] 0%float 0 w)
    as Htotal.
  destruct (check_endpoints_from world http base eps [] 0%float 0 w)
    as [total' Hfold].
  rewrite Hfold in Htotal |- *; cbn [fst snd app] in Htotal |- *.
  assert (Hlen : len (fst (perform_all http base eps w)) = len eps)
    by (unfold len; now rewrite perform_all_length).
  pose proof (len_pos _ eps Hne) as Hpos.
  destruct eps as [| endpoint rest] eqn:Heps; [congruence |].
  unfold truediv_float.
  destruct (Z.eqb_spec (len (endpoint :: rest)) 0) as [E | NE]; [lia |].
  do 2 eexists; split; [reflexivity |]; cbn [checks response_time_ms].
  rewrite !app_nil_l.
  split; [exact Hlen |].
  rewrite Hlen, Htotal; reflexivity.
Qed.

Lemma response_time_is_the_rounded_mean_witness :
  endpoints_of (Some ["/health"; "/metrics"]) <> []
  /\ exists h : health_results,
      fst (_check_application_health http_get "web" half_up_app tt)
      = Returned h
      /\ response_time_ms h = 10.375%float.
Proof.
  split; [discriminate |].
  destruct (response_time_is_the_rounded_mean
              unit http_get "web" (Some "http://up:8000") None
              (Some ["/health"; "/metrics"]) tt ltac:(discriminate))
    as [h [w' [Hcheck [_ Hmean]]]].
  exists h; split; [unfold half_up_app; now rewrite Hcheck |].
  rewrite Hmean.
  vm_compute in Hcheck; injection Hcheck as <- _.
  reflexivity.
Defined.

End HealthBatteryExtras.

(** ** The thresholds in binary64 *)

Module Binary64Extras.

(** X24. For batteries of up to 512 units the three threshold decisions
    come out in IEEE 754 binary64, as Python evaluates them, exactly as
    with exact arithmetic: the success rate against 0.9, 0.7 and 0.5, the
    failed checks against half of the endpoints, and the unhealthy
    applications against 20% of the applications. *)
Theorem thresholds_are_exact_in_binary64 :
  forall k n : Z,
    0 <= k <= n ->
    n <= 512 ->
    (0 < n ->
     Binary64.status_of_counts k n
     = AIAppTester.status_of_rate (inject_Z k / inject_Z n))
    /\ Binary64.health_status k n = HealthMonitor.health_status k n
    /\ Binary64.snapshot_status k n = HealthMonitor.snapshot_status k n.
Proof. exact Binary64Facts.binary64_decisions_exact. Qed.

Lemma thresholds_are_exact_in_binary64_witness :
  0 <= 1 <= 5 /\ 5 <= 512
  /\ Binary64.snapshot_status 1 5 = "degraded"
  /\ Binary64.status_of_counts 9 10 = "excellent".
Proof.
  assert (Hk : 0 <= 1 <= 5) by lia.
  assert (Hn : 5 <= 512) by lia.
  split; [exact Hk |]; split; [exact Hn |].
  destruct (thresholds_are_exact_in_binary64 1 5 Hk Hn) as [_ [_ Hsnap]].
  split; [rewrite Hsnap; reflexivity | reflexivity].
Defined.

End Binary64Extras.

(** ** The HTTP probe and the Docker health check *)

Module HealthProbeFacts.

Import HealthMonitor HealthMonitorFacts HealthProbe DockerHealthCheck.

Lemma no_failed_iff_all : forall (A : Type) (f : A -> bool) (l : list A),
    len (filter (fun a => negb (f a)) l) = 0 <-> forallb f l = true.
Proof.
  intros A f; induction l as [| a l IH]; simpl.
  - split; reflexivity.
  - pose proof (len_nonneg _ (filter (fun a => negb (f a)) l)) as Hpos.
    destruct (f a); cbn [negb andb].
    + exact IH.
    + rewrite len_cons; split; [lia | discriminate].
Qed.

Section Session.

Variable world : Type.
Variable session_get : string -> world -> get_outcome * world.

(** A check succeeds exactly when its own request answered 200; the probe
    sends one request, to the concatenation of base URL and endpoint. *)
Lemma perform_health_check_outcome :
  forall (base_url endpoint : string) (w : world),
    success (fst (_perform_health_check session_get base_url endpoint w))
    = answered_200 (fst (session_get (base_url ++ endpoint)%string w))
    /\ snd (_perform_health_check session_get base_url endpoint w)
       = snd (session_get (base_url ++ endpoint)%string w).
Proof.
  intros base_url endpoint w; unfold _perform_health_check.
  destruct (session_get (base_url ++ endpoint)%string w) as [[st t | | e t] w'];
    split; reflexivity.
Qed.

(** The failed checks of an application are the requests that did not
    answer 200. *)
Lemma failed_checks_are_failed_requests :
  forall (base_url : string) (endpoints : list string) (w : world),
    failed (fst (perform_all (_perform_health_check session_get)
                   base_url endpoints w))
    = len (filter (fun o => negb (answered_200 o))
                  (fst (get_all session_get
                          (map (fun e => (base_url ++ e)%string) endpoints)
                          w)))
    /\ snd (perform_all (_perform_health_check session_get)
              base_url endpoints w)
       = snd (get_all session_get
                (map (fun e => (base_url ++ e)%string) endpoints) w).
Proof.
  intros base_url; induction endpoints as [| endpoint rest IH]; intros w.
  - split; reflexivity.
  - cbn [perform_all map get_all].
    destruct (perform_health_check_outcome base_url endpoint w)
      as [Hsuccess Hworld].
    destruct (_perform_health_check session_get base_url endpoint w)
      as [r w1].
    destruct (session_get (base_url ++ endpoint)%string w) as [o w1'].
    cbn [fst snd] in Hsuccess, Hworld; subst w1'.
    destruct (IH w1) as [IHfailed IHworld].
    destruct (perform_all (_perform_health_check session_get)
                base_url rest w1) as [rs w2].
    destruct (get_all session_get
                (map (fun e => (base_url ++ e)%string) rest) w1) as [os w2'].
    cbn [fst snd] in *; subst w2'.
    split; [| reflexivity].
    rewrite failed_cons, IHfailed, Hsuccess; cbn [filter].
    destruct (answered_200 o); cbn [negb]; [| rewrite len_cons]; lia.
Qed.

End Session.

(** X7. Every check result of the HTTP probe has [success] exactly when
    its [status_code] is 200, carries the endpoint it was asked for, and a
    timeout is recorded as 10000 ms with status code 0. *)
Theorem check_succeeds_exactly_on_200 :
  forall (world : Type)
         (session_get : string -> world -> get_outcome * world)
         (base_url endpoint_name : string) (w : world),
    let r := fst (_perform_health_check session_get base_url endpoint_name w)
    in
    endpoint r = endpoint_name
    /\ (success r = true <-> status_code r = 200)
    /\ (success r = true -> message r = "OK")
    /\ (fst (session_get (base_url ++ endpoint_name)%string w) = TimeoutError ->
        success r = false /\ status_code r = 0
        /\ check_response_time_ms r = 10000%float
        /\ message r = "Timeout").
Proof.
  intros world session_get base_url endpoint_name w r; subst r.
  unfold _perform_health_check.
  destruct (session_get (base_url ++ endpoint_name)%string w)
    as [[st t | | e t] w']; cbn [fst endpoint success status_code message
                                   check_response_time_ms].
  - split; [reflexivity |].
    split; [| split].
    + destruct (Z.eqb_spec st 200) as [E | NE]; split; intros H;
        try assumption; try reflexivity; try discriminate; contradiction.
    + intros H; rewrite H; reflexivity.
    + intros H; cbn [fst] in H; discriminate.
  - split; [reflexivity |].
    split; [split; intros H; discriminate |].
    split; [intros H; discriminate |].
    intros _; repeat split.
  - split; [reflexivity |].
    split; [split; intros H; discriminate |].
    split; [intros H; discriminate |].
    intros H; cbn [fst] in H; discriminate.
Qed.

Lemma check_succeeds_exactly_on_200_witness :
  fst ((fun (url : string) (w : unit) => (TimeoutError, w))
         ("http://slow:8000" ++ "/health")%string tt) = TimeoutError
  /\ status_code
       (fst (_perform_health_check
               (fun (url : string) (w : unit) => (TimeoutError, w))
               "http://slow:8000" "/health" tt)) = 0.
Proof.
  split; [reflexivity |].
  destruct (check_succeeds_exactly_on_200
              unit (fun (url : string) (w : unit) => (TimeoutError, w))
              "http://slow:8000" "/health" tt) as [_ [_ [_ Htimeout]]].
  destruct (Htimeout eq_refl) as [_ [Hcode _]]; exact Hcode.
Defined.

(** X8. With the HTTP probe, an application is "healthy" exactly when
    every one of its requests answered with status 200; the requests go,
    in order, to the configured base URL (or [http://localhost:<port>],
    port 8000 by default) followed by each endpoint. *)
Theorem healthy_iff_every_endpoint_answers_200 :
  forall (world : Type)
         (session_get : string -> world -> get_outcome * world)
         (app_name : string) (base_url port : option string)
         (health_endpoints : option (list string)) (w : world),
  exists h : health_results,
    _check_application_health (_perform_health_check session_get) app_name
      (ConfigDict base_url port health_endpoints) w
    = (Returned h,
       snd (get_all session_get
              (map (fun e => (base_url_of base_url port ++ e)%string)
                   (endpoints_of health_endpoints)) w))
    /\ (status h = "healthy"
        <-> forallb answered_200
              (fst (get_all session_get
                      (map (fun e => (base_url_of base_url port ++ e)%string)
                           (endpoints_of health_endpoints)) w)) = true).
Proof.
  intros world session_get app_name base_url port health_endpoints w.
  destruct (check_application_health_returns world
              (_perform_health_check session_get) app_name base_url port
              health_endpoints w) as [rt Hcheck].
  destruct (failed_checks_are_failed_requests world session_get
              (base_url_of base_url port) (endpoints_of health_endpoints) w)
    as [Hfailed Hworld].
  rewrite Hworld in Hcheck.
  eexists; split; [exact Hcheck |]; cbn [status].
  rewrite health_status_counts, Hfailed, <- no_failed_iff_all.
  destruct (Z.eqb_spec
              (len (filter (fun o => negb (answered_200 o))
                      (fst (get_all session_get
                              (map (fun e =>
                                      (base_url_of base_url port ++ e)%string)
                                   (endpoints_of health_endpoints)) w)))) 0)
    as [E | NE].
  - split; [intros _; exact E | reflexivity].
  - match goal with
    | |- context [if ?c then _ else _] => destruct c
    end; split; intros H; try discriminate; contradiction.
Qed.


End HealthProbeFacts.

(** ** Configuration loading and repository initialization *)

Module ConfigFacts.

Import AIAppsManager.

Lemma dict_get_set : forall (V : Type) (k k' : string) (v : V) (d : dict V),
    dict_get k (dict_set k' v d)
    = if String.eqb k k' then Some v else dict_get k d.
Proof.
  intros V k k' v; induction d as [| [k0 v0] d IH]; simpl.
  - reflexivity.
  - destruct (String.eqb_spec k' k0) as [-> | Hne]; simpl.
    + destruct (String.eqb k k0); reflexivity.
    + rewrite IH.
      destruct (String.eqb_spec k k0) as [-> | Hne'];
        destruct (String.eqb_spec k0 k') as [E | _];
        try reflexivity; congruence.
Qed.

Lemma dict_has_In : forall (V : Type) (k : string) (d : dict V),
    dict_has k d = true <-> In k (keys d).
Proof.
  intros V k; unfold dict_has; induction d as [| [k0 v0] d IH]; simpl.
  - split; [discriminate | contradiction].
  - destruct (String.eqb_spec k k0) as [-> | Hne].
    + split; auto.
    + rewrite IH; split; [auto | intros [E | H]; [congruence | exact H]].
Qed.

Lemma keys_dict_set : forall (V : Type) (k : string) (v : V) (d : dict V),
    keys (dict_set k v d)
    = if dict_has k d then keys d else keys d ++ [k].
Proof.
  intros V k v; unfold dict_has; induction d as [| [k0 v0] d IH]; simpl.
  - reflexivity.
  - destruct (String.eqb_spec k k0) as [-> | Hne]; simpl.
    + reflexivity.
    + rewrite IH; destruct (dict_get k d); reflexivity.
Qed.

(** Looking up a key after [update]: the other dictionary's value, if it
    has one, and the old value otherwise. *)
Lemma dict_get_update :
  forall (V : Type) (other d : dict V) (k : string),
    NoDup (keys other) ->
    dict_get k (dict_update d other)
    = match dict_get k other with
      | Some v => Some v
      | None => dict_get k d
      end.
Proof.
  intros V; unfold dict_update.
  induction other as [| [k1 v1] other IH]; intros d k Hnd; simpl.
  - reflexivity.
  - cbn [keys map fst] in Hnd; inversion Hnd as [| x l Hfresh Hrest]; subst.
    rewrite (IH _ _ Hrest), dict_get_set.
    destruct (String.eqb_spec k k1) as [-> | Hne].
    + now rewrite (dict_get_not_in _ k1 other Hfresh).
    + reflexivity.
Qed.

(** The keys after [update]: the old keys in their order, then the new
    ones in the order of the other dictionary. *)
Lemma keys_update :
  forall (V : Type) (other d : dict V),
    NoDup (keys other) ->
    keys (dict_update d other)
    = keys d ++ filter (fun k => negb (dict_has k d)) (keys other).
Proof.
  intros V; unfold dict_update.
  induction other as [| [k1 v1] other IH]; intros d Hnd; simpl.
  - now rewrite app_nil_r.
  - cbn [keys map fst] in Hnd; inversion Hnd as [| x l Hfresh Hrest]; subst.
    rewrite (IH _ Hrest), keys_dict_set.
    assert (Hsame :
              filter (fun k => negb (dict_has k (dict_set k1 v1 d)))
                     (keys other)
              = filter (fun k => negb (dict_has k d)) (keys other)).
    { apply filter_ext_in; intros k Hin.
      unfold dict_has; rewrite dict_get_set.
      destruct (String.eqb_spec k k1) as [-> | _];
        [contradiction | reflexivity]. }
    rewrite Hsame.
    destruct (dict_has k1 d); cbn [negb].
    + reflexivity.
    + now rewrite <- app_assoc.
Qed.

(** X10. A configuration file overrides the defaults key by key at the top
    level only: the loaded configuration maps a key of the file to the
    file's value, whole, and every other key to its default; the default
    keys keep their order and the new keys follow.  The file itself is
    not rewritten. *)
Theorem user_configuration_overrides_top_level_keys :
  forall user_config : dict yaml,
    NoDup (keys user_config) ->
    exists cfg : dict yaml,
      _load_configuration (Some (Mapping user_config)) = (Returned cfg, None)
      /\ (forall k : string,
             dict_get k cfg
             = match dict_get k user_config with
               | Some v => Some v
               | None => dict_get k default_config
               end)
      /\ keys cfg
         = ["version"; "environments"; "frameworks"; "quality_gates";
            "monitoring"]
           ++ filter (fun k => negb (dict_has k default_config))
                     (keys user_config).
Proof.
  intros user_config Hnd.
  exists (dict_update default_config user_config).
  split; [reflexivity |]; split.
  - intros k; now apply dict_get_update.
  - now rewrite keys_update.
Qed.

Lemma user_configuration_overrides_top_level_keys_witness :
  NoDup (keys [("monitoring", YMap [("health_check_interval", YInt 60)]);
               ("owner", YStr "platform")])
  /\ exists cfg : dict yaml,
      fst (_load_configuration
             (Some (Mapping
                      [("monitoring",
                        YMap [("health_check_interval", YInt 60)]);
                       ("owner", YStr "platform")]))) = Returned cfg
      /\ dict_get "monitoring" cfg
         = Some (YMap [("health_check_interval", YInt 60)])
      /\ dict_get "version" cfg = Some (YStr "1.0.0").
Proof.
  assert (Hnd : NoDup (keys [("monitoring",
                              YMap [("health_check_interval", YInt 60)]);
                             ("owner", YStr "platform")]))
    by (cbn; distinct_names).
  split; [exact Hnd |].
  destruct (user_configuration_overrides_top_level_keys _ Hnd)
    as [cfg [Hload [Hget _]]].
  exists cfg; split; [now rewrite Hload |].
  split; rewrite Hget; reflexivity.
Defined.

Section Steps.

Variable world : Type.

(** Steps that complete can be run first, the others afterwards. *)
Lemma run_steps_app :
  forall (before after : list (string * step world))
         (log log1 : list log_record) (w w1 : world),
    run_steps before log w = (Returned tt, log1, w1) ->
    run_steps (before ++ after) log w = run_steps after log1 w1.
Proof.
  induction before as [| [step_name step_func] before IH];
    intros after log log1 w w1 Hrun.
  - simpl in Hrun; injection Hrun as <- <-; reflexivity.
  - cbn [app run_steps] in *.
    destruct (step_func w) as [[[] | e] w'].
    + now apply IH.
    + discriminate.
Qed.

(** The log of steps that all complete. *)
Lemma run_steps_log :
  forall (steps : list (string * step world))
         (log log1 : list log_record) (w w1 : world),
    run_steps steps log w = (Returned tt, log1, w1) ->
    log1
    = log ++ flat_map
               (fun item =>
                  [("INFO", ("📋 " ++ fst item ++ "...")%string);
                   ("INFO", ("✅ " ++ fst item ++ " completed")%string)])
               steps.
Proof.
  induction steps as [| [step_name step_func] steps IH];
    intros log log1 w w1 Hrun.
  - simpl in Hrun; injection Hrun as <- <-; now rewrite app_nil_r.
  - cbn [run_steps] in Hrun.
    destruct (step_func w) as [[[] | e] w']; [| discriminate].
    rewrite (IH _ _ _ _ Hrun); cbn [flat_map fst app].
    now rewrite <- !app_assoc.
Qed.

End Steps.

(** X12. Initialization stops at the first step that fails: when the steps
    before it complete and it raises, the same exception is raised again,
    the log ends with the step's start record and its error record, and no
    later step is started, so the repository is left as the failing step
    left it. *)
Theorem initialization_stops_at_first_failure :
  forall (world : Type) (before after : list (string * step world))
         (step_name : string) (step_func : step world)
         (log log1 : list log_record) (w w1 w2 : world) (e : string),
    run_steps before log w = (Returned tt, log1, w1) ->
    step_func w1 = (Raised e, w2) ->
    run_steps (before ++ (step_name, step_func) :: after) log w
    = (Raised e,
       log ++ flat_map
                (fun item =>
                   [("INFO", ("📋 " ++ fst item ++ "...")%string);
                    ("INFO", ("✅ " ++ fst item ++ " completed")%string)])
                before
           ++ [("INFO", ("📋 " ++ step_name ++ "...")%string);
               ("ERROR", ("❌ " ++ step_name ++ " failed: " ++ e)%string)],
       w2).
Proof.
  intros world before after step_name step_func log log1 w w1 w2 e
         Hbefore Hfails.
  rewrite (run_steps_app world before _ log log1 w w1 Hbefore).
  cbn [run_steps]; rewrite Hfails.
  rewrite (run_steps_log world before log log1 w w1 Hbefore).
  now rewrite <- !app_assoc.
Qed.

Lemma initialization_stops_at_first_failure_witness :
  run_steps [] [("INFO", "🚀 Initializing AI Apps Repository Enhancement...")]
            0%nat
  = (Returned tt,
     [("INFO", "🚀 Initializing AI Apps Repository Enhancement...")], 0%nat)
  /\ (fun n : nat => (@Raised unit "[Errno 13] Permission denied", n)) 0%nat
     = (Raised "[Errno 13] Permission denied", 0%nat)
  /\ initialize_repository
       (fun n : nat => (@Raised unit "[Errno 13] Permission denied", n))
       (fun n : nat => (Returned tt, S n)) 0%nat
     = (Raised "[Errno 13] Permission denied",
        [("INFO", "🚀 Initializing AI Apps Repository Enhancement...");
         ("INFO", "📋 Creating directory structure...");
         ("ERROR",
          "❌ Creating directory structure failed: [Errno 13] Permission denied")],
        0%nat).
Proof.
  split; [reflexivity |]; split; [reflexivity |].
  unfold initialize_repository.
  exact (initialization_stops_at_first_failure
           nat [] [("Discovering applications",
                    fun n : nat => (Returned tt, S n))]
           "Creating directory structure"
           (fun n : nat => (@Raised unit "[Errno 13] Permission denied", n))
           [("INFO", "🚀 Initializing AI Apps Repository Enhancement...")]
           [("INFO", "🚀 Initializing AI Apps Repository Enhancement...")]
           0%nat 0%nat 0%nat "[Errno 13] Permission denied"
           eq_refl eq_refl).
Defined.

End ConfigFacts.

(** ** Text operations *)

Module TextFacts.

Import Text.

Lemma eqb_eq : forall a b : text, Text.eqb a b = true <-> a = b.
Proof.
  intros a b; unfold Text.eqb.
  destruct (list_eq_dec N.eq_dec a b); split; congruence.
Qed.

Lemma eqb_refl : forall a : text, Text.eqb a a = true.
Proof. intros a; now apply eqb_eq. Qed.

Lemma eqb_neq : forall a b : text, Text.eqb a b = false <-> a <> b.
Proof.
  intros a b; unfold Text.eqb.
  destruct (list_eq_dec N.eq_dec a b); split; congruence.
Qed.

(** *** Prefixes and occurrences *)

Lemma startswith_spec : forall prefix s : text,
    startswith prefix s = true <-> exists rest, s = prefix ++ rest.
Proof.
  induction prefix as [| a prefix IH]; intros s; simpl.
  - split; [intros _; now exists s | reflexivity].
  - destruct s as [| b s].
    + split; [discriminate | intros [rest H]; discriminate].
    + rewrite andb_true_iff, N.eqb_eq, IH; split.
      * intros [-> [rest ->]]; now exists rest.
      * intros [rest H]; injection H as -> ->; split; [reflexivity |].
        now exists rest.
Qed.

Lemma startswith_app : forall prefix s t : text,
    startswith prefix s = true -> startswith prefix (s ++ t) = true.
Proof.
  intros prefix s t H; apply startswith_spec in H as [rest ->].
  apply startswith_spec; exists (rest ++ t); now rewrite app_assoc.
Qed.

Lemma startswith_skipn : forall prefix s : text,
    startswith prefix s = true ->
    s = prefix ++ skipn (List.length prefix) s.
Proof.
  intros prefix s H; apply startswith_spec in H as [rest ->].
  now rewrite skipn_app, skipn_all, Nat.sub_diag.
Qed.

Lemma contains_spec : forall needle s : text,
    contains needle s = true
    <-> exists before after, s = before ++ needle ++ after.
Proof.
  intros needle; induction s as [| c s IH]; simpl.
  - rewrite orb_false_r, startswith_spec; split.
    + intros [rest H]; now exists [], rest.
    + intros [before [after H]].
      destruct before; [now exists after | discriminate].
  - rewrite orb_true_iff, startswith_spec, IH; split.
    + intros [[rest H] | [before [after H]]].
      * now exists [], rest.
      * exists (c :: before), after; now rewrite H.
    + intros [[| b before] [after H]].
      * left; now exists after.
      * right; injection H as -> ->; now exists before, after.
Qed.

(** An occurrence inside an occurrence is an occurrence. *)
Lemma contains_trans : forall a b s : text,
    contains a b = true -> contains b s = true -> contains a s = true.
Proof.
  intros a b s Hab Hbs.
  apply contains_spec in Hab as [p1 [q1 ->]].
  apply contains_spec in Hbs as [p2 [q2 ->]].
  apply contains_spec; exists (p2 ++ p1), (q1 ++ q2).
  now rewrite <- !app_assoc.
Qed.

(** A part of a text has no occurrence that the text does not have. *)
Lemma contains_part : forall needle before s after : text,
    contains needle s = true ->
    contains needle (before ++ s ++ after) = true.
Proof.
  intros needle before s after H.
  apply contains_spec in H as [p [q ->]].
  apply contains_spec; exists (before ++ p), (q ++ after).
  now rewrite <- !app_assoc.
Qed.

Lemma contains_lacks : forall (c : N) (needle s : text),
    forallb (fun d => negb (d =? c)%N) s = true ->
    contains (c :: needle) s = false.
Proof.
  intros c needle; induction s as [| d s IH]; simpl; intros H.
  - reflexivity.
  - apply andb_prop in H as [Hd Hs].
    rewrite (IH Hs), orb_false_r.
    destruct (N.eqb_spec c d) as [-> | _]; [| reflexivity].
    now rewrite N.eqb_refl in Hd.
Qed.

(** *** [partition] *)

Lemma partition_spec : forall sep s before after : text,
    partition sep s = Some (before, after) ->
    s = before ++ sep ++ after.
Proof.
  intros sep; induction s as [| c s IH]; intros before after; simpl.
  - destruct (startswith sep []) eqn:Hs; [| discriminate].
    intros H; injection H as <- <-.
    now apply startswith_skipn in Hs.
  - destruct (startswith sep (c :: s)) eqn:Hs.
    + intros H; injection H as <- <-.
      now apply startswith_skipn in Hs.
    + destruct (partition sep s) as [[b a] |]; [| discriminate].
      intros H; injection H as <- <-.
      now rewrite (IH b a eq_refl).
Qed.

Lemma contains_partition : forall sep s : text,
    contains sep s = true ->
    exists before after, partition sep s = Some (before, after).
Proof.
  intros sep; induction s as [| c s IH]; simpl; intros H.
  - rewrite orb_false_r in H; rewrite H; eauto.
  - destruct (startswith sep (c :: s)); [eauto |].
    destruct (IH H) as [b [a ->]]; eauto.
Qed.

Lemma partition_contains : forall sep s before after : text,
    partition sep s = Some (before, after) -> contains sep s = true.
Proof.
  intros sep s before after H; apply partition_spec in H.
  apply contains_spec; eauto.
Qed.

(** The text before the first occurrence of a separator holds none. *)
Lemma partition_before : forall sep s before after : text,
    sep <> [] ->
    partition sep s = Some (before, after) ->
    contains sep before = false.
Proof.
  intros sep s before after Hsep; revert before after.
  induction s as [| c s IH]; intros before after; simpl.
  - destruct (startswith sep []) eqn:Hs; [| discriminate].
    intros H; injection H as <- <-.
    destruct sep; [congruence | reflexivity].
  - destruct (startswith sep (c :: s)) eqn:Hs.
    + intros H; injection H as <- <-.
      destruct sep; [congruence | reflexivity].
    + destruct (partition sep s) as [[b a] |] eqn:Hp; [| discriminate].
      intros H; injection H as <- <-.
      cbn [contains]; rewrite (IH b a eq_refl), orb_false_r.
      destruct (startswith sep (c :: b)) eqn:Hb; [| reflexivity].
      apply partition_spec in Hp; subst s.
      apply (startswith_app _ _ (sep ++ a)) in Hb.
      cbn [app] in Hb; congruence.
Qed.

(** Splitting at a separator that follows a text without its first
    character. *)
Lemma partition_after_lacking : forall (c : N) (sep before after : text),
    forallb (fun d => negb (d =? c)%N) before = true ->
    partition (c :: sep) (before ++ (c :: sep) ++ after)
    = Some (before, after).
Proof.
  intros c sep; induction before as [| d before IH]; intros after Hlacks.
  - cbn [app].
    assert (Hs : startswith (c :: sep) ((c :: sep) ++ after) = true)
      by (apply startswith_spec; eauto).
    cbn [app] in Hs.
    destruct after as [| x after]; cbn [partition]; rewrite Hs;
      f_equal; f_equal;
      change (c :: (sep ++ ?t)) with ((c :: sep) ++ t);
      now rewrite skipn_app, skipn_all, Nat.sub_diag.
  - cbn [forallb] in Hlacks; apply andb_prop in Hlacks as [Hd Hrest].
    cbn [app partition startswith].
    destruct (N.eqb_spec c d) as [-> | _];
      [now rewrite N.eqb_refl in Hd |].
    cbn [andb].
    pose proof (IH after Hrest) as Hrec; cbn [app] in Hrec.
    now rewrite Hrec.
Qed.

End TextFacts.

(** ** Stripping and splitting into lines *)

Module StripFacts.

Import Text Requirements TextFacts.

Lemma linebreak_is_space : forall c : N,
    is_linebreak c = true -> is_space c = true.
Proof.
  intros c; unfold is_linebreak, is_space.
  rewrite !orb_true_iff, !andb_true_iff, !N.leb_le, !N.eqb_eq; lia.
Qed.

Lemma plain_one_line : forall s : text, plain s = true -> one_line s = true.
Proof.
  intros s; unfold plain, one_line; rewrite !forallb_forall.
  intros H c Hin; specialize (H c Hin).
  destruct (is_linebreak c) eqn:E; [| reflexivity].
  now rewrite (linebreak_is_space c E) in H.
Qed.

Lemma plain_app : forall a b : text,
    plain (a ++ b) = plain a && plain b.
Proof. intros; unfold plain; apply forallb_app. Qed.

Lemma plain_rev : forall s : text, plain s = true -> plain (rev s) = true.
Proof.
  intros s; unfold plain; rewrite !forallb_forall.
  intros H c Hin; apply H; now apply in_rev.
Qed.

(** *** [lstrip], [rstrip], [strip] *)

Lemma lstrip_shape : forall s : text,
    lstrip s = []
    \/ exists c t, lstrip s = c :: t /\ is_space c = false.
Proof.
  induction s as [| c s IH]; simpl.
  - now left.
  - destruct (is_space c) eqn:E; [exact IH |].
    right; now exists c, s.
Qed.

Lemma lstrip_head : forall (c : N) (s : text),
    is_space c = false -> lstrip (c :: s) = c :: s.
Proof. intros c s H; simpl; now rewrite H. Qed.

Lemma lstrip_idem : forall s : text, lstrip (lstrip s) = lstrip s.
Proof.
  intros s; destruct (lstrip_shape s) as [-> | [c [t [-> H]]]].
  - reflexivity.
  - now apply lstrip_head.
Qed.

Lemma lstrip_suffix : forall s : text, exists before, s = before ++ lstrip s.
Proof.
  induction s as [| c s [before IH]]; simpl.
  - now exists [].
  - destruct (is_space c).
    + exists (c :: before); simpl; now rewrite <- IH.
    + now exists [].
Qed.

Lemma lstrip_app_head : forall (c : N) (u v : text),
    is_space c = false -> lstrip (u ++ c :: v) = lstrip u ++ c :: v.
Proof.
  intros c u v H; induction u as [| d u IH]; simpl.
  - now rewrite H.
  - destruct (is_space d); [exact IH | reflexivity].
Qed.

Lemma rstrip_head : forall (c : N) (s : text),
    is_space c = false -> rstrip (c :: s) = c :: rstrip s.
Proof.
  intros c s H; unfold rstrip; simpl.
  rewrite (lstrip_app_head c (rev s) [] H), rev_app_distr; reflexivity.
Qed.

Lemma rstrip_prefix : forall s : text, exists after, s = rstrip s ++ after.
Proof.
  intros s; unfold rstrip.
  destruct (lstrip_suffix (rev s)) as [before H].
  exists (rev before).
  rewrite <- rev_app_distr, <- H; now rewrite rev_involutive.
Qed.

Lemma rstrip_idem : forall s : text, rstrip (rstrip s) = rstrip s.
Proof.
  intros s; unfold rstrip; now rewrite rev_involutive, lstrip_idem.
Qed.

(** Stripping twice is stripping once. *)
Lemma strip_idem : forall s : text, strip (strip s) = strip s.
Proof.
  intros s; unfold strip.
  assert (H : lstrip (rstrip (lstrip s)) = rstrip (lstrip s)).
  { destruct (lstrip_shape s) as [-> | [c [t [-> Hc]]]].
    - reflexivity.
    - rewrite (rstrip_head c t Hc); now apply lstrip_head. }
  now rewrite H, rstrip_idem.
Qed.

(** The stripped text is a part of the text. *)
Lemma strip_part : forall s : text,
    exists before after, s = before ++ strip s ++ after.
Proof.
  intros s; unfold strip.
  destruct (lstrip_suffix s) as [before Hb].
  destruct (rstrip_prefix (lstrip s)) as [after Ha].
  exists before, after; now rewrite <- Ha.
Qed.

Lemma lstrip_plain : forall s : text, plain s = true -> lstrip s = s.
Proof.
  intros [| c s]; simpl; [reflexivity |].
  intros H; apply andb_prop in H as [Hc _].
  destruct (is_space c); [discriminate | reflexivity].
Qed.

(** Text without white space is left as it is. *)
Lemma strip_plain : forall s : text, plain s = true -> strip s = s.
Proof.
  intros s H; unfold strip, rstrip.
  rewrite (lstrip_plain s H), (lstrip_plain (rev s) (plain_rev s H)).
  apply rev_involutive.
Qed.

(** A comment stays a comment when stripped. *)
Lemma strip_comment : forall words : text,
    exists rest, strip (lit "#" ++ words) = lit "#" ++ rest.
Proof.
  intros words; unfold strip.
  change (lit "#" ++ words) with (35%N :: words).
  rewrite (lstrip_head 35%N words eq_refl), (rstrip_head 35%N words eq_refl).
  now exists (rstrip words).
Qed.

(** *** [splitlines] *)

Lemma splitlines_from_one_line : forall (l line rest : text),
    one_line l = true ->
    splitlines_from line (l ++ rest) = splitlines_from (rev l ++ line) rest.
Proof.
  induction l as [| c l IH]; intros line rest H; simpl.
  - reflexivity.
  - cbn [one_line forallb] in H; apply andb_prop in H as [Hc Hl].
    destruct (is_linebreak c); [discriminate |].
    rewrite (IH (c :: line) rest Hl), <- app_assoc; reflexivity.
Qed.

(** Joining lines with newlines and splitting again gives the lines back,
    when no line is empty or holds a line boundary. *)
Lemma splitlines_join : forall lines : list text,
    Forall (fun l => l <> [] /\ one_line l = true) lines ->
    splitlines (join newline lines) = lines.
Proof.
  unfold splitlines.
  induction lines as [| l lines IH]; intros Hall.
  - reflexivity.
  - inversion Hall as [| x xs [Hne Hone] Hrest]; subst.
    destruct lines as [| l2 lines].
    + cbn [join].
      rewrite <- (app_nil_r l) at 1.
      rewrite (splitlines_from_one_line l [] [] Hone), app_nil_r.
      cbn [splitlines_from].
      destruct (rev l) eqn:E.
      * apply (f_equal (@rev N)) in E; rewrite rev_involutive in E.
        now subst l.
      * now rewrite <- E, rev_involutive.
    + change (join newline (l :: l2 :: lines))
        with (l ++ newline ++ join newline (l2 :: lines)).
      specialize (IH Hrest).
      set (J := join newline (l2 :: lines)) in *.
      rewrite (splitlines_from_one_line l [] _ Hone), app_nil_r.
      unfold newline; cbn [app splitlines_from].
      replace (is_linebreak 10) with true by reflexivity.
      rewrite rev_involutive.
      destruct J; cbn [N.eqb andb]; now rewrite IH.
Qed.

End StripFacts.

(** ** [AIAppsManager._parse_requirements] *)

Module ParseFacts.

Import Text Requirements TextFacts StripFacts AIAppsManager ManagerNotions.

(** *** Dictionaries with text keys *)

Lemma tdict_set_in : forall (V : Type) (k : text) (v : V) (d : tdict V)
                            (item : text * V),
    In item (tdict_set k v d) -> item = (k, v) \/ In item d.
Proof.
  intros V k v; induction d as [| [k0 v0] d IH]; simpl; intros item Hin.
  - destruct Hin as [<- | []]; now left.
  - destruct (Text.eqb k k0); simpl in Hin.
    + destruct Hin as [<- | Hin]; [now left | right; now right].
    + destruct Hin as [<- | Hin]; [right; now left |].
      destruct (IH item Hin) as [-> | H]; [now left | right; now right].
Qed.

Lemma tdict_set_keys : forall (V : Type) (k : text) (v : V) (d : tdict V),
    map fst (tdict_set k v d)
    = if existsb (Text.eqb k) (map fst d) then map fst d
      else map fst d ++ [k].
Proof.
  intros V k v; induction d as [| [k0 v0] d IH]; simpl.
  - reflexivity.
  - destruct (Text.eqb k k0) eqn:E; simpl.
    + apply eqb_eq in E; now subst.
    + rewrite IH; destruct (existsb (Text.eqb k) (map fst d)); reflexivity.
Qed.

Lemma tdict_set_nodup : forall (V : Type) (k : text) (v : V) (d : tdict V),
    NoDup (map fst d) -> NoDup (map fst (tdict_set k v d)).
Proof.
  intros V k v d Hnd; rewrite tdict_set_keys.
  destruct (existsb (Text.eqb k) (map fst d)) eqn:E; [exact Hnd |].
  apply NoDup_app; [exact Hnd | constructor; [intros [] | constructor] |].
  intros x Hx [E' | []]; subst x.
  assert (Hex : existsb (Text.eqb k) (map fst d) = true)
    by (apply existsb_exists; exists k; split; [exact Hx | apply eqb_refl]).
  congruence.
Qed.

Lemma tdict_set_length : forall (V : Type) (k : text) (v : V) (d : tdict V),
    (List.length (tdict_set k v d) <= S (List.length d))%nat.
Proof.
  intros V k v; induction d as [| [k0 v0] d IH]; simpl.
  - lia.
  - destruct (Text.eqb k k0); simpl; lia.
Qed.

Lemma tdict_set_fresh : forall (V : Type) (k : text) (v : V) (d : tdict V),
    ~ In k (map fst d) -> tdict_set k v d = d ++ [(k, v)].
Proof.
  intros V k v; induction d as [| [k0 v0] d IH]; simpl; intros Hfresh.
  - reflexivity.
  - destruct (Text.eqb k k0) eqn:E.
    + apply eqb_eq in E; subst; exfalso; apply Hfresh; now left.
    + rewrite IH; [reflexivity | intros H; apply Hfresh; now right].
Qed.

(** *** One line *)

Lemma contains_strip : forall needle s : text,
    contains needle (strip s) = true -> contains needle s = true.
Proof.
  intros needle s H.
  destruct (strip_part s) as [before [after Hs]].
  rewrite Hs; now apply contains_part.
Qed.

Lemma lit_eq_not_nil : lit "==" <> [] /\ lit ">=" <> [].
Proof. split; discriminate. Qed.

(** A line leaves the dictionary as it is or assigns one key, which is
    stripped and holds no ["=="]. *)
Lemma parse_line_cases : forall (deps : tdict text) (line : text),
    parse_line deps line = Returned deps
    \/ exists name spec,
        parse_line deps line = Returned (tdict_set name spec deps)
        /\ strip name = name
        /\ contains (lit "==") name = false.
Proof.
  intros deps line; unfold parse_line.
  set (l := strip line).
  destruct (negb (Text.eqb l []) && negb (startswith (lit "#") l));
    [| now left].
  right.
  destruct (contains (lit "==") l) eqn:Heq.
  - destruct (contains_partition _ _ Heq) as [before [after Hp]].
    unfold split1; rewrite Hp; cbn [unpack2].
    exists (strip before), (strip after).
    split; [reflexivity |]; split; [apply strip_idem |].
    destruct (contains (lit "==") (strip before)) eqn:E; [| reflexivity].
    apply contains_strip in E.
    now rewrite (partition_before _ _ _ _ (proj1 lit_eq_not_nil) Hp) in E.
  - destruct (contains (lit ">=") l) eqn:Hge.
    + destruct (contains_partition _ _ Hge) as [before [after Hp]].
      unfold split1; rewrite Hp; cbn [unpack2].
      exists (strip before), (lit ">=" ++ strip after).
      split; [reflexivity |]; split; [apply strip_idem |].
      destruct (contains (lit "==") (strip before)) eqn:E; [| reflexivity].
      apply contains_strip in E.
      apply partition_spec in Hp.
      apply (contains_part _ [] before (lit ">=" ++ after)) in E.
      cbn [app] in E, Hp; rewrite <- Hp in E; congruence.
    + exists l, (lit "unpinned").
      split; [reflexivity |]; split; [apply strip_idem | exact Heq].
Qed.

(** *** All lines *)

Lemma parse_lines_clean : forall (lines : list text) (deps : tdict text),
    clean deps ->
    exists deps',
      parse_lines deps lines = Returned deps'
      /\ clean deps'
      /\ (List.length deps' <= List.length deps + List.length lines)%nat.
Proof.
  induction lines as [| line lines IH]; intros deps Hclean.
  - exists deps; simpl; split; [reflexivity |]; split; [exact Hclean | lia].
  - cbn [parse_lines].
    destruct (parse_line_cases deps line)
      as [-> | [name [spec [-> [Hstrip Hnone]]]]].
    + destruct (IH deps Hclean) as [deps' [Hrun [Hc Hlen]]].
      exists deps'; split; [exact Hrun |]; split; [exact Hc |].
      simpl; lia.
    + assert (Hclean' : clean (tdict_set name spec deps)).
      { destruct Hclean as [Hnd Hkeys]; split.
        - now apply tdict_set_nodup.
        - intros n s Hin; apply tdict_set_in in Hin as [E | Hin].
          + injection E as -> ->; now split.
          + now apply (Hkeys n s). }
      destruct (IH _ Hclean') as [deps' [Hrun [Hc Hlen]]].
      exists deps'; split; [exact Hrun |]; split; [exact Hc |].
      pose proof (tdict_set_length _ name spec deps); simpl; lia.
Qed.

(** X13. Parsing a requirements file never fails, whatever the text: the
    unpacking of [split] never sees fewer than two parts.  The result has
    at most one entry per line, and every name in it is stripped of white
    space and holds no ["=="]. *)
Theorem parse_requirements_never_fails :
  forall requirements : text,
  exists deps : tdict text,
    _parse_requirements requirements = Returned deps
    /\ NoDup (map fst deps)
    /\ (List.length deps <= List.length (splitlines requirements))%nat
    /\ (forall name spec : text,
           In (name, spec) deps ->
           strip name = name /\ contains (lit "==") name = false).
Proof.
  intros requirements; unfold _parse_requirements.
  destruct (parse_lines_clean (splitlines requirements) [])
    as [deps [Hrun [[Hnd Hkeys] Hlen]]].
  - split; [constructor | intros name spec []].
  - exists deps; split; [exact Hrun |]; split; [exact Hnd |].
    split; [simpl in Hlen; exact Hlen | exact Hkeys].
Qed.

End ParseFacts.

(** ** Writing a requirements file and parsing it *)

Module RequirementsRoundTrip.

Import Text Requirements TextFacts StripFacts ParseFacts AIAppsManager
       TextExamples.

Lemma good_name_facts : forall name : text,
    good_name name = true ->
    name <> [] /\ plain name = true /\ lacks 61 name = true
    /\ lacks 62 name = true /\ startswith (lit "#") name = false.
Proof.
  intros name H; unfold good_name in H.
  apply andb_prop in H as [H Hhash].
  apply andb_prop in H as [H Hgt].
  apply andb_prop in H as [H Heq].
  apply andb_prop in H as [Hne Hplain].
  apply negb_true_iff in Hne, Hhash.
  apply eqb_neq in Hne.
  repeat split; assumption.
Qed.

Lemma not_comment_app : forall name rest : text,
    name <> [] ->
    startswith (lit "#") name = false ->
    startswith (lit "#") (name ++ rest) = false.
Proof.
  intros [| c name] rest Hne H; [congruence |].
  change (lit "#") with [35%N] in *; cbn [startswith app] in *.
  destruct (35 =? c)%N; cbn [andb] in *; [| reflexivity].
  destruct name; discriminate.
Qed.

Lemma not_empty_app : forall name rest : text,
    name <> [] -> Text.eqb (name ++ rest) [] = false.
Proof.
  intros [| c name] rest Hne; [congruence |].
  apply eqb_neq; discriminate.
Qed.

(** ["=="] does not occur in [name>=version] when neither part holds an
    [=]. *)
Lemma no_equals_in_at_least : forall name version : text,
    lacks 61 name = true ->
    lacks 61 version = true ->
    contains (lit "==") (name ++ lit ">=" ++ version) = false.
Proof.
  intros name; induction name as [| c name IH]; intros version Hn Hv.
  - change (lit "==") with [61%N; 61%N].
    change ([] ++ lit ">=" ++ version) with (62%N :: 61%N :: version).
    cbn [contains startswith].
    replace (61 =? 62)%N with false by reflexivity.
    replace (61 =? 61)%N with true by reflexivity.
    cbn [andb orb].
    rewrite (contains_lacks 61 [61%N] version Hv), orb_false_r.
    destruct version as [| d version]; [reflexivity |].
    cbn [lacks forallb] in Hv; apply andb_prop in Hv as [Hd _].
    destruct (N.eqb_spec 61 d) as [<- | _];
      [now rewrite N.eqb_refl in Hd | reflexivity].
  - cbn [lacks forallb] in Hn; apply andb_prop in Hn as [Hc Hn].
    cbn [app contains].
    rewrite (IH version Hn Hv), orb_false_r.
    change (lit "==") with [61%N; 61%N]; cbn [startswith].
    destruct (N.eqb_spec 61 c) as [<- | _];
      [now rewrite N.eqb_refl in Hc | reflexivity].
Qed.

(** A line written for a requirement is read back as that requirement. *)
Lemma parse_line_render : forall (deps : tdict text) (r : requirement),
    well_formed r = true ->
    parse_line deps (render r) = Returned (record deps r).
Proof.
  intros deps [name version | name version | name | words] Hwf;
    cbn [well_formed] in Hwf; unfold parse_line, record; cbn [render entry].
  - apply andb_prop in Hwf as [Hname Hversion].
    destruct (good_name_facts name Hname)
      as [Hne [Hplain [Heq [Hgt Hhash]]]].
    assert (Hline : plain (name ++ lit "==" ++ version) = true)
      by (rewrite !plain_app, Hplain, Hversion; reflexivity).
    rewrite (strip_plain _ Hline), (not_empty_app _ _ Hne),
      (not_comment_app _ _ Hne Hhash); cbn [negb andb].
    assert (Hin : contains (lit "==") (name ++ lit "==" ++ version) = true)
      by (apply contains_spec; eauto).
    rewrite Hin; unfold split1.
    change (lit "==") with (61%N :: [61%N]).
    rewrite (partition_after_lacking 61 [61%N] name version Heq).
    cbn [unpack2].
    now rewrite (strip_plain _ Hplain), (strip_plain _ Hversion).
  - apply andb_prop in Hwf as [Hwf Hveq].
    apply andb_prop in Hwf as [Hname Hversion].
    destruct (good_name_facts name Hname)
      as [Hne [Hplain [Heq [Hgt Hhash]]]].
    assert (Hline : plain (name ++ lit ">=" ++ version) = true)
      by (rewrite !plain_app, Hplain, Hversion; reflexivity).
    rewrite (strip_plain _ Hline), (not_empty_app _ _ Hne),
      (not_comment_app _ _ Hne Hhash); cbn [negb andb].
    rewrite (no_equals_in_at_least name version Heq Hveq).
    assert (Hin : contains (lit ">=") (name ++ lit ">=" ++ version) = true)
      by (apply contains_spec; eauto).
    rewrite Hin; unfold split1.
    change (lit ">=") with (62%N :: [61%N]).
    rewrite (partition_after_lacking 62 [61%N] name version Hgt).
    cbn [unpack2].
    now rewrite (strip_plain _ Hplain), (strip_plain _ Hversion).
  - destruct (good_name_facts name Hwf)
      as [Hne [Hplain [Heq [Hgt Hhash]]]].
    rewrite (strip_plain _ Hplain), Hhash.
    replace (Text.eqb name []) with false
      by (symmetry; now apply eqb_neq).
    cbn [negb andb].
    change (lit "==") with (61%N :: [61%N]).
    change (lit ">=") with (62%N :: [61%N]).
    now rewrite (contains_lacks 61 [61%N] name Heq),
      (contains_lacks 62 [61%N] name Hgt).
  - destruct (strip_comment words) as [rest ->].
    reflexivity.
Qed.

Lemma render_is_a_line : forall r : requirement,
    well_formed r = true ->
    render r <> [] /\ one_line (render r) = true.
Proof.
  intros [name version | name version | name | words] Hwf;
    cbn [well_formed] in Hwf; cbn [render].
  - apply andb_prop in Hwf as [Hname Hversion].
    destruct (good_name_facts name Hname) as [Hne [Hplain _]].
    split; [destruct name; [congruence | discriminate] |].
    apply plain_one_line; rewrite !plain_app, Hplain, Hversion; reflexivity.
  - apply andb_prop in Hwf as [Hwf _].
    apply andb_prop in Hwf as [Hname Hversion].
    destruct (good_name_facts name Hname) as [Hne [Hplain _]].
    split; [destruct name; [congruence | discriminate] |].
    apply plain_one_line; rewrite !plain_app, Hplain, Hversion; reflexivity.
  - destruct (good_name_facts name Hwf) as [Hne [Hplain _]].
    split; [exact Hne | now apply plain_one_line].
  - split; [discriminate | exact Hwf].
Qed.

Lemma parse_lines_render : forall (reqs : list requirement)
                                  (deps : tdict text),
    forallb well_formed reqs = true ->
    parse_lines deps (map render reqs) = Returned (fold_left record reqs deps).
Proof.
  induction reqs as [| r reqs IH]; intros deps Hall.
  - reflexivity.
  - cbn [forallb] in Hall; apply andb_prop in Hall as [Hr Hall].
    cbn [map parse_lines fold_left].
    rewrite (parse_line_render deps r Hr).
    now apply IH.
Qed.

(** X14. Round trip.  Take a requirements file written with one line per
    requirement: [name==version], [name>=version], a bare [name], or a
    comment, [#] followed by text within one line.  Let every name be not
    empty, hold no white space, no [=] and no [>], and not start with [#];
    let every version hold no white space, and the version of a lower
    bound no [=] either.  Then the file is parsed into exactly the
    dictionary these lines stand for: pinned versions as they are, lower
    bounds with their [>=], bare names as "unpinned", nothing for
    comments, a later line replacing an earlier one of the same name. *)
Theorem parse_requirements_reads_back_what_was_written :
  forall reqs : list requirement,
    forallb well_formed reqs = true ->
    _parse_requirements (render_file reqs) = Returned (entries reqs).
Proof.
  intros reqs Hall; unfold _parse_requirements, render_file, entries.
  rewrite splitlines_join.
  - now apply parse_lines_render.
  - apply Forall_forall; intros l Hin.
    apply in_map_iff in Hin as [r [<- Hr]].
    apply render_is_a_line.
    rewrite forallb_forall in Hall; now apply Hall.
Qed.

Lemma parse_requirements_reads_back_what_was_written_witness :
  forallb well_formed sample_reqs = true
  /\ _parse_requirements (render_file sample_reqs)
     = Returned [ (lit "openai", lit "1.2.0");
                  (lit "langchain-openai", lit ">=0.1");
                  (lit "requests", lit "unpinned") ].
Proof.
  split; [reflexivity |].
  rewrite (parse_requirements_reads_back_what_was_written
             sample_reqs eq_refl).
  reflexivity.
Defined.

End RequirementsRoundTrip.

(** ** Framework detection, analysis and discovery *)

Module AnalysisFacts.

Import Text TextFacts StripFacts ParseFacts AIAppsManager ManagerNotions
       TextExamples.

Section Lower.

Variable lower : text -> text.

(** The loop over the indicators keeps the frameworks with an indicator
    in the text, in the order of the table. *)
Lemma fold_detect : forall (low : text) (items : dict (list string))
                           (acc : list string),
    fold_left (detect low) items acc
    = acc ++ map fst
                 (filter (fun item =>
                            existsb (fun indicator =>
                                       contains (lit indicator) low)
                                    (snd item))
                         items).
Proof.
  intros low; induction items as [| [framework indicators] items IH];
    intros acc; cbn [fold_left filter snd].
  - now rewrite app_nil_r.
  - rewrite IH; unfold detect.
    destruct (existsb (fun indicator => contains (lit indicator) low)
                      indicators); cbn [map fst].
    + now rewrite <- app_assoc.
    + reflexivity.
Qed.

Lemma NoDup_map_filter : forall (A B : Type) (f : A -> B) (p : A -> bool)
                                (l : list A),
    NoDup (map f l) -> NoDup (map f (filter p l)).
Proof.
  intros A B f p; induction l as [| a l IH]; simpl; intros Hnd.
  - constructor.
  - inversion Hnd as [| x xs Hfresh Hrest]; subst.
    destruct (p a); [| now apply IH].
    simpl; constructor; [| now apply IH].
    intros Hin; apply Hfresh.
    apply in_map_iff in Hin as [b [Hb Hin]].
    apply filter_In in Hin as [Hin _].
    rewrite <- Hb; now apply in_map.
Qed.

(** A framework is detected exactly when one of its indicators occurs. *)
Lemma detected_iff : forall (requirements : text) (framework : string)
                            (indicators : list string),
    In (framework, indicators) framework_indicators ->
    (In framework (_detect_frameworks lower requirements)
     <-> existsb (fun indicator =>
                    contains (lit indicator) (lower requirements))
                 indicators = true).
Proof.
  intros requirements framework indicators Hin.
  unfold _detect_frameworks; rewrite fold_detect; cbn [app].
  rewrite in_map_iff; split.
  - intros [[f inds] [Hf Hfilter]]; cbn [fst] in Hf; subst f.
    apply filter_In in Hfilter as [Hitem Hex]; cbn [snd] in Hex.
    assert (inds = indicators); [| now subst].
    unfold framework_indicators in Hin, Hitem; cbn [In] in Hin, Hitem.
    repeat (destruct Hin as [Hin | Hin];
            [injection Hin as <- <-;
             repeat (destruct Hitem as [Hitem | Hitem];
                     [try discriminate Hitem;
                      injection Hitem as <-; reflexivity |]);
             contradiction |]);
      contradiction.
  - intros Hex; exists (framework, indicators); split; [reflexivity |].
    apply filter_In; now split.
Qed.

End Lower.

(** X15. Framework detection reports each framework at most once, in the
    order of its table.  "langchain" is reported exactly when the
    lower-cased text holds ["langchain"], and "pytorch" exactly when it
    holds ["torch"]: the longer indicators of these two frameworks never
    decide.  A text that holds ["langchain-openai"] is reported as both
    "openai" and "langchain". *)
Theorem framework_detection_by_substring :
  forall (lower : text -> text) (requirements : text),
    NoDup (_detect_frameworks lower requirements)
    /\ incl (_detect_frameworks lower requirements)
            ["openai"; "langchain"; "nebius"; "crewai"; "agno"; "llamaindex";
             "transformers"; "tensorflow"; "pytorch"]
    /\ (In "langchain" (_detect_frameworks lower requirements)
        <-> contains (lit "langchain") (lower requirements) = true)
    /\ (In "pytorch" (_detect_frameworks lower requirements)
        <-> contains (lit "torch") (lower requirements) = true)
    /\ (contains (lit "langchain-openai") (lower requirements) = true ->
        In "openai" (_detect_frameworks lower requirements)
        /\ In "langchain" (_detect_frameworks lower requirements)).
Proof.
  intros lower requirements.
  assert (Hlang :
            In "langchain" (_detect_frameworks lower requirements)
            <-> contains (lit "langchain") (lower requirements) = true).
  { rewrite (detected_iff lower requirements "langchain"
               ["langchain"; "langchain-community"; "langchain-openai"])
      by (cbn; tauto).
    cbn [existsb]; rewrite !orb_true_iff; split.
    - intros [H | [H | [H | H]]]; [exact H | | | discriminate];
        refine (contains_trans _ _ _ _ H); reflexivity.
    - intros H; now left. }
  assert (Hopenai :
            In "openai" (_detect_frameworks lower requirements)
            <-> contains (lit "openai") (lower requirements) = true).
  { rewrite (detected_iff lower requirements "openai" ["openai"])
      by (cbn; tauto).
    cbn [existsb]; now rewrite orb_false_r. }
  split; [| split; [| split; [exact Hlang | split]]].
  - unfold _detect_frameworks; rewrite fold_detect; cbn [app].
    apply NoDup_map_filter; cbn; distinct_names.
  - unfold _detect_frameworks; rewrite fold_detect; cbn [app].
    intros f Hin; apply in_map_iff in Hin as [item [<- Hitem]].
    apply filter_In in Hitem as [Hitem _].
    change ["openai"; "langchain"; "nebius"; "crewai"; "agno"; "llamaindex";
            "transformers"; "tensorflow"; "pytorch"]
      with (map fst framework_indicators).
    now apply in_map.
  - rewrite (detected_iff lower requirements "pytorch" ["torch"; "pytorch"])
      by (cbn; tauto).
    cbn [existsb]; rewrite !orb_true_iff; split.
    + intros [H | [H | H]]; [exact H | | discriminate].
      refine (contains_trans _ _ _ _ H); reflexivity.
    + intros H; now left.
  - intros H; split.
    + apply Hopenai; refine (contains_trans _ _ _ _ H); reflexivity.
    + apply Hlang; refine (contains_trans _ _ _ _ H); reflexivity.
Qed.

Lemma framework_detection_by_substring_witness :
  contains (lit "langchain-openai") (ascii_lower sample_requirements) = true
  /\ In "openai" (_detect_frameworks ascii_lower sample_requirements)
  /\ In "langchain" (_detect_frameworks ascii_lower sample_requirements).
Proof.
  split; [reflexivity |].
  destruct (framework_detection_by_substring ascii_lower sample_requirements)
    as [_ [_ [_ [_ Hboth]]]].
  apply Hboth; reflexivity.
Defined.

Lemma parse_requirements_returns : forall requirements : text,
    exists deps,
      _parse_requirements requirements = Returned deps /\ clean deps.
Proof.
  intros requirements; unfold _parse_requirements.
  destruct (parse_lines_clean (splitlines requirements) [])
    as [deps [Hrun [Hclean _]]].
  - split; [constructor | intros n s []].
  - now exists deps.
Qed.

Lemma count_lines_fold : forall (files : list (py_result text)) (total : Z),
    fold_left count_lines files total = total + readable_lines files.
Proof.
  induction files as [| [content | e] files IH]; intros total;
    cbn [fold_left count_lines readable_lines fold_right].
  - lia.
  - rewrite IH; fold (readable_lines files); lia.
  - rewrite IH; fold (readable_lines files); lia.
Qed.

Lemma readable_lines_filter : forall files : list (py_result text),
    readable_lines (filter is_readable files) = readable_lines files.
Proof.
  induction files as [| [content | e] files IH]; simpl.
  - reflexivity.
  - fold (readable_lines files);
      fold (readable_lines (filter is_readable files)); now rewrite IH.
  - exact IH.
Qed.

Lemma complexity_cases : forall total : Z,
    (complexity_of total = "simple" <-> total < 100)
    /\ (complexity_of total = "moderate" <-> 100 <= total < 500)
    /\ (complexity_of total = "complex" <-> 500 <= total).
Proof.
  intros total; unfold complexity_of.
  destruct (Z.ltb_spec total 100); [| destruct (Z.ltb_spec total 500)];
    repeat split; intros; try lia; try reflexivity; discriminate.
Qed.

Section Lower.

Variable lower : text -> text.

(** The analysis of a directory, according to its [requirements.txt]. *)
Lemma analyze_application_cases : forall d : app_dir,
    (exists e, requirements_txt d = Some (Raised e)
               /\ _analyze_application lower d = Raised e)
    \/ (requirements_readable d = true
        /\ exists deps detected,
            clean deps
            /\ _analyze_application lower d
               = Returned
                   {| name := dir_name d;
                      path := dir_path d;
                      frameworks := detected;
                      dependencies := deps;
                      estimated_complexity :=
                        complexity_of (readable_lines (python_files d));
                      has_tests := tests_exists d || test_exists d
                                   || testing_exists d;
                      has_docker := dockerfile_exists d;
                      health_endpoints := [];
                      security_issues := [] |}).
Proof.
  intros d; unfold _analyze_application, requirements_readable.
  rewrite count_lines_fold, Z.add_0_l.
  destruct (requirements_txt d) as [[requirements | e] |].
  - right; split; [reflexivity |].
    destruct (parse_requirements_returns requirements) as [deps [-> Hclean]].
    now exists deps, (_detect_frameworks lower requirements).
  - left; now exists e.
  - right; split; [reflexivity |].
    exists [], []; split; [| reflexivity].
    split; [constructor | intros n s []].
Qed.

End Lower.

(** X16. The analysis of an application fails exactly when its
    [requirements.txt] exists and cannot be read, with that error; Python
    files that cannot be read are passed over and change nothing.  The
    complexity is "simple" below 100 lines of readable Python, "moderate"
    from 100 to 499 and "complex" from 500 on, never "unknown"; the
    dependencies have distinct, stripped names. *)
Theorem analysis_of_an_application :
  forall (lower : text -> text) (d : app_dir),
    (forall e : string,
        _analyze_application lower d = Raised e
        <-> requirements_txt d = Some (Raised e))
    /\ _analyze_application lower d
       = _analyze_application lower
           (with_python_files d (filter is_readable (python_files d)))
    /\ (forall info : app_info,
           _analyze_application lower d = Returned info ->
           name info = dir_name d
           /\ clean (dependencies info)
           /\ (estimated_complexity info = "simple"
               <-> readable_lines (python_files d) < 100)
           /\ (estimated_complexity info = "moderate"
               <-> 100 <= readable_lines (python_files d) < 500)
           /\ (estimated_complexity info = "complex"
               <-> 500 <= readable_lines (python_files d))
           /\ estimated_complexity info <> "unknown").
Proof.
  intros lower d; split; [| split].
  - intros e.
    destruct (analyze_application_cases lower d)
      as [[e' [Hreq ->]] | [Hreadable [deps [detected [_ ->]]]]].
    + rewrite Hreq; split; congruence.
    + split; [discriminate |].
      intros Hreq; unfold requirements_readable in Hreadable.
      rewrite Hreq in Hreadable; discriminate.
  - unfold _analyze_application, with_python_files;
      cbn [requirements_txt python_files dir_name dir_path tests_exists
           test_exists testing_exists dockerfile_exists].
    now rewrite !count_lines_fold, readable_lines_filter.
  - intros info Hinfo.
    destruct (analyze_application_cases lower d)
      as [[e' [Hreq Hraised]] | [_ [deps [detected [Hclean Hreturned]]]]];
      [congruence |].
    rewrite Hreturned in Hinfo; injection Hinfo as <-.
    cbn [name dependencies estimated_complexity].
    destruct (complexity_cases (readable_lines (python_files d)))
      as [Hs [Hm Hc]].
    split; [reflexivity |]; split; [exact Hclean |].
    split; [exact Hs |]; split; [exact Hm |]; split; [exact Hc |].
    unfold complexity_of.
    destruct (readable_lines (python_files d) <? 100); [discriminate |].
    destruct (readable_lines (python_files d) <? 500); discriminate.
Qed.

Section Discovery.

Variable lower : text -> text.

Lemma analyze_all_harmless :
  forall (items : list dir_item) (acc : list app_info),
    forallb harmless items = true ->
    exists apps : list app_info,
      analyze_all lower items acc = Returned (acc ++ apps)
      /\ map name apps
         = map (fun item => dir_name (contents item))
               (filter is_application items).
Proof.
  induction items as [| item items IH]; intros acc Hall.
  - exists []; simpl; now rewrite app_nil_r.
  - cbn [forallb] in Hall; apply andb_prop in Hall as [Hitem Hall].
    cbn [analyze_all filter].
    unfold harmless in Hitem.
    destruct (is_application item) eqn:Happ; cbn [negb orb] in Hitem.
    + destruct (analyze_application_cases lower (contents item))
        as [[e [Hreq _]] | [_ [deps [detected [_ ->]]]]].
      * unfold requirements_readable in Hitem; rewrite Hreq in Hitem.
        discriminate.
      * destruct (IH (acc ++ [ {| name := dir_name (contents item);
                                  path := dir_path (contents item);
                                  frameworks := detected;
                                  dependencies := deps;
                                  estimated_complexity :=
                                    complexity_of
                                      (readable_lines
                                         (python_files (contents item)));
                                  has_tests :=
                                    tests_exists (contents item)
                                    || test_exists (contents item)
                                    || testing_exists (contents item);
                                  has_docker :=
                                    dockerfile_exists (contents item);
                                  health_endpoints := [];
                                  security_issues := [] |} ]) Hall)
          as [apps [Hrun Hnames]].
        eexists (_ :: apps); rewrite Hrun, <- app_assoc; cbn [app].
        split; [reflexivity |].
        cbn [map name]; now rewrite Hnames.
    + exact (IH acc Hall).
Qed.

Lemma analyze_all_unreadable :
  forall (before after : list dir_item) (item : dir_item) (e : string)
         (acc : list app_info),
    forallb harmless before = true ->
    is_application item = true ->
    requirements_txt (contents item) = Some (Raised e) ->
    analyze_all lower (before ++ item :: after) acc = Raised e.
Proof.
  induction before as [| b before IH]; intros after item e acc Hall Happ Hreq.
  - cbn [app analyze_all]; rewrite Happ.
    destruct (analyze_application_cases lower (contents item))
      as [[e' [Hreq' ->]] | [Hreadable _]].
    + congruence.
    + unfold requirements_readable in Hreadable; rewrite Hreq in Hreadable.
      discriminate.
  - cbn [forallb] in Hall; apply andb_prop in Hall as [Hb Hall].
    cbn [app analyze_all].
    unfold harmless in Hb.
    destruct (is_application b) eqn:Hbapp; cbn [negb orb] in Hb.
    + destruct (analyze_application_cases lower (contents b))
        as [[e' [Hreq' _]] | [_ [deps [detected [_ ->]]]]].
      * unfold requirements_readable in Hb; rewrite Hreq' in Hb.
        discriminate.
      * now apply IH.
    + now apply IH.
Qed.

End Discovery.

(** X17. Discovery reports exactly the directories that are not hidden and
    hold a [requirements.txt], in the order of the listing and under
    their names, when each of these files can be read; what it returns is
    what it writes to the registry, and when the registry cannot be
    written it raises and returns nothing. *)
Theorem discovery_lists_visible_applications :
  forall (lower : text -> text) (items : list dir_item),
    forallb harmless items = true ->
    exists apps : list app_info,
      _discover_applications lower items (Returned tt)
      = (Returned apps, Some apps)
      /\ map name apps
         = map (fun item => dir_name (contents item))
               (filter is_application items)
      /\ (forall e : string,
             _discover_applications lower items (Raised e)
             = (Raised e, None)).
Proof.
  intros lower items Hall.
  destruct (analyze_all_harmless lower items [] Hall) as [apps [Hrun Hnames]].
  exists apps; unfold _discover_applications; rewrite Hrun; cbn [app].
  repeat split; assumption.
Qed.

Lemma discovery_lists_visible_applications_witness :
  forallb harmless [hidden_dir; {| is_dir := true; contents := sample_app |}]
  = true
  /\ exists apps : list app_info,
      fst (_discover_applications ascii_lower
             [hidden_dir; {| is_dir := true; contents := sample_app |}]
             (Returned tt)) = Returned apps
      /\ map name apps = ["chatbot"].
Proof.
  split; [reflexivity |].
  destruct (discovery_lists_visible_applications ascii_lower
              [hidden_dir; {| is_dir := true; contents := sample_app |}]
              eq_refl) as [apps [Hrun [Hnames _]]].
  exists apps; split; [now rewrite Hrun | exact Hnames].
Defined.

(** X18. One application whose [requirements.txt] cannot be read aborts
    discovery: the error of reading it is raised, the applications
    analyzed before it are lost, the entries after it are not looked at,
    and no registry is written. *)
Theorem unreadable_requirements_abort_discovery :
  forall (lower : text -> text) (before after : list dir_item)
         (item : dir_item) (e : string) (write_registry : py_result unit),
    forallb harmless before = true ->
    is_application item = true ->
    requirements_txt (contents item) = Some (Raised e) ->
    _discover_applications lower (before ++ item :: after) write_registry
    = (Raised e, None).
Proof.
  intros lower before after item e write_registry Hall Happ Hreq.
  unfold _discover_applications.
  now rewrite (analyze_all_unreadable lower before after item e [] Hall
                 Happ Hreq).
Qed.

Lemma unreadable_requirements_abort_discovery_witness :
  forallb harmless [{| is_dir := true; contents := sample_app |}] = true
  /\ is_application unreadable_app = true
  /\ requirements_txt (contents unreadable_app)
     = Some (Raised "[Errno 13] Permission denied")
  /\ _discover_applications ascii_lower
       [{| is_dir := true; contents := sample_app |}; unreadable_app;
        hidden_dir]
       (Returned tt)
     = (Raised "[Errno 13] Permission denied", None).
Proof.
  split; [reflexivity |]; split; [reflexivity |]; split; [reflexivity |].
  exact (unreadable_requirements_abort_discovery ascii_lower
           [{| is_dir := true; contents := sample_app |}] [hidden_dir]
           unreadable_app "[Errno 13] Permission denied" (Returned tt)
           eq_refl eq_refl eq_refl).
Defined.

End AnalysisFacts.

(** ** The test functions of the battery *)

Module ProbeFacts.

Import Text AIAppTester AIAppTesterProbes TestBatteryExtras TextExamples.

Lemma dependencies_passed : forall self : application,
    status_is (outcome (_test_dependencies self)) "passed"
    = dependencies_installable self.
Proof.
  intros self; unfold _test_dependencies, dependencies_installable.
  destruct (requirements_exists self); [| reflexivity].
  destruct (pip_dry_run self) as [rc out err | e | e]; try reflexivity.
  cbn; destruct (rc =? 0); reflexivity.
Qed.

Lemma unit_tests_passed : forall self : application,
    status_is (outcome (_run_unit_tests self)) "passed"
    = unit_tests_pass self.
Proof.
  intros self; unfold _run_unit_tests, unit_tests_pass.
  destruct (tests_dir_exists self || test_dir_exists self
            || testing_dir_exists self); [| reflexivity].
  destruct (pytest self) as [rc out err | e | e]; try reflexivity.
  cbn; destruct (rc =? 0); reflexivity.
Qed.

Lemma security_scan_passed : forall self : application,
    status_is (outcome (_run_security_scan self)) "passed"
    = scan_is_clean self.
Proof.
  intros self; unfold _run_security_scan, scan_is_clean.
  destruct (pip_install_safety self) as [rc out err | e | e];
    try reflexivity.
  cbn [exits_with_0]; destruct (rc =? 0); [| reflexivity].
  destruct (requirements_exists self); [| reflexivity].
  destruct (safety_check self) as [rc' out' err' | e | e]; try reflexivity.
  cbn; destruct (rc' =? 0); reflexivity.
Qed.

Section Lower.

Variable lower : text -> text.

Lemma configuration_passed : forall self : application,
    status_is (outcome (_test_configuration lower self)) "passed"
    = has_configuration self && configuration_documented lower self.
Proof.
  intros self;
    unfold _test_configuration, has_configuration, configuration_documented.
  destruct (readme self) as [[content | e] |].
  - destruct (env_example_exists self), (config_yaml_exists self),
      (settings_py_exists self), (config_json_exists self);
      cbn [app List.length Nat.eqb negb andb orb];
      destruct (contains (lit "environment") (lower content)
                || contains (lit "config") (lower content));
      reflexivity.
  - now rewrite andb_false_r.
  - destruct (env_example_exists self), (config_yaml_exists self),
      (settings_py_exists self), (config_json_exists self); reflexivity.
Qed.

Lemma ai_models_passed : forall self : application,
    status_is (outcome (_test_ai_models lower self)) "passed"
    = requirements_usable self.
Proof.
  intros self; unfold _test_ai_models, requirements_usable.
  destruct (requirements_exists self); [| reflexivity].
  destruct (requirements_content self); reflexivity.
Qed.

Lemma passed_count_of_application : forall self : application,
    count_status "passed" (outcomes (test_suite (tests_of lower self)))
    = Z.b2z (dependencies_installable self)
      + Z.b2z (has_configuration self && configuration_documented lower self)
      + Z.b2z (unit_tests_pass self)
      + Z.b2z (scan_is_clean self)
      + Z.b2z (requirements_usable self).
Proof.
  intros self; rewrite passed_count_of_suite; unfold tests_of.
  cbn [AIAppTester._test_dependencies AIAppTester._test_configuration
       AIAppTester._run_unit_tests AIAppTester._run_security_scan
       AIAppTester._test_ai_models].
  now rewrite dependencies_passed, configuration_passed, unit_tests_passed,
    security_scan_passed, ai_models_passed.
Qed.

End Lower.

(** X19. The best verdict an application can get is "good", and it gets
    it exactly when all of these hold: [requirements.txt] exists and the
    dry-run installation exits with 0; a configuration file exists and the
    README mentions the environment or the configuration; a test
    directory exists and pytest exits with 0; the scanner installs, and
    exits with 0 on the requirements; and the requirements can be read. *)
Theorem good_verdict_conditions :
  forall (lower : text -> text) (self : application),
  exists r,
    run_full_test_suite (tests_of lower self) = Returned r
    /\ (overall_status r = "good"
        <-> dependencies_installable self
            && (has_configuration self
                && configuration_documented lower self)
            && unit_tests_pass self
            && scan_is_clean self
            && requirements_usable self = true).
Proof.
  intros lower self.
  destruct (full_suite_result (tests_of lower self)) as [_ [_ Hrun]].
  eexists; split; [exact Hrun |]; cbn [overall_status].
  rewrite passed_count_of_application.
  destruct (dependencies_installable self),
    (has_configuration self && configuration_documented lower self),
    (unit_tests_pass self), (scan_is_clean self), (requirements_usable self);
    cbn; split; intros H; try reflexivity; discriminate.
Qed.

(** X20. An application directory without a [requirements.txt] always
    gets the verdict "poor": the dependency check fails and the security
    scan cannot pass, so at most three of the seven tests pass. *)
Theorem missing_requirements_give_poor :
  forall (lower : text -> text) (self : application),
    requirements_exists self = false ->
    exists r,
      run_full_test_suite (tests_of lower self) = Returned r
      /\ count_status "passed" (tests r) <= 3
      /\ overall_status r = "poor".
Proof.
  intros lower self Hmissing.
  destruct (full_suite_result (tests_of lower self)) as [_ [_ Hrun]].
  eexists; split; [exact Hrun |]; cbn [overall_status tests].
  rewrite passed_count_of_application.
  unfold dependencies_installable, scan_is_clean; rewrite Hmissing.
  rewrite andb_false_r; cbn [andb Z.b2z].
  destruct (has_configuration self && configuration_documented lower self),
    (unit_tests_pass self), (requirements_usable self);
    cbn; split; try lia; reflexivity.
Qed.

Lemma missing_requirements_give_poor_witness :
  requirements_exists bare_application = false
  /\ exists r,
      run_full_test_suite (tests_of ascii_lower bare_application) = Returned r
      /\ count_status "passed" (tests r) = 3
      /\ overall_status r = "poor".
Proof.
  split; [reflexivity |].
  destruct (missing_requirements_give_poor ascii_lower bare_application
              eq_refl) as [r [Hrun [_ Hpoor]]].
  exists r; split; [exact Hrun |]; split; [| exact Hpoor].
  vm_compute in Hrun; injection Hrun as <-; reflexivity.
Defined.

(** X21. The report never carries what the security scanner found.  When
    the scanner reports vulnerabilities the only recommendation for the
    scan is "Fix security_scan: Unknown error", because the result has no
    ["error"] key; when there is no [requirements.txt] to scan it is the
    reminder with the text "Not implemented"; in every other case,
    including every error of the scan, there is none. *)
Theorem security_scan_recommendation :
  forall self : application,
    recommendation_of ("security_scan", outcome (_run_security_scan self))
    = if vulnerabilities_found self then
        ["🔴 Fix security_scan: Unknown error"]
      else if scan_skipped self then
        ["⚠️ Implement security_scan: Not implemented"]
      else [].
Proof.
  intros self;
    unfold _run_security_scan, vulnerabilities_found, scan_skipped.
  destruct (pip_install_safety self) as [rc out err | e | e];
    try reflexivity.
  cbn [exits_with_0]; destruct (rc =? 0); [| reflexivity].
  destruct (requirements_exists self); [| reflexivity].
  destruct (safety_check self) as [rc' out' err' | e | e]; try reflexivity.
  cbn [andb negb]; destruct (rc' =? 0); reflexivity.
Qed.

End ProbeFacts.

(** ** Follow-up tasks *)

Module TaskFacts.

Import TaskManagementIntegrator HealthProbe.

Section Services.

Variable now : string.
Variable due : Z -> Z -> string.
Variable create : task -> py_result (string * Z).
Variable notify : task -> py_result unit.

(** The loop returns the tasks whose issue was created, in order. *)
Lemma create_tasks_from :
  forall (tasks acc : list task) (errors : list string),
    fst (fold_left (create_task create notify) tasks (acc, errors))
    = acc ++ flat_map (fun t => created (create t) t) tasks.
Proof.
  induction tasks as [| t tasks IH]; intros acc errors.
  - simpl; now rewrite app_nil_r.
  - cbn [fold_left flat_map]; unfold create_task at 2, created at 2.
    destruct (create t) as [[url number] | e].
    + destruct (notify (with_issue t url number));
        rewrite IH, <- app_assoc; reflexivity.
    + now rewrite IH.
Qed.

(** The error records only grow. *)
Lemma create_tasks_errors :
  forall (tasks acc : list task) (errors : list string),
  exists more : list string,
    snd (fold_left (create_task create notify) tasks (acc, errors))
    = errors ++ more.
Proof.
  induction tasks as [| t tasks IH]; intros acc errors.
  - exists []; simpl; now rewrite app_nil_r.
  - cbn [fold_left]; unfold create_task at 2.
    destruct (create t) as [[url number] | e].
    + destruct (notify (with_issue t url number)) as [u | e].
      * apply IH.
      * edestruct IH as [more Hmore]; rewrite Hmore.
        eexists; now rewrite <- app_assoc.
    + edestruct IH as [more Hmore]; rewrite Hmore.
      eexists; now rewrite <- app_assoc.
Qed.

Lemma create_tasks_logs_notification_failure :
  forall (tasks acc : list task) (errors : list string) (t : task)
         (url : string) (number : Z) (e : string),
    In t tasks ->
    create t = Returned (url, number) ->
    notify (with_issue t url number) = Raised e ->
    In ("Failed to create task " ++ title t ++ ": " ++ e)%string
       (snd (fold_left (create_task create notify) tasks (acc, errors))).
Proof.
  induction tasks as [| t0 tasks IH];
    intros acc errors t url number e Hin Hcreate Hnotify.
  - contradiction.
  - destruct Hin as [-> | Hin].
    + cbn [fold_left]; unfold create_task at 2.
      rewrite Hcreate, Hnotify.
      edestruct create_tasks_errors as [more Hmore]; rewrite Hmore.
      apply in_or_app; left; apply in_or_app; right; left; reflexivity.
    + cbn [fold_left].
      destruct (create_task create notify (acc, errors) t0) as [acc' errors'].
      now apply (IH acc' errors' t url number e).
Qed.

End Services.

(** X22. The returned follow-up tasks are exactly the tasks whose GitHub
    issue was created, in their order and with the issue's URL and
    number, whatever the Slack notification does.  When the notification
    of a created task raises, the task is still returned, and the error is
    logged as a failure to create it. *)
Theorem followup_tasks_follow_issue_creation :
  forall (now : string) (due : Z -> Z -> string)
         (create : task -> py_result (string * Z))
         (notify : task -> py_result unit)
         (app : string) (deployment_info : dict string),
    fst (create_deployment_followup_tasks now due create notify app
           deployment_info)
    = flat_map (fun t => created (create t) t)
               (followup_tasks now due app deployment_info)
    /\ (forall (t : task) (url : string) (number : Z) (e : string),
           In t (followup_tasks now due app deployment_info) ->
           create t = Returned (url, number) ->
           notify (with_issue t url number) = Raised e ->
           In (with_issue t url number)
              (fst (create_deployment_followup_tasks now due create notify
                      app deployment_info))
           /\ In ("Failed to create task " ++ title t ++ ": " ++ e)%string
                 (snd (create_deployment_followup_tasks now due create notify
                         app deployment_info))).
Proof.
  intros now due create notify app deployment_info.
  unfold create_deployment_followup_tasks.
  rewrite create_tasks_from, app_nil_l.
  split; [reflexivity |].
  intros t url number e Hin Hcreate Hnotify; split.
  - apply in_flat_map; exists t; split; [exact Hin |].
    rewrite Hcreate; now left.
  - now apply (create_tasks_logs_notification_failure create notify _ _ _ t
                 url number e).
Qed.

Lemma followup_tasks_follow_issue_creation_witness :
  exists t : task,
    In t (followup_tasks "2024-05-01T10:00:00" (fun _ _ => "later") "chatbot"
            [])
    /\ mock_create_github_issue (fun _ => -7) t
       = Returned ("https://github.com/repo/issues/993", 993)
    /\ (fun _ : task => @Raised unit "channel_not_found")
         (with_issue t "https://github.com/repo/issues/993" 993)
       = Raised "channel_not_found"
    /\ In ("Failed to create task " ++ title t ++ ": channel_not_found")%string
          (snd (create_deployment_followup_tasks
                  "2024-05-01T10:00:00" (fun _ _ => "later")
                  (mock_create_github_issue (fun _ => -7))
                  (fun _ => Raised "channel_not_found") "chatbot" [])).
Proof.
  destruct (followup_tasks_follow_issue_creation
              "2024-05-01T10:00:00" (fun _ _ => "later")
              (mock_create_github_issue (fun _ => -7))
              (fun _ => Raised "channel_not_found") "chatbot" [])
    as [_ Hlogged].
  eexists; split; [left; reflexivity |].
  split; [reflexivity |]; split; [reflexivity |].
  refine (proj2 (Hlogged _ "https://github.com/repo/issues/993" 993
                   "channel_not_found" _ eq_refl eq_refl)).
  left; reflexivity.
Defined.

(** X23. With the issue creation of the source, a deployment always gets
    its five follow-up tasks, in the order performance monitoring,
    security validation, documentation, testing, optimization, and no
    error is logged.  Each task carries the application, the deployment
    id (none when the key is missing) and the environment ("staging"
    when the key is missing); its issue number lies between 0 and 999,
    also for a negative hash, and ends its issue URL. *)
Theorem deployment_gets_five_followup_tasks :
  forall (now : string) (due : Z -> Z -> string) (hash : string -> Z)
         (app : string) (deployment_info : dict string),
    let r := create_deployment_followup_tasks
               now due (mock_create_github_issue hash)
               mock_send_slack_notification app deployment_info in
    snd r = []
    /\ map category (fst r)
       = ["performance_monitoring"; "security_validation"; "documentation";
          "testing"; "optimization"]
    /\ Forall
         (fun t =>
            app_name t = app
            /\ deployment_id t = dict_get "deployment_id" deployment_info
            /\ environment t
               = dict_get_default "environment" "staging" deployment_info
            /\ exists n : Z,
                0 <= n < 1000
                /\ n = hash (title t) mod 1000
                /\ github_issue_number t = Some n
                /\ github_issue_url t
                   = Some ("https://github.com/repo/issues/" ++ str_int n)%string)
         (fst r).
Proof.
  intros now due hash app deployment_info r; subst r.
  unfold create_deployment_followup_tasks, followup_tasks.
  cbn [fold_left create_task mock_create_github_issue
       mock_send_slack_notification with_issue title List.app fst snd map
       category].
  split; [reflexivity |]; split; [reflexivity |].
  repeat constructor;
    (eexists; split; [apply Z.mod_pos_bound; lia |];
     split; [reflexivity |]; split; reflexivity).
Qed.

End TaskFacts.
